(** * streaming_scraper.py: the link resolution pipeline

    A shallow embedding of [StreamingScraper] (src/streaming_scraper.py):
    link extraction, validation, the resolver client, the batch pipeline
    and the result display, with the properties of the specification
    stated and settled against it.

    Conventions of the embedding.
    - A Python [str] is a [string]; a character stands for the code point
      of the same number (0..255).
    - An exception is a value of [exn]; code that can raise returns a
      [result]; [try_except] is the [try: ... except Exception] block.
    - Console output, [time.sleep] and the HTTP request are recorded, in
      program order, in a trace of [event]s threaded through the monad
      [M].  A [print] is recorded with the values it interpolates, not
      with the rendered text.
    - [urlparse] (urllib) and the answer of the remote service are
      parameters of the development; [UrlLib.urlparse] is a model of
      CPython's function used for the concrete examples. *)

From Stdlib Require Import Ascii NArith ZArith QArith Lia.
From Stdlib Require Import DecimalString.
From stdpp Require Import base option list gmap sets strings.

Set Default Proof Using "Type".
Local Open Scope bool_scope.

(** ** Python strings *)

Module Str.

Definition ord (c : ascii) : N := N_of_ascii c.
Definition chr (n : N) : ascii := ascii_of_N n.

Definition between (lo hi n : N) : bool := (lo <=? n)%N && (n <=? hi)%N.

(** Characters with a lowercase mapping below code point 256:
    [A-Z], and the Latin-1 capitals U+00C0..U+00DE except U+00D7. *)
Definition is_upper (c : ascii) : bool :=
  let n := ord c in
  between 65 90 n || (between 192 222 n && negb (n =? 215)%N).

Definition lower_char (c : ascii) : ascii :=
  if is_upper c then chr (ord c + 32) else c.

(** [s.lower()] *)
Fixpoint lower (s : string) : string :=
  match s with
  | EmptyString => EmptyString
  | String c s' => String (lower_char c) (lower s')
  end.

(** [c.upper()] on the ASCII letters [a-z]. *)
Definition ascii_upper_char (c : ascii) : ascii :=
  if between 97 122 (ord c) then chr (ord c - 32) else c.

Fixpoint ascii_upper (s : string) : string :=
  match s with
  | EmptyString => EmptyString
  | String c s' => String (ascii_upper_char c) (ascii_upper s')
  end.

(** [s.startswith(p)] *)
Fixpoint startswith (p s : string) : bool :=
  match p, s with
  | EmptyString, _ => true
  | String a p', String b s' => if Ascii.eqb a b then startswith p' s' else false
  | String _ _, EmptyString => false
  end.

(** [needle in hay] *)
Fixpoint contains (needle hay : string) : bool :=
  startswith needle hay ||
  match hay with
  | EmptyString => false
  | String _ hay' => contains needle hay'
  end.

(** [c in s] for a character *)
Fixpoint mem (c : ascii) (s : string) : bool :=
  match s with
  | EmptyString => false
  | String a s' => Ascii.eqb a c || mem c s'
  end.

(** [s[:n]] *)
Fixpoint take (n : nat) (s : string) : string :=
  match n, s with
  | S n', String c s' => String c (take n' s')
  | _, _ => EmptyString
  end.

(** [s[n:]] *)
Fixpoint drop (n : nat) (s : string) : string :=
  match n, s with
  | S n', String _ s' => drop n' s'
  | _, _ => s
  end.

(** [s.partition(c)]: text before the first [c], whether [c] was found,
    text after it. *)
Fixpoint partition (c : ascii) (s : string) : string * bool * string :=
  match s with
  | EmptyString => (EmptyString, false, EmptyString)
  | String a s' =>
      if Ascii.eqb a c then (EmptyString, true, s')
      else let '(b, f, r) := partition c s' in (String a b, f, r)
  end.

(** The third component of [s.rpartition(c)]: the text after the last
    [c], the whole of [s] when there is none. *)
Fixpoint after_last (c : ascii) (s : string) : string :=
  match s with
  | EmptyString => EmptyString
  | String a s' => if mem c s' then after_last c s'
                   else if Ascii.eqb a c then s' else s
  end.

Fixpoint remove_chars (bad : ascii -> bool) (s : string) : string :=
  match s with
  | EmptyString => EmptyString
  | String a s' => if bad a then remove_chars bad s'
                   else String a (remove_chars bad s')
  end.

Fixpoint lstrip (bad : ascii -> bool) (s : string) : string :=
  match s with
  | EmptyString => EmptyString
  | String a s' => if bad a then lstrip bad s' else s
  end.

Fixpoint all_in (cls : ascii -> bool) (s : string) : bool :=
  match s with
  | EmptyString => true
  | String a s' => cls a && all_in cls s'
  end.

(** [s[:i]] and [s[i:]] where [i] is the first position whose
    character satisfies [stop] ([len(s)] when there is none). *)
Fixpoint break (stop : ascii -> bool) (s : string) : string * string :=
  match s with
  | EmptyString => (EmptyString, EmptyString)
  | String a s' => if stop a then (EmptyString, s)
                   else let '(b, r) := break stop s' in (String a b, r)
  end.

End Str.

(** ** Exceptions and results *)

Record exn : Type := Raise { exn_class : string; exn_msg : string }.

Inductive result (A : Type) : Type :=
| Ok (a : A)
| Err (e : exn).
Arguments Ok {A} a.
Arguments Err {A} e.

Definition rbind {A B} (r : result A) (f : A -> result B) : result B :=
  match r with
  | Ok a => f a
  | Err e => Err e
  end.

(** [try: body / except Exception as e: handler e] *)
Definition try_except {A} (body : result A) (handler : exn -> result A) : result A :=
  match body with
  | Ok a => Ok a
  | Err e => handler e
  end.

Declare Scope py_scope.
Delimit Scope py_scope with py.
Notation "x <- r ;; k" := (rbind r (fun x => k))
  (at level 100, r at next level, right associativity) : py_scope.

(** ** Regular expressions: the fragment used by [url_pattern] *)

Module Re.

Inductive regex : Type :=
| Lit (s : string)                 (* a literal text *)
| Chr (c : ascii)                  (* one literal character *)
| Seq (a b : regex)
| Opt (a : regex)                  (* a?      (greedy) *)
| PlusSet (cls : ascii -> bool)    (* [...]+  (greedy) *)
| StarSet (cls : ascii -> bool).   (* [...]*  (greedy) *)

(** A backtracking matcher in continuation-passing style: [k] is what
    remains to be matched, and the answer is the text left over once
    the whole pattern has matched.  Greedy operators try the longest
    alternative first, as [re] does. *)
Fixpoint lit (p s : string) (k : string -> option string) : option string :=
  match p, s with
  | EmptyString, _ => k s
  | String a p', String b s' => if Ascii.eqb a b then lit p' s' k else None
  | String _ _, EmptyString => None
  end.

Fixpoint star (cls : ascii -> bool) (s : string) (k : string -> option string)
  : option string :=
  match s with
  | String c s' =>
      if cls c then
        match star cls s' k with
        | Some r => Some r
        | None => k s
        end
      else k s
  | EmptyString => k s
  end.

Fixpoint rmatch (r : regex) (s : string) (k : string -> option string)
  : option string :=
  match r with
  | Lit p => lit p s k
  | Chr c => match s with
             | String c' s' => if Ascii.eqb c c' then k s' else None
             | EmptyString => None
             end
  | Seq a b => rmatch a s (fun s1 => rmatch b s1 k)
  | Opt a => match rmatch a s k with
             | Some r => Some r
             | None => k s
             end
  | PlusSet cls => match s with
                   | String c s' => if cls c then star cls s' k else None
                   | EmptyString => None
                   end
  | StarSet cls => star cls s k
  end.

(** [re.findall(r, text)] for a pattern without groups: the matches
    from left to right, each search resuming where the previous match
    ended.  [skip] counts the characters of the running match that are
    still to be passed over. *)
Fixpoint findall_from (r : regex) (skip : nat) (s : string) : list string :=
  match skip with
  | S n =>
      match s with
      | String _ s' => findall_from r n s'
      | EmptyString => []
      end
  | O =>
      match rmatch r s Some with
      | Some rest =>
          let n := (String.length s - String.length rest)%nat in
          Str.take n s ::
            match s with
            | String _ s' => findall_from r (n - 1) s'
            | EmptyString => []
            end
      | None =>
          match s with
          | String _ s' => findall_from r 0 s'
          | EmptyString => []
          end
      end
  end.

Definition findall (r : regex) (text : string) : list string :=
  findall_from r 0 text.

(** [\s] on [str] patterns, for code points below 256. *)
Definition is_space (c : ascii) : bool :=
  let n := Str.ord c in
  Str.between 9 13 n || Str.between 28 32 n || (n =? 133)%N || (n =? 160)%N.

(** The language of a pattern. *)
Fixpoint matches (r : regex) (m : string) : Prop :=
  match r with
  | Lit p => m = p
  | Chr c => m = String c EmptyString
  | Seq a b => exists m1 m2, m = m1 +:+ m2 /\ matches a m1 /\ matches b m2
  | Opt a => m = EmptyString \/ matches a m
  | PlusSet cls => m <> EmptyString /\ Str.all_in cls m = true
  | StarSet cls => Str.all_in cls m = true
  end.

End Re.

(** ** JSON values, as [response.json()] returns them *)

#[warnings="-register-all"]
Inductive json : Type :=
| JNull
| JBool (b : bool)
| JInt (z : Z)
| JFloat (q : Q)
| JStr (s : string)
| JList (l : list json)
| JDict (kvs : list (string * json)).

Module Json.

Fixpoint assoc (key : string) (kvs : list (string * json)) : option json :=
  match kvs with
  | [] => None
  | (k, v) :: kvs' => if String.eqb k key then Some v else assoc key kvs'
  end.

(** [type(v).__name__] *)
Definition type_name (v : json) : string :=
  match v with
  | JNull => "NoneType"
  | JBool _ => "bool"
  | JInt _ => "int"
  | JFloat _ => "float"
  | JStr _ => "str"
  | JList _ => "list"
  | JDict _ => "dict"
  end.

(** [d.get(key, dflt)]; only a dict has the method. *)
Definition get (d : json) (key : string) (dflt : json) : result json :=
  match d with
  | JDict kvs => Ok (default dflt (assoc key kvs))
  | _ => Err (Raise "AttributeError"
                ("'" +:+ type_name d +:+ "' object has no attribute 'get'"))
  end.

(** Truth value of a JSON value in a condition. *)
Definition truthy (v : json) : bool :=
  match v with
  | JNull => false
  | JBool b => b
  | JInt z => negb (z =? 0)%Z
  | JFloat q => negb (Qeq_bool q 0)
  | JStr s => negb (String.eqb s "")
  | JList l => match l with [] => false | _ => true end
  | JDict kvs => match kvs with [] => false | _ => true end
  end.

(** [v == s] for a string literal [s]. *)
Definition eq_str (v : json) (s : string) : bool :=
  match v with
  | JStr t => String.eqb t s
  | _ => false
  end.

(** [v / d] for a positive int [d].  An int too large for the quotient
    to fit a float raises; the rounding of the quotient to a float is
    not represented. *)
Definition true_div (v : json) (d : Z) : result Q :=
  match v with
  | JInt z =>
      if ((2 ^ 1024 - 2 ^ 970) * d <=? Z.abs z)%Z
      then Err (Raise "OverflowError" "integer division result too large for a float")
      else Ok (inject_Z z / inject_Z d)%Q
  | JBool b => Ok (inject_Z (if b then 1 else 0) / inject_Z d)%Q
  | JFloat q => Ok (q / inject_Z d)%Q
  | _ => Err (Raise "TypeError"
                ("unsupported operand type(s) for /: '" +:+ type_name v
                 +:+ "' and 'int'"))
  end.

(** [v[:n]]; a dict takes the slice for a key, which raises as well
    (the class of that exception depends on the version of Python). *)
Definition slice_to (n : nat) (v : json) : result json :=
  match v with
  | JStr s => Ok (JStr (Str.take n s))
  | JList l => Ok (JList (take n l))
  | JDict _ => Err (Raise "TypeError" "unhashable type: 'slice'")
  | _ => Err (Raise "TypeError"
                ("'" +:+ type_name v +:+ "' object is not subscriptable"))
  end.

End Json.

(** ** Records of the pipeline *)

(** The six components [urlparse] returns. *)
Record ParseResult : Type := {
  scheme : string;
  netloc : string;
  path : string;
  params : string;
  query : string;
  fragment : string
}.

(** The dict built by [validate_link]; the two optional keys are present
    in one of its two shapes each. *)
Record Validation : Type := {
  v_url : string;
  v_host : string;
  v_valid : bool;
  v_supported : bool;
  v_host_type : option string;
  v_error : option string
}.

(** The dict describing the resolution of one link; an optional field is
    [None] when the dict has no such key. *)
Record Outcome : Type := {
  success : bool;
  data : option json;
  error : option json;
  original_link : string;
  host : option string
}.

(** The lines the program prints, each with the values it shows. *)
Inductive line : Type :=
| LProcessing (count : nat)                             (* "Processing {n} links..." *)
| LLink (i count : nat) (hostname : option string)      (* "[{i}/{n}] {hostname}" *)
| LUnlocked (filename : json) (size_mb : Q)
| LUnlockError (err : json)
| LNote (note : string)
| LText (text : string)
| LSuccess (filename : json)
| LSize (size_mb : Q)
| LDownload (link : json)
| LBlank
| LFailed (host : option string)
| LError (err : json)
| LSummary (successful failed : Z)
| LSuccessRate (percent : Q).

Inductive event : Type :=
| Print (l : line)
| Sleep (seconds : Z)
| Post (url apikey link : string) (timeout : Z).

Definition is_sleep (e : event) : bool :=
  match e with Sleep _ => true | _ => false end.

Definition is_post (e : event) : bool :=
  match e with Post _ _ _ _ => true | _ => false end.

(** ** Effects: a trace of events and exceptions *)

Definition M (A : Type) : Type := list event -> result A * list event.

Definition ret {A} (a : A) : M A := fun t => (Ok a, t).

Definition bind {A B} (m : M A) (f : A -> M B) : M B :=
  fun t => match m t with
           | (Ok a, t') => f a t'
           | (Err e, t') => (Err e, t')
           end.

Definition lift {A} (r : result A) : M A := fun t => (r, t).

Definition emit (e : event) : M unit := fun t => (Ok tt, t ++ [e]).

Definition print (l : line) : M unit := emit (Print l).

(** [time.sleep(seconds)] *)
Definition sleep (seconds : Z) : M unit := emit (Sleep seconds).

(** [try: body / except Exception as e: handler e], with effects. *)
Definition try_except_M {A} (body : M A) (handler : exn -> M A) : M A :=
  fun t => match body t with
           | (Ok a, t') => (Ok a, t')
           | (Err e, t') => handler e t'
           end.

Declare Scope eff_scope.
Delimit Scope eff_scope with eff.
Notation "x <- m ;; k" := (bind m (fun x => k))
  (at level 100, m at next level, right associativity) : eff_scope.
Notation "m ;; k" := (bind m (fun _ => k))
  (at level 100, right associativity) : eff_scope.

(** ** What the program takes from its platform *)

Class Platform : Type := {
  (** [urllib.parse.urlparse] *)
  urlparse : string -> result ParseResult;
  (** [requests.post(url, data={'apikey': k, 'link': l}, timeout=30).json()]:
      the decoded answer, or the exception raised by the request or by
      the decoding.  The answer may depend on everything done so far. *)
  post_json : list event -> string -> string -> string -> result json
}.

(** ** urllib.parse *)

Module UrlLib.

Definition code_in (codes : list N) (c : ascii) : bool :=
  existsb (N.eqb (Str.ord c)) codes.

Definition is_ascii_alpha (c : ascii) : bool :=
  Str.between 65 90 (Str.ord c) || Str.between 97 122 (Str.ord c).

(** [scheme_chars]: letters, digits, [+], [-], [.] *)
Definition is_scheme_char (c : ascii) : bool :=
  is_ascii_alpha c || Str.between 48 57 (Str.ord c) || code_in [43; 45; 46]%N c.

(** [_WHATWG_C0_CONTROL_OR_SPACE] *)
Definition is_c0_or_space (c : ascii) : bool := (Str.ord c <=? 32)%N.

(** [_UNSAFE_URL_BYTES_TO_REMOVE]: tab, carriage return, newline *)
Definition is_unsafe (c : ascii) : bool := code_in [9; 13; 10]%N c.

(** [uses_params]; only the split of [params] depends on it. *)
Definition uses_params : list string :=
  [""; "ftp"; "hdl"; "prospero"; "http"; "imap"; "https"; "shttp"; "rtsp";
   "rtspu"; "sip"; "sips"; "mms"; "sftp"; "tel"].

(** The [hostname] property of a parse result (with [_hostinfo]). *)
Definition hostname (p : ParseResult) : option string :=
  let hostinfo := Str.after_last "@" (netloc p) in
  let '(_, have_open_br, bracketed) := Str.partition "[" hostinfo in
  let name :=
    if (have_open_br : bool) then (Str.partition "]" bracketed).1.1
    else (Str.partition ":" hostinfo).1.1 in
  match name with
  | EmptyString => None
  | _ =>
      let '(h, percent, zone) := Str.partition "%" name in
      Some (Str.lower h +:+ (if (percent : bool) then "%" else "") +:+ zone)
  end.

(** The scheme, when the text before the first colon is one. *)
Definition split_scheme (url : string) : string * string :=
  let '(before, found, after) := Str.partition ":" url in
  match before with
  | String c0 _ =>
      if found && is_ascii_alpha c0 && Str.all_in is_scheme_char before
      then (Str.lower before, after)
      else (EmptyString, url)
  | EmptyString => (EmptyString, url)
  end.

(** [_splitparams] *)
Definition splitparams (url : string) : string * string :=
  let seg := Str.after_last "/" url in
  let head := Str.take (String.length url - String.length seg) url in
  let '(b, found, a) := Str.partition ";" seg in
  if (found : bool) then (head +:+ b, a) else (url, EmptyString).

(** [urlparse(url)] as recent versions of CPython 3 compute it on ASCII
    text ([urlsplit], then the split of the parameters).  Not
    represented: the check of the address between a balanced pair of
    brackets (made by later versions), and the normalisation check of
    a network location holding characters outside ASCII. *)
Definition urlparse (url : string) : result ParseResult :=
  let url := Str.lstrip is_c0_or_space url in
  let url := Str.remove_chars is_unsafe url in
  let '(sch, url) := split_scheme url in
  let '(loc, url) :=
    if Str.startswith "//" url
    then Str.break (code_in [47; 63; 35]%N) (Str.drop 2 url)
    else (EmptyString, url) in
  if xorb (Str.mem "[" loc) (Str.mem "]" loc)
  then Err (Raise "ValueError" "Invalid IPv6 URL")
  else
    let '(url, _, frag) := Str.partition "#" url in
    let '(url, _, qry) := Str.partition "?" url in
    let '(url, prm) :=
      if existsb (String.eqb sch) uses_params && Str.mem ";" url
      then splitparams url else (url, EmptyString) in
    Ok {| scheme := sch; netloc := loc; path := url; params := prm;
          query := qry; fragment := frag |}.

End UrlLib.

(** ** Loops *)

(** [for x in xs: body], the loop state passed along; a raise ends it. *)
Fixpoint for_each {A St} (body : St -> A -> result St) (xs : list A) (s : St)
  : result St :=
  match xs with
  | [] => Ok s
  | x :: xs' => (s' <- body s x ;; for_each body xs' s')%py
  end.

(** [for i, x in enumerate(xs, i0): body], with effects. *)
Fixpoint for_enumerate {A St} (body : St -> nat -> A -> M St) (i0 : nat)
  (xs : list A) (s : St) : M St :=
  match xs with
  | [] => ret s
  | x :: xs' => (s' <- body s i0 x ;; for_enumerate body (S i0) xs' s')%eff
  end.

(** ** class StreamingScraper *)

Record StreamingScraper : Type := {
  alldebrid_api_key : option string;
  alldebrid_base_url : string;
  processing_mode : string;
  supported_hosts : list string
}.

(** [get_supported_hosts] *)
Definition get_supported_hosts : list string :=
  [ "uploaded.net"; "rapidgator.net"; "nitroflare.com";
    "katfile.com"; "uptobox.com"; "1fichier.com";
    "filerio.com"; "turbobit.net"; "userupload.net";
    "ddownload.com"; "dropapk.to"; "k2s.cc";
    "keep2share.cc"; "filefactory.com"; "oboom.com";
    "rapidrar.com"; "file-up.org"; "uploadgig.com" ].

(** The fields [__init__] sets (its three banner lines are left out). *)
Definition init (api_key : option string) : StreamingScraper :=
  {| alldebrid_api_key := api_key;
     alldebrid_base_url := "https://api.alldebrid.com/v4";
     processing_mode := "manual";
     supported_hosts := get_supported_hosts |}.

(** Truth value of [self.alldebrid_api_key]: [None] and the empty text
    are false. *)
Definition has_key (self : StreamingScraper) : bool :=
  match alldebrid_api_key self with
  | Some k => negb (String.eqb k "")
  | None => false
  end.

(** The text sent as [apikey]. *)
Definition key_text (self : StreamingScraper) : string :=
  default EmptyString (alldebrid_api_key self).

(** [any(host in hostname for host in self.supported_hosts)] *)
Definition any_host_in (self : StreamingScraper) (hostname : string) : bool :=
  existsb (fun host => Str.contains host hostname) (supported_hosts self).

(** The character class of [url_pattern]: anything but white space,
    angle brackets, the double and the single quote, parentheses, braces
    and square brackets (code points 60 62 34 39 40 41 123 125 91 93). *)
Definition url_char (c : ascii) : bool :=
  negb (Re.is_space c ||
        UrlLib.code_in [60; 62; 34; 39; 40; 41; 123; 125; 91; 93]%N c).

(** [url_pattern], with C for the class above:
    http s? :// C+ (?: / C* )? *)
Definition url_pattern : Re.regex :=
  Re.Seq (Re.Lit "http")
    (Re.Seq (Re.Opt (Re.Chr "s"))
       (Re.Seq (Re.Lit "://")
          (Re.Seq (Re.PlusSet url_char)
             (Re.Opt (Re.Seq (Re.Chr "/") (Re.StarSet url_char)))))).

Section Scraper.

Context `{Platform}.
Variable self : StreamingScraper.

(** [urlparse(url).hostname.lower()]; [hostname] is [None] when the
    link has no host, and [None] has no [lower]. *)
Definition hostname_lower (url : string) : result string :=
  (p <- urlparse url ;;
   match UrlLib.hostname p with
   | Some h => Ok (Str.lower h)
   | None => Err (Raise "AttributeError"
                    "'NoneType' object has no attribute 'lower'")
   end)%py.

(** The body of the loop of [extract_links_from_text]; its [except]
    is bare and catches every exception. *)
Definition keep_if_supported (valid_links : list string) (url : string)
  : result (list string) :=
  try_except
    (hostname <- hostname_lower url ;;
     if any_host_in self hostname
     then Ok (valid_links ++ [url])
     else Ok valid_links)%py
    (fun _ => Ok valid_links).

(** [list(set(valid_links))]; the order in which a set is listed is
    not specified, [elements] fixes one. *)
Definition list_set (l : list string) : list string :=
  elements (list_to_set l : gset string).

Definition extract_links_from_text (text : string) : result (list string) :=
  let urls := Re.findall url_pattern text in
  (valid_links <- for_each keep_if_supported urls [] ;;
   Ok (list_set valid_links))%py.

Definition validate_link (link : string) : result Validation :=
  try_except
    (hostname <- hostname_lower link ;;
     let info := {| v_url := link; v_host := hostname; v_valid := true;
                    v_supported := false; v_host_type := Some "unknown";
                    v_error := None |} in
     Ok (if any_host_in self hostname
         then {| v_url := v_url info; v_host := v_host info;
                 v_valid := v_valid info; v_supported := true;
                 v_host_type := Some hostname; v_error := v_error info |}
         else info))%py
    (fun e => Ok {| v_url := link; v_host := "invalid"; v_valid := false;
                    v_supported := false; v_host_type := None;
                    v_error := Some (exn_msg e) |}).

(** [requests.post(...)] followed by [response.json()]. *)
Definition post (url link : string) : M json :=
  fun t => (post_json t url (key_text self) link,
            t ++ [Post url (key_text self) link 30]).

Definition failure (reason : json) (link : string) (h : option string) : Outcome :=
  {| success := false; data := None; error := Some reason;
     original_link := link; host := h |}.

Definition unlock_with_alldebrid (link : string) : M Outcome :=
  if negb (has_key self) then
    ret (failure (JStr "No AllDebrid API key provided") link None)
  else
    try_except_M
      (let url := alldebrid_base_url self +:+ "/link/unlock" in
       response <- post url link ;;
       status <- lift (Json.get response "status" JNull) ;;
       if Json.eq_str status "success" then
         payload <- lift (Json.get response "data" JNull) ;;
         ret {| success := true; data := Some payload; error := None;
                original_link := link; host := None |}
       else
         reason <- lift (Json.get response "error" (JStr "Unknown error")) ;;
         ret (failure reason link None))%eff
      (fun e => ret (failure (JStr (exn_msg e)) link None)).

(** [size / (1024 * 1024) if size else 0] *)
Definition size_in_mb (size : json) : result Q :=
  if Json.truthy size then Json.true_div size (1024 * 1024) else Ok 0%Q.

(** Lines 163-171: the line shown for the answer of the resolver. *)
Definition show_unlock (unlock_result : Outcome) : M unit :=
  (if success unlock_result then
     let payload := default (JDict []) (data unlock_result) in
     filename <- lift (Json.get payload "filename" (JStr "Unknown")) ;;
     size <- lift (Json.get payload "size" (JInt 0)) ;;
     size_mb <- lift (size_in_mb size) ;;
     print (LUnlocked filename size_mb)
   else
     print (LUnlockError (default (JStr "Unknown error") (error unlock_result))))%eff.

(** The body of the loop of [process_links_batch]; [count] is
    [len(links)].  The first branch ends in [continue]. *)
Definition process_link (count : nat) (results : list Outcome) (i : nat)
  (link : string) : M (list Outcome) :=
  (p <- lift (urlparse link) ;;
   print (LLink i count (UrlLib.hostname p)) ;;
   validation <- lift (validate_link link) ;;
   if negb (v_valid validation) then
     ret (results ++ [failure (JStr "Invalid link format") link None])
   else
     results <-
       (if v_supported validation && has_key self then
          unlock_result <- unlock_with_alldebrid link ;;
          let results := results ++ [unlock_result] in
          show_unlock unlock_result ;;
          ret results
        else
          let note := if negb (has_key self) then "No AllDebrid API key"
                      else "Unsupported host" in
          print (LNote note) ;;
          ret (results ++ [failure (JStr note) link (Some (v_host validation))])) ;;
     (if (i <? count)%nat then sleep 1 else ret tt) ;;
     ret results)%eff.

Definition process_links_batch (links : list string) : M (list Outcome) :=
  (print (LProcessing (length links)) ;;
   for_enumerate (process_link (length links)) 1 links [])%eff.

(** [(successful/(successful+failed)*100) if (successful+failed) > 0],
    and the fixed [0%] otherwise.  The quotient is the exact one; its
    rounding to a float and to one decimal is not represented. *)
Definition success_rate (successful failed : Z) : Q :=
  if (0 <? successful + failed)%Z
  then (inject_Z successful / inject_Z (successful + failed) * 100)%Q
  else 0%Q.

(** The host shown for a failed link (line 290). *)
Definition shown_host (original : string) : result (option string) :=
  if negb (String.eqb original "Unknown")
  then (p <- urlparse original ;; Ok (UrlLib.hostname p))%py
  else Ok (Some "Unknown").

(** The body of the loop of [display_results]; the loop state is the
    pair of counters [(successful, failed)]. *)
Definition show_result (counts : Z * Z) (result : Outcome) : M (Z * Z) :=
  (let '(successful, failed) := counts in
   if success result then
     let successful := (successful + 1)%Z in
     let payload := default (JDict []) (data result) in
     filename <- lift (Json.get payload "filename" (JStr "Unknown file")) ;;
     size <- lift (Json.get payload "size" (JInt 0)) ;;
     size_mb <- lift (size_in_mb size) ;;
     print (LSuccess filename) ;;
     print (LSize size_mb) ;;
     link <- lift (Json.get payload "link" (JStr "No direct link")) ;;
     shown <- lift (Json.slice_to 60 link) ;;
     print (LDownload shown) ;;
     print LBlank ;;
     ret (successful, failed)
   else
     let failed := (failed + 1)%Z in
     let reason := default (JStr "Unknown error") (error result) in
     shown <- lift (shown_host (original_link result)) ;;
     print (LFailed shown) ;;
     print (LError reason) ;;
     print LBlank ;;
     ret (successful, failed))%eff.

Fixpoint for_results (results : list Outcome) (counts : Z * Z) : M (Z * Z) :=
  match results with
  | [] => ret counts
  | result :: rest => (counts' <- show_result counts result ;;
                       for_results rest counts')%eff
  end.

Definition display_results (results : list Outcome) : M unit :=
  (print (LText "============================================================") ;;
   print (LText "PROCESSING RESULTS") ;;
   print (LText "============================================================") ;;
   counts <- for_results results (0, 0)%Z ;;
   print (LText "------------------------------------------------------------") ;;
   print (LSummary counts.1 counts.2) ;;
   print (LSuccessRate (success_rate counts.1 counts.2)))%eff.

End Scraper.

(** ** A concrete platform, for the examples *)

(** A service that unlocks rapidgator links, cannot be reached for
    nitroflare links, and refuses every other link. *)
Definition demo_service (_ : list event) (_ _ link : string) : result json :=
  if Str.contains "rapidgator.net" link then
    Ok (JDict [("status", JStr "success");
               ("data", JDict [("filename", JStr "x.bin");
                               ("size", JInt 2097152);
                               ("link", JStr "https://dl.example/x.bin")])])
  else if Str.contains "nitroflare.com" link then
    Err (Raise "ConnectionError" "connection timed out")
  else
    Ok (JDict [("status", JStr "error"); ("error", JStr "LINK_DOWN")]).

Definition demo : Platform :=
  {| urlparse := UrlLib.urlparse; post_json := demo_service |}.

(** The success outcome that [demo_service] gives rise to. *)
Definition demo_success (link : string) : Outcome :=
  {| success := true;
     data := Some (JDict [("filename", JStr "x.bin"); ("size", JInt 2097152);
                          ("link", JStr "https://dl.example/x.bin")]);
     error := None; original_link := link; host := None |}.

(** Bytes that are no text at all. *)
Definition garbage : string :=
  String (Str.chr 0) (String (Str.chr 255) (String (Str.chr 254)
    (String (Str.chr 137) EmptyString))).

(** A service that declares success and sends no payload. *)
Definition bare_service (_ : list event) (_ _ _ : string) : result json :=
  Ok (JDict [("status", JStr "success")]).

Definition bare : Platform :=
  {| urlparse := UrlLib.urlparse; post_json := bare_service |}.

(** ** More of Python's strings *)

Module Text.

(** [s.rstrip()] for the characters of [bad] *)
Fixpoint rstrip (bad : ascii -> bool) (s : string) : string :=
  match s with
  | EmptyString => EmptyString
  | String a s' =>
      match rstrip bad s' with
      | EmptyString => if bad a then EmptyString else String a EmptyString
      | r => String a r
      end
  end.

(** [s.strip()]: white space is what [str.isspace] accepts, the class
    of [\s]. *)
Definition strip (s : string) : string :=
  rstrip Re.is_space (Str.lstrip Re.is_space s).

(** [s.rsplit(c, 1)[0]]: the text before the last [c], the whole of [s]
    when there is none. *)
Definition before_last (c : ascii) (s : string) : string :=
  if Str.mem c s
  then Str.take (String.length s - String.length (Str.after_last c s) - 1) s
  else s.

(** [str(n)] for a natural number *)
Definition of_nat (n : nat) : string :=
  NilEmpty.string_of_uint (Nat.to_uint n).

End Text.

(** ** The shell around the pipeline: keyboard and files *)

(** What a call of [input()] meets: a line typed (without its newline)
    or the interrupt key.  At the end of the input, [input()] raises
    [EOFError]. *)
Inductive keyboard : Type :=
| Line (text : string)
| Interrupt.

(** What became of an attempt to write a results file.  The attempts
    are kept as a log; what a file holds afterwards is not represented
    (opening a file for writing empties a file of that name). *)
Inductive write_attempt : Type :=
| Saved (filename : string) (results : list Outcome)
| SaveFailed (filename : string) (e : exn).

(** The world of the shell: the events so far, the input not yet read,
    the attempts made to write files. *)
Record World : Type := {
  trace : list event;
  stdin : list keyboard;
  disk : list write_attempt
}.

(** What the shell takes from the file system. *)
Class FileSystem : Type := {
  (** [open(filename, 'r', encoding='utf-8').read()]: the text, or the
      exception raised by opening or decoding. *)
  read_text : string -> result string;
  (** The exception, if any, that [open(filename, 'w', encoding='utf-8')]
      or [json.dump] raises for these results, given the earlier
      attempts. *)
  dump_fault : list write_attempt -> string -> list Outcome -> option exn
}.

Definition Sh (A : Type) : Type := World -> result A * World.

Definition sh_ret {A} (a : A) : Sh A := fun w => (Ok a, w).

Definition sh_bind {A B} (m : Sh A) (f : A -> Sh B) : Sh B :=
  fun w => match m w with
           | (Ok a, w') => f a w'
           | (Err e, w') => (Err e, w')
           end.

(** A computation of the pipeline, run on the events of the world. *)
Definition core {A} (m : M A) : Sh A :=
  fun w => let '(r, t') := m (trace w) in
           (r, {| trace := t'; stdin := stdin w; disk := disk w |}).

(** [print(text)].  The lines of the shell are given by their text,
    without the pictograph that opens them, the blanks around it and the
    empty line that some of them begin with. *)
Definition say (text : string) : Sh unit := core (print (LText text)).

(** [try: body / except <class> as e: handler e]; any other exception
    goes on. *)
Definition sh_except {A} (cls : string) (body : Sh A) (handler : exn -> Sh A)
  : Sh A :=
  fun w => match body w with
           | (Ok a, w') => (Ok a, w')
           | (Err e, w') => if String.eqb (exn_class e) cls then handler e w'
                            else (Err e, w')
           end.

(** [try: body / except Exception as e: handler e] *)
Definition sh_except_all {A} (body : Sh A) (handler : exn -> Sh A) : Sh A :=
  fun w => match body w with
           | (Ok a, w') => (Ok a, w')
           | (Err e, w') => handler e w'
           end.

Declare Scope sh_scope.
Delimit Scope sh_scope with sh.
Notation "x <- m ;; k" := (sh_bind m (fun x => k))
  (at level 100, m at next level, right associativity) : sh_scope.
Notation "m ;; k" := (sh_bind m (fun _ => k))
  (at level 100, right associativity) : sh_scope.

(** The exceptions of [input()]: at the end of the input, and at the
    interrupt key. *)
Definition end_of_input : exn := Raise "EOFError" "EOF when reading a line".

Definition interrupted : exn := Raise "KeyboardInterrupt" EmptyString.

(** [input(prompt)]: the prompt is printed, then a line is read. *)
Definition ask (prompt : string) : Sh string :=
  fun w =>
    let t := trace w ++ [Print (LText prompt)] in
    match stdin w with
    | [] => (Err end_of_input, {| trace := t; stdin := []; disk := disk w |})
    | Line text :: rest =>
        (Ok text, {| trace := t; stdin := rest; disk := disk w |})
    | Interrupt :: rest =>
        (Err interrupted, {| trace := t; stdin := rest; disk := disk w |})
    end.

(** [json.dump(results, open(filename, 'w', encoding='utf-8'), ...)] *)
Definition dump `{FileSystem} (filename : string) (results : list Outcome)
  : Sh unit :=
  fun w =>
    match dump_fault (disk w) filename results with
    | None => (Ok tt, {| trace := trace w; stdin := stdin w;
                         disk := disk w ++ [Saved filename results] |})
    | Some e => (Err e, {| trace := trace w; stdin := stdin w;
                           disk := disk w ++ [SaveFailed filename e] |})
    end.

(** [with open(filename, 'r', encoding='utf-8') as f: f.read()] *)
Definition read `{FileSystem} (filename : string) : Sh string :=
  fun w => (read_text filename, w).

(** The link of [test_alldebrid_connection]. *)
Definition test_link : string := "https://uploaded.net/file/test123".

Section Shell.

Context `{Platform} `{FileSystem}.
Variable self : StreamingScraper.

(** [test_alldebrid_connection]; the lines are shown without their
    pictographs.  [error.lower()] raises unless [error] is a text. *)
Definition test_alldebrid_connection : M bool :=
  (print (LText "Testing AllDebrid connection...") ;;
   if negb (has_key self) then
     print (LText "No AllDebrid API key configured") ;;
     ret false
   else
     test_result <- unlock_with_alldebrid self test_link ;;
     if success test_result then
       print (LText "AllDebrid connection successful!") ;;
       ret true
     else
       match default (JStr "Unknown error") (error test_result) with
       | JStr reason =>
           if Str.contains "API key" (Str.lower reason) then
             print (LText ("API key issue: " +:+ reason)) ;;
             ret false
           else if Str.contains "link" (Str.lower reason) then
             print (LText "AllDebrid connection successful! (Test link failed as expected)") ;;
             ret true
           else
             print (LText ("Connection issue: " +:+ reason)) ;;
             ret false
       | other =>
           lift (Err (Raise "AttributeError"
                        ("'" +:+ Json.type_name other
                         +:+ "' object has no attribute 'lower'")))
       end)%eff.

Definition save_results (results : list Outcome) (base_filename : string)
  : Sh unit :=
  let filename := base_filename +:+ "_results.json" in
  sh_except_all
    (dump filename results ;;
     say ("Results saved to: " +:+ filename))%sh
    (fun e => say ("Error saving results: " +:+ exn_msg e)).

Definition process_links_from_file (filename : string) : Sh unit :=
  sh_except_all
    (sh_except "FileNotFoundError"
       (content <- read filename ;;
        say ("Reading links from: " +:+ filename) ;;
        links <- core (lift (extract_links_from_text self content)) ;;
        match links with
        | [] => say "No valid download links found in file."
        | _ =>
            say ("Found " +:+ Text.of_nat (length links) +:+ " valid links") ;;
            results <- core (process_links_batch self links) ;;
            core (display_results results) ;;
            save_results results (Text.before_last "." filename +:+ "_processed")
        end)%sh
       (fun _ => say ("File '" +:+ filename +:+ "' not found.")))
    (fun e => say ("Error processing file: " +:+ exn_msg e)).

(** The text of the prompt for the next link. *)
Definition link_prompt (links : list string) : string :=
  match links with
  | [] => "Enter first link (or 'done'): "
  | _ => "Link #" +:+ Text.of_nat (length links + 1) +:+ " (or 'done'): "
  end.

(** [link.lower() in ['done', 'exit', 'quit']] *)
Definition is_stop (link : string) : bool :=
  existsb (String.eqb (Str.lower link)) ["done"; "exit"; "quit"].

(** The loop of [manual_link_input_mode], on the input still to come:
    it gives the links gathered and the input left. *)
Fixpoint read_links (input : list keyboard) (links : list string)
  : M (list string * list keyboard) :=
  match input with
  | [] =>
      (print (LText (link_prompt links)) ;;
       lift (Err end_of_input))%eff
  | Interrupt :: rest =>
      (print (LText (link_prompt links)) ;;
       print (LText "Input cancelled by user") ;;
       ret (links, rest))%eff
  | Line typed :: rest =>
      (print (LText (link_prompt links)) ;;
       let link := Text.strip typed in
       if is_stop link then ret (links, rest)
       else if negb (String.eqb link "") then
         validation <- lift (validate_link self link) ;;
         if v_valid validation then
           (if v_supported validation
            then print (LText ("Added: " +:+ v_host validation))
            else print (LText ("Added: " +:+ v_host validation
                               +:+ " (unsupported)"))) ;;
           read_links rest (links ++ [link])
         else
           print (LText "Invalid link format") ;;
           read_links rest links
       else
         print (LText "Please enter a valid link or 'done'") ;;
         read_links rest links)%eff
  end.

(** The loop, run on the input of the world. *)
Definition gather_links : Sh (list string) :=
  fun w => let '(r, t') := read_links (stdin w) [] (trace w) in
           match r with
           | Ok (links, rest) =>
               (Ok links, {| trace := t'; stdin := rest; disk := disk w |})
           | Err e => (Err e, {| trace := t'; stdin := []; disk := disk w |})
           end.

Definition manual_link_input_mode : Sh unit :=
  (say "============================================================" ;;
   say "MANUAL LINK INPUT MODE" ;;
   say "============================================================" ;;
   say "Paste download links one by one." ;;
   say "Type 'done' when finished or 'quit' to exit." ;;
   say ("Supported hosts: " +:+ Text.of_nat (length (supported_hosts self))
        +:+ " providers") ;;
   say "Examples: uploaded.net, rapidgator.net, nitroflare.com, etc." ;;
   links <- gather_links ;;
   match links with
   | [] => say "No links provided."
   | _ =>
       say ("Processing " +:+ Text.of_nat (length links) +:+ " links...") ;;
       results <- core (process_links_batch self links) ;;
       core (display_results results) ;;
       save_results results "manual_processing"
   end)%sh.

(** [show_status] *)
Definition show_status : Sh unit :=
  (say "============================================================" ;;
   say "STREAMING SCRAPER STATUS" ;;
   say "============================================================" ;;
   say "Processing Mode: Manual Only" ;;
   say ("AllDebrid API: "
        +:+ (if has_key self then "Configured" else "Not Configured")) ;;
   say ("Supported Hosts: " +:+ Text.of_nat (length (supported_hosts self))
        +:+ " providers") ;;
   (if has_key self
    then say ("API Endpoint: " +:+ alldebrid_base_url self)
    else sh_ret tt) ;;
   say "Available Features:" ;;
   say "Manual link input and validation" ;;
   say "Batch processing from text files" ;;
   say "Link filtering for supported hosts" ;;
   say "AllDebrid integration for premium links" ;;
   say "Rate limiting and error handling" ;;
   say "Results export to JSON" ;;
   say "Sample Usage:" ;;
   say "1. Enter links manually one by one" ;;
   say "2. Process text files containing links" ;;
   say "3. Get direct download URLs via AllDebrid")%sh.

(** One turn of the loop of [main], on the scraper [self]: the menu, the
    choice and what it runs; the answer is whether the loop ends. *)
Definition menu_turn : Sh bool :=
  (say "========================================" ;;
   say "MAIN MENU" ;;
   say "========================================" ;;
   say "1. Show Status" ;;
   say "2. Manual Link Input" ;;
   say "3. Process Links from File" ;;
   say "4. Test AllDebrid Connection" ;;
   say "5. Exit" ;;
   typed <- ask "Select option (1-5): " ;;
   let choice := Text.strip typed in
   if String.eqb choice "1" then
     show_status ;; sh_ret false
   else if String.eqb choice "2" then
     manual_link_input_mode ;; sh_ret false
   else if String.eqb choice "3" then
     typed <- ask "Enter filename (e.g., links.txt): " ;;
     let filename := Text.strip typed in
     (if negb (String.eqb filename "")
      then process_links_from_file filename
      else sh_ret tt) ;;
     sh_ret false
   else if String.eqb choice "4" then
     core test_alldebrid_connection ;; sh_ret false
   else if String.eqb choice "5" then
     say "Goodbye!" ;; sh_ret true
   else
     say "Invalid option. Please select 1-5." ;; sh_ret false)%sh.

(** The loop of [main], for at most [fuel] turns; [None] when the turns
    do not suffice. *)
Fixpoint menu_loop (fuel : nat) (w : World) : option (result unit * World) :=
  match fuel with
  | 0 => None
  | S fuel' =>
      match menu_turn w with
      | (Ok true, w') => Some (Ok tt, w')
      | (Ok false, w') => menu_loop fuel' w'
      | (Err e, w') => Some (Err e, w')
      end
  end.

End Shell.

(** [StreamingScraper(alldebrid_api_key=api_key)], with the lines that
    [__init__] prints. *)
Definition new_scraper (api_key : option string) : Sh StreamingScraper :=
  (say "Streaming Scraper - Manual Processing Mode" ;;
   say "AllDebrid integration ready" ;;
   say "Manual link input and file processing" ;;
   sh_ret (init api_key))%sh.

(** The part of [main] before its loop: the key is asked for, and the
    scraper made. *)
Definition configure : Sh StreamingScraper :=
  (say "Streaming Scraper - Manual Processing Mode" ;;
   say "==================================================" ;;
   say "AllDebrid Configuration" ;;
   typed <- ask "Enter AllDebrid API key (optional, press Enter to skip): " ;;
   let api_key := Text.strip typed in
   api_key <- (if negb (String.eqb api_key "")
               then sh_ret (Some api_key)
               else (say "Continuing without AllDebrid API key" ;;
                     sh_ret None)) ;;
   new_scraper api_key)%sh.

(** [main].  Every turn of its loop reads a line, so the loop makes no
    more turns than there are lines left, and one more turn is enough
    to meet the end of the input. *)
Definition main `{Platform} `{FileSystem} (w : World)
  : option (result unit * World) :=
  match configure w with
  | (Ok scraper, w') => menu_loop scraper (S (length (stdin w'))) w'
  | (Err e, w') => Some (Err e, w')
  end.

(** ** A concrete file system, for the examples *)

Definition demo_read (filename : string) : result string :=
  if String.eqb filename "links.txt" then
    Ok "first http://example.com/file then http://rapidgator.net/x and http://k2s.cc/y"
  else if String.eqb filename "notes.txt" then
    Ok "nothing to fetch here"
  else if String.eqb filename "odd.bin" then
    Err (Raise "UnicodeDecodeError" "'utf-8' codec can't decode byte 0xff")
  else
    Err (Raise "FileNotFoundError" "[Errno 2] No such file or directory").

(** A disk that takes every file. *)
Definition demo_fs : FileSystem :=
  {| read_text := demo_read; dump_fault := fun _ _ _ => None |}.

(** A disk that takes none. *)
Definition full_fs : FileSystem :=
  {| read_text := demo_read;
     dump_fault := fun _ _ _ =>
       Some (Raise "OSError" "[Errno 28] No space left on device") |}.

Definition start (keys : list keyboard) : World :=
  {| trace := []; stdin := keys; disk := [] |}.

(** A service that refuses the key, giving the reason as a text. *)
Definition denying : Platform :=
  {| urlparse := UrlLib.urlparse;
     post_json := fun _ _ _ _ =>
       Ok (JDict [("status", JStr "error");
                  ("error", JStr "The auth API key is invalid")]) |}.

(** A service that gives the reason of a refusal as an object. *)
Definition objecting : Platform :=
  {| urlparse := UrlLib.urlparse;
     post_json := fun _ _ _ _ =>
       Ok (JDict [("status", JStr "error");
                  ("error", JDict [("code", JStr "AUTH_BAD_APIKEY");
                                   ("message", JStr "The auth apikey is invalid")])]) |}.


(** ** Vocabulary of the statements *)

(** A link is accepted by [validate_link] when its parse has a host. *)
Definition link_valid `{Platform} (link : string) : bool :=
  match hostname_lower link with
  | Ok _ => true
  | Err _ => false
  end.

(** The filter of [extract_links_from_text] on one matched token. *)
Definition link_supported `{Platform} (self : StreamingScraper) (url : string)
  : bool :=
  match hostname_lower url with
  | Ok h => any_host_in self h
  | Err _ => false
  end.

(** Exactly one of payload and error reason is in the outcome, and it is
    the payload when [success] is set. *)
Definition exclusive (o : Outcome) : Prop :=
  (success o = true /\ is_Some (data o) /\ error o = None) \/
  (success o = false /\ is_Some (error o) /\ data o = None).

Definition returns {A} (run : result A * list event) : Prop :=
  exists a t, run = (Ok a, t).

Definition no_sleep (evs : list event) : Prop :=
  Forall (fun e => is_sleep e = false) evs.

Definition no_post (evs : list event) : Prop :=
  Forall (fun e => is_post e = false) evs.

(** The pause that ends the turn of link number [i] out of [count]. *)
Definition pause (count i : nat) : list event :=
  if (i <? count)%nat then [Sleep 1] else [].

(** The reason given for a link that is not sent to the service. *)
Definition note_for (self : StreamingScraper) : string :=
  if negb (has_key self) then "No AllDebrid API key" else "Unsupported host".

(** The request sent for a link. *)
Definition request (self : StreamingScraper) (link : string) : event :=
  Post (alldebrid_base_url self +:+ "/link/unlock") (key_text self) link 30.

(** One turn of the loop of [process_links_batch]: link number [i] out
    of [count] gave the outcome [o] and the events [seg]. *)
Definition turn `{Platform} (self : StreamingScraper) (count i : nat)
  (link : string) (o : Outcome) (seg : list event) : Prop :=
  exists results t,
    process_link self count results i link t = (Ok (results ++ [o]), t ++ seg).

Definition is_ok {A} (r : result A) : bool :=
  match r with Ok _ => true | Err _ => false end.

(** An outcome that [display_results] can show: a success whose payload
    is a dict with a size that divides and a link that can be cut, or a
    failure whose link parses. *)
Definition renderable `{Platform} (o : Outcome) : bool :=
  if success o then
    let payload := default (JDict []) (data o) in
    match Json.get payload "filename" (JStr "Unknown file"),
          Json.get payload "size" (JInt 0),
          Json.get payload "link" (JStr "No direct link") with
    | Ok _, Ok size, Ok link =>
        is_ok (size_in_mb size) && is_ok (Json.slice_to 60 link)
    | _, _, _ => false
    end
  else is_ok (shown_host (original_link o)).

(** The number of outcomes with [success] set, and with it unset. *)
Definition successes (results : list Outcome) : Z :=
  Z.of_nat (length (List.filter success results)).

Definition failures (results : list Outcome) : Z :=
  Z.of_nat (length (List.filter (fun o => negb (success o)) results)).

(** The three lines that end the display. *)
Definition summary_lines (successful failed : Z) : list event :=
  [Print (LText "------------------------------------------------------------");
   Print (LSummary successful failed);
   Print (LSuccessRate (success_rate successful failed))].

(** The requests a batch sends for a link: one, when the link is of a
    supported host and there is a key. *)
Definition posts_for `{Platform} (self : StreamingScraper) (link : string)
  : list event :=
  if link_supported self link && has_key self then [request self link] else [].

(** The outcome the batch gives, without calling the resolver, to a link
    that is not sent to the service. *)
Definition unsent_outcome `{Platform} (self : StreamingScraper) (link : string)
  : Outcome :=
  match hostname_lower link with
  | Ok h => failure (JStr (note_for self)) link (Some h)
  | Err _ => failure (JStr "Invalid link format") link None
  end.

(** The world with other events, and with one more write attempt. *)
Definition with_trace (w : World) (t : list event) : World :=
  {| trace := t; stdin := stdin w; disk := disk w |}.

(** Events that are all lines printed. *)
Definition only_prints (evs : list event) : Prop :=
  Forall (fun e => exists l, e = Print l) evs.

(** The line by which [process_links_from_file] reports an exception. *)
Definition file_report (filename : string) (e : exn) : string :=
  if String.eqb (exn_class e) "FileNotFoundError"
  then "File '" +:+ filename +:+ "' not found."
  else "Error processing file: " +:+ exn_msg e.

(** The file in which [process_links_from_file] saves. *)
Definition processed_name (filename : string) : string :=
  (Text.before_last "." filename +:+ "_processed") +:+ "_results.json".

Definition attempt_name (a : write_attempt) : string :=
  match a with
  | Saved filename _ => filename
  | SaveFailed filename _ => filename
  end.

(** What typing a line or the interrupt key ends the input loop. *)
Definition stops (k : keyboard) : bool :=
  match k with
  | Interrupt => true
  | Line typed => is_stop (Text.strip typed)
  end.

(** The links the input loop gathers from the input: the lines before
    the first that stops it, stripped, that are not empty and that
    validate. *)
Fixpoint typed_links `{Platform} (input : list keyboard) : list string :=
  match input with
  | [] => []
  | k :: rest =>
      if stops k then []
      else match k with
           | Line typed =>
               let link := Text.strip typed in
               if negb (String.eqb link "") && link_valid link
               then link :: typed_links rest
               else typed_links rest
           | Interrupt => []
           end
  end.

(** The input left after the first line that stops the loop. *)
Fixpoint after_stop (input : list keyboard) : list keyboard :=
  match input with
  | [] => []
  | k :: rest => if stops k then rest else after_stop rest
  end.

(** The lines that open [manual_link_input_mode]. *)
Definition manual_banner (self : StreamingScraper) : list event :=
  [Print (LText "============================================================");
   Print (LText "MANUAL LINK INPUT MODE");
   Print (LText "============================================================");
   Print (LText "Paste download links one by one.");
   Print (LText "Type 'done' when finished or 'quit' to exit.");
   Print (LText ("Supported hosts: "
                 +:+ Text.of_nat (length (supported_hosts self))
                 +:+ " providers"));
   Print (LText "Examples: uploaded.net, rapidgator.net, nitroflare.com, etc.")].

(** A computation of the pipeline that only adds events, none of them a
    request when [quiet] is set. *)
Definition calm (quiet : bool) {A} (m : M A) : Prop :=
  forall t r t', m t = (r, t') ->
    exists evs, t' = t ++ evs /\ (quiet = true -> no_post evs).

(** The same for a computation of the shell, which may also read input
    and write files, but puts no input back. *)
Definition tame (quiet : bool) {A} (m : Sh A) : Prop :=
  forall w r w', m w = (r, w') ->
    exists evs, trace w' = trace w ++ evs /\
                length (stdin w') <= length (stdin w) /\
                (quiet = true -> no_post evs).

(** The last line of a session that ends by the menu. *)
Definition goodbye : event := Print (LText "Goodbye!").

(** A field of an outcome is populated when its key is in the dict and
    its value is not [None]. *)
Definition populated (v : option json) : Prop :=
  exists x, v = Some x /\ x <> JNull.



(** * Properties *)

(** ** The model of [urlparse] on some links *)

Example urlparse_host_and_port :
  UrlLib.urlparse "http://user:pw@Host.Example:8080/p;a=1?q#f"
  = Ok {| scheme := "http"; netloc := "user:pw@Host.Example:8080";
          path := "/p"; params := "a=1"; query := "q"; fragment := "f" |}
  /\ UrlLib.hostname {| scheme := "http"; netloc := "user:pw@Host.Example:8080";
                        path := "/p"; params := "a=1"; query := "q";
                        fragment := "f" |} = Some "host.example".
Proof. split; reflexivity. Qed.

Example urlparse_no_host :
  UrlLib.urlparse "not a url"
  = Ok {| scheme := ""; netloc := ""; path := "not a url"; params := "";
          query := ""; fragment := "" |}.
Proof. reflexivity. Qed.

Example urlparse_open_bracket :
  UrlLib.urlparse "http://[abc" = Err (Raise "ValueError" "Invalid IPv6 URL").
Proof. reflexivity. Qed.

Example findall_example :
  Re.findall url_pattern
    "visit http://example.com/file and (https://k2s.cc/a/b) HTTP://k2s.cc/x http://"
  = ["http://example.com/file"; "https://k2s.cc/a/b"].
Proof. reflexivity. Qed.

(** ** Strings *)

#[local] Arguments String.append !_ _ / : simpl nomatch.

Module StrFacts.

Lemma startswith_spec p s :
  Str.startswith p s = true <-> exists post, s = p +:+ post.
Proof.
  revert s. induction p as [|a p IH]; intros s; simpl.
  - split; eauto.
  - destruct s as [|b s]; simpl.
    + split; [discriminate | intros [post Hp]; discriminate].
    + destruct (Ascii.eqb_spec a b) as [->|Hne].
      * rewrite IH. split; intros [post Hp]; exists post; simpl in *; congruence.
      * split; [discriminate | intros [post Hp]; simpl in Hp; congruence].
Qed.

Lemma contains_spec n h :
  Str.contains n h = true <-> exists pre post, h = pre +:+ n +:+ post.
Proof.
  induction h as [|c h IH]; simpl.
  - rewrite orb_false_r, startswith_spec. split.
    + intros [post Hp]. exists EmptyString, post. exact Hp.
    + intros ([|a pre] & post & Hp); [eauto | discriminate].
  - rewrite orb_true_iff, startswith_spec, IH. split.
    + intros [[post Hp] | (pre & post & Hp)].
      * exists EmptyString, post. exact Hp.
      * exists (String c pre), post. simpl. congruence.
    + intros ([|a pre] & post & Hp); simpl in Hp.
      * left. eauto.
      * right. exists pre, post. congruence.
Qed.

Lemma lower_char_upper c :
  Str.lower_char (Str.ascii_upper_char c) = Str.lower_char c.
Proof. destruct c as [[] [] [] [] [] [] [] []]; reflexivity. Qed.

Lemma lower_char_idem c :
  Str.lower_char (Str.lower_char c) = Str.lower_char c.
Proof. destruct c as [[] [] [] [] [] [] [] []]; reflexivity. Qed.

Lemma lower_ascii_upper s : Str.lower (Str.ascii_upper s) = Str.lower s.
Proof.
  induction s as [|c s IH]; simpl; [reflexivity|].
  by rewrite lower_char_upper, IH.
Qed.

Lemma lower_idem s : Str.lower (Str.lower s) = Str.lower s.
Proof.
  induction s as [|c s IH]; simpl; [reflexivity|].
  by rewrite lower_char_idem, IH.
Qed.

Lemma app_assoc (a b c : string) : (a +:+ b) +:+ c = a +:+ b +:+ c.
Proof. induction a as [|x a IH]; simpl; congruence. Qed.

Lemma app_length (a b : string) :
  String.length (a +:+ b) = (String.length a + String.length b)%nat.
Proof. induction a as [|x a IH]; simpl; congruence. Qed.

Lemma take_app (a b : string) : Str.take (String.length a) (a +:+ b) = a.
Proof. induction a as [|x a IH]; simpl; [by destruct b | congruence]. Qed.

End StrFacts.

(** ** The matcher *)

Module ReFacts.

Import StrFacts.

Lemma lit_sound p s k rest :
  Re.lit p s k = Some rest -> exists s1, s = p +:+ s1 /\ k s1 = Some rest.
Proof.
  revert s. induction p as [|a p IH]; intros s; simpl.
  - eauto.
  - destruct s as [|b s]; [discriminate|].
    destruct (Ascii.eqb_spec a b) as [->|]; [|discriminate].
    intros (s1 & -> & Hk)%IH. eauto.
Qed.

Lemma star_sound cls s k rest :
  Re.star cls s k = Some rest ->
  exists m s1, s = m +:+ s1 /\ Str.all_in cls m = true /\ k s1 = Some rest.
Proof.
  induction s as [|c s IH]; simpl.
  - intros Hk. exists EmptyString, EmptyString. auto.
  - destruct (cls c) eqn:Hc.
    + destruct (Re.star cls s k) as [r|] eqn:Hs.
      * intros [= ->]. destruct (IH eq_refl) as (m & s1 & -> & Hm & Hk).
        exists (String c m), s1. simpl. rewrite Hc. auto.
      * intros Hk. exists EmptyString, (String c s). auto.
    + intros Hk. exists EmptyString, (String c s). auto.
Qed.

(** Soundness: what the matcher consumes is in the language of the
    pattern, and the continuation ran on what was left. *)
Lemma rmatch_sound r : forall s k rest,
  Re.rmatch r s k = Some rest ->
  exists m s1, s = m +:+ s1 /\ Re.matches r m /\ k s1 = Some rest.
Proof.
  induction r as [p|c|a IHa b IHb|a IHa|cls|cls]; intros s k rest; simpl.
  - intros (s1 & -> & Hk)%lit_sound. eauto.
  - destruct s as [|c' s]; [discriminate|].
    destruct (Ascii.eqb_spec c c') as [->|]; [|discriminate].
    intros Hk. exists (String c' EmptyString), s. auto.
  - intros (m1 & s1 & -> & Hm1 & (m2 & s2 & -> & Hm2 & Hk)%IHb)%IHa.
    exists (m1 +:+ m2), s2. rewrite app_assoc. eauto 8.
  - destruct (Re.rmatch a s k) as [r|] eqn:Ha.
    + intros [= ->]. destruct (IHa _ _ _ Ha) as (m & s1 & -> & Hm & Hk).
      eauto 8.
    + intros Hk. exists EmptyString, s. auto.
  - destruct s as [|c s]; [discriminate|].
    destruct (cls c) eqn:Hc; [|discriminate].
    intros (m & s1 & -> & Hm & Hk)%star_sound.
    exists (String c m), s1. simpl. rewrite Hc. auto.
  - intros (m & s1 & -> & Hm & Hk)%star_sound. eauto.
Qed.

Lemma findall_from_0 r s :
  Re.findall_from r 0 s =
  match Re.rmatch r s Some with
  | Some rest =>
      Str.take (String.length s - String.length rest) s ::
        match s with
        | String _ s' =>
            Re.findall_from r (String.length s - String.length rest - 1) s'
        | EmptyString => []
        end
  | None =>
      match s with
      | String _ s' => Re.findall_from r 0 s'
      | EmptyString => []
      end
  end.
Proof. by destruct s. Qed.

Lemma rmatch_take r s rest :
  Re.rmatch r s Some = Some rest ->
  Re.matches r (Str.take (String.length s - String.length rest) s) /\
  Str.startswith (Str.take (String.length s - String.length rest) s) s = true.
Proof.
  intros (m & s1 & -> & Hr & [= <-])%rmatch_sound.
  rewrite app_length.
  replace (String.length m + String.length s1 - String.length s1)%nat
    with (String.length m) by lia.
  rewrite take_app. split; [exact Hr|].
  apply startswith_spec. eauto.
Qed.

(** Every element of [findall] is a match of the pattern and a piece
    of the text. *)
Lemma findall_from_sound r u : forall s skip,
  u ∈ Re.findall_from r skip s ->
  Re.matches r u /\ Str.contains u s = true.
Proof.
  assert (Hstep : forall c s, Str.contains u s = true ->
                              Str.contains u (String c s) = true).
  { intros c s Hs. simpl. rewrite Hs. apply orb_true_r. }
  assert (Hhead : forall s, Str.startswith u s = true ->
                            Str.contains u s = true).
  { intros s Hs. destruct s; simpl; rewrite Hs; reflexivity. }
  induction s as [|c s IH]; intros skip.
  - destruct skip as [|n]; [|by intros ?%elem_of_nil].
    rewrite findall_from_0.
    destruct (Re.rmatch r EmptyString Some) as [rest|] eqn:Hm;
      [|by intros ?%elem_of_nil].
    destruct (rmatch_take _ _ _ Hm) as [Hr Hp].
    intros ->%list_elem_of_singleton. auto.
  - destruct skip as [|n].
    + rewrite findall_from_0.
      destruct (Re.rmatch r (String c s) Some) as [rest|] eqn:Hm.
      * destruct (rmatch_take _ _ _ Hm) as [Hr Hp].
        intros [->|Hin]%elem_of_cons; [auto|].
        destruct (IH _ Hin). auto.
      * intros Hin. destruct (IH _ Hin). auto.
    + intros Hin. destruct (IH _ Hin). auto.
Qed.

Lemma findall_sound r text u :
  u ∈ Re.findall r text -> Re.matches r u /\ Str.contains u text = true.
Proof. apply findall_from_sound. Qed.

(** A match of [url_pattern] starts with the scheme in lower case. *)
Lemma url_pattern_scheme m :
  Re.matches url_pattern m ->
  Str.startswith "http://" m = true \/ Str.startswith "https://" m = true.
Proof.
  simpl.
  intros (m1 & r1 & -> & -> & m2 & r2 & -> & Hs & m3 & r3 & -> & -> & _).
  destruct Hs as [->| ->]; simpl; auto.
Qed.

Lemma rmatch_Seq a b s k :
  Re.rmatch (Re.Seq a b) s k = Re.rmatch a s (fun s1 => Re.rmatch b s1 k).
Proof. reflexivity. Qed.

Lemma rmatch_Lit_app p s k : Re.rmatch (Re.Lit p) (p +:+ s) k = k s.
Proof.
  induction p as [|c p IH]; [by destruct s|].
  simpl in *. by rewrite Ascii.eqb_refl.
Qed.

Lemma rmatch_Opt_Chr_hit c s k r :
  k s = Some r -> Re.rmatch (Re.Opt (Re.Chr c)) (String c s) k = Some r.
Proof. intros Hk. simpl. by rewrite Ascii.eqb_refl, Hk. Qed.

Lemma rmatch_Opt_Chr_miss c c' s k :
  c <> c' ->
  Re.rmatch (Re.Opt (Re.Chr c)) (String c' s) k = k (String c' s).
Proof.
  intros Hne. simpl. by destruct (Ascii.eqb_spec c c').
Qed.

(** A greedy class runs to the first character outside the class. *)
Lemma star_greedy cls run rest k r :
  Str.all_in cls run = true ->
  k rest = Some r ->
  Re.star cls (run +:+ rest) k = Some r \/
  exists c rest', rest = String c rest' /\ cls c = true.
Proof.
  intros Hrun Hk. induction run as [|c run IH]; simpl in *.
  - destruct rest as [|c rest']; simpl; [by left|].
    destruct (cls c) eqn:Hc; [right; eauto|by left].
  - apply andb_true_iff in Hrun as [Hc Hrun]. rewrite Hc.
    destruct (IH Hrun) as [-> | ?]; auto.
Qed.

(** The pattern matches a lower-case scheme followed by a run of
    characters of the class, up to the end of the run. *)
Lemma url_pattern_complete (secure : bool) run rest :
  run <> EmptyString ->
  Str.all_in url_char run = true ->
  Str.all_in url_char (Str.take 1 rest) = false \/ rest = EmptyString ->
  Re.rmatch url_pattern
    ((if secure then "https://" else "http://") +:+ run +:+ rest) Some
  = Some rest.
Proof.
  intros Hne Hrun Hrest.
  assert (Hend : Re.rmatch (Re.Opt (Re.Seq (Re.Chr "/") (Re.StarSet url_char)))
                   rest Some = Some rest).
  { destruct Hrest as [Hrest| ->]; [|reflexivity].
    destruct rest as [|c rest']; [reflexivity|]. cbn [Re.rmatch].
    destruct (Ascii.eqb "/" c) eqn:He; [|reflexivity].
    apply Ascii.eqb_eq in He as <-. discriminate Hrest. }
  assert (Hplus : Re.rmatch (Re.PlusSet url_char) (run +:+ rest)
                    (fun s1 => Re.rmatch
                       (Re.Opt (Re.Seq (Re.Chr "/") (Re.StarSet url_char)))
                       s1 Some) = Some rest).
  { remember (fun s1 => Re.rmatch
                  (Re.Opt (Re.Seq (Re.Chr "/") (Re.StarSet url_char)))
                  s1 Some) as k eqn:Hk.
    assert (k rest = Some rest) as Hkrest by (by subst k).
    clear Hk Hend.
    destruct run as [|c run]; [done|].
    change (String c run +:+ rest) with (String c (run +:+ rest)).
    cbn [Re.rmatch]. cbn [Str.all_in] in Hrun.
    apply andb_true_iff in Hrun as [Hc Hrun]. rewrite Hc.
    destruct (star_greedy url_char run rest _ _ Hrun Hkrest)
      as [Hs|(c' & rest' & -> & Hc')]; [exact Hs|].
    destruct Hrest as [Hrest|Hrest]; [|discriminate Hrest].
    cbn [Str.take Str.all_in] in Hrest. rewrite Hc' in Hrest.
    discriminate Hrest. }
  unfold url_pattern. rewrite rmatch_Seq. destruct secure.
  - change ("https://" +:+ run +:+ rest)
      with ("http" +:+ String "s" ("://" +:+ run +:+ rest)).
    rewrite rmatch_Lit_app, rmatch_Seq. apply rmatch_Opt_Chr_hit.
    rewrite rmatch_Seq, rmatch_Lit_app. exact Hplus.
  - change ("http://" +:+ run +:+ rest)
      with ("http" +:+ String ":" ("//" +:+ run +:+ rest)).
    rewrite rmatch_Lit_app, rmatch_Seq, rmatch_Opt_Chr_miss by done.
    change (String ":" ("//" +:+ run +:+ rest))
      with ("://" +:+ run +:+ rest).
    rewrite rmatch_Seq, rmatch_Lit_app. exact Hplus.
Qed.

End ReFacts.

(** ** The pipeline, one link at a time *)

Section PipelineFacts.

Context `{Platform}.
Variable self : StreamingScraper.

Lemma hostname_lower_Ok link h :
  hostname_lower link = Ok h <->
  exists p h0, urlparse link = Ok p /\ UrlLib.hostname p = Some h0 /\
               h = Str.lower h0.
Proof.
  unfold hostname_lower, rbind. destruct (urlparse link) as [p|e].
  - destruct (UrlLib.hostname p) as [h0|] eqn:Hh; split.
    + intros [= <-]. by exists p, h0.
    + intros (p' & h' & [= <-] & Hh' & ->). congruence.
    + discriminate.
    + intros (p' & h' & [= <-] & Hh' & _). congruence.
  - split; [discriminate | intros (p' & h' & [=] & _)].
Qed.

Lemma validate_link_valid link h :
  hostname_lower link = Ok h ->
  validate_link self link =
  Ok {| v_url := link; v_host := h; v_valid := true;
        v_supported := any_host_in self h;
        v_host_type := Some (if any_host_in self h then h else "unknown");
        v_error := None |}.
Proof.
  intros Hh. unfold validate_link. rewrite Hh. simpl.
  by destruct (any_host_in self h).
Qed.

Lemma validate_link_invalid link e :
  hostname_lower link = Err e ->
  validate_link self link =
  Ok {| v_url := link; v_host := "invalid"; v_valid := false;
        v_supported := false; v_host_type := None;
        v_error := Some (exn_msg e) |}.
Proof. intros Hh. unfold validate_link. by rewrite Hh. Qed.

Lemma unlock_without_key link t :
  has_key self = false ->
  unlock_with_alldebrid self link t
  = (Ok (failure (JStr "No AllDebrid API key provided") link None), t).
Proof. intros Hk. unfold unlock_with_alldebrid. by rewrite Hk. Qed.

(** With a key the resolver sends one request and always answers with
    an outcome, whatever the service does. *)
Lemma unlock_with_key link t :
  has_key self = true ->
  exists o,
    unlock_with_alldebrid self link t = (Ok o, t ++ [request self link]) /\
    original_link o = link /\ host o = None /\ exclusive o /\
    (forall e, post_json t (alldebrid_base_url self +:+ "/link/unlock")
                 (key_text self) link = Err e ->
               o = failure (JStr (exn_msg e)) link None).
Proof.
  intros Hk. unfold unlock_with_alldebrid, request. rewrite Hk. simpl.
  unfold try_except_M, bind, post, lift, ret.
  destruct (post_json t _ (key_text self) link) as [resp|e] eqn:Hpost.
  - destruct (Json.get resp "status" JNull) as [status|e1].
    + destruct (Json.eq_str status "success").
      * destruct (Json.get resp "data" JNull) as [payload|e2].
        -- eexists. split; [reflexivity|]. repeat split; try done.
           left. simpl. eauto.
        -- eexists. split; [reflexivity|]. repeat split; try done.
           right. simpl. eauto.
      * destruct (Json.get resp "error" (JStr "Unknown error")) as [reason|e2].
        -- eexists. split; [reflexivity|]. repeat split; try done.
           right. simpl. eauto.
        -- eexists. split; [reflexivity|]. repeat split; try done.
           right. simpl. eauto.
    + eexists. split; [reflexivity|]. repeat split; try done.
      right. simpl. eauto.
  - eexists. split; [reflexivity|]. repeat split; try done.
    + right. simpl. eauto.
    + by intros e' [= <-].
Qed.

(** A success outcome carries what the service sent as [data]. *)
Lemma unlock_success link t o t' :
  unlock_with_alldebrid self link t = (Ok o, t') ->
  success o = true ->
  exists response payload,
    post_json t (alldebrid_base_url self +:+ "/link/unlock")
      (key_text self) link = Ok response /\
    Json.get response "data" JNull = Ok payload /\
    data o = Some payload.
Proof.
  assert (Hfail : forall reason t0,
            (Ok (failure reason link None), t0) = (Ok o, t') ->
            success o = true -> False).
  { intros reason t0 [= <- _] Hs. simpl in Hs. discriminate. }
  unfold unlock_with_alldebrid.
  destruct (has_key self); simpl;
    [|intros Heq Hs; destruct (Hfail _ _ Heq Hs)].
  unfold try_except_M, bind, post, lift, ret.
  destruct (post_json t _ (key_text self) link) as [resp|e] eqn:Hpost;
    [|intros Heq Hs; destruct (Hfail _ _ Heq Hs)].
  destruct (Json.get resp "status" JNull) as [status|e1];
    [|intros Heq Hs; destruct (Hfail _ _ Heq Hs)].
  destruct (Json.eq_str status "success").
  - destruct (Json.get resp "data" JNull) as [payload|e2] eqn:Hdata;
      [|intros Heq Hs; destruct (Hfail _ _ Heq Hs)].
    intros [= <- _] _. exists resp, payload.
    split; [first [exact Hpost | reflexivity]|].
    split; [first [exact Hdata | reflexivity] | reflexivity].
  - destruct (Json.get resp "error" (JStr "Unknown error")) as [reason|e2];
      intros Heq Hs; destruct (Hfail _ _ Heq Hs).
Qed.

(** A success that can be shown has a dict for payload, if it has a
    payload at all. *)
Lemma show_unlock_payload o t t' payload :
  show_unlock o t = (Ok tt, t') -> success o = true ->
  data o = Some payload -> exists kvs, payload = JDict kvs.
Proof.
  unfold show_unlock, bind, lift. intros Hshow Hs Hd.
  rewrite Hs, Hd in Hshow. cbv zeta in Hshow.
  destruct payload as [| | | | | |kvs]; simpl in Hshow;
    try discriminate.
  by exists kvs.
Qed.

(** Showing the answer of the resolver prints one line, or raises
    before printing. *)
Lemma show_unlock_cases o t :
  (exists l, show_unlock o t = (Ok tt, t ++ [Print l])) \/
  (exists e, show_unlock o t = (Err e, t)).
Proof.
  unfold show_unlock, bind, lift, print, emit.
  destruct (success o); [|eauto].
  destruct (Json.get _ "filename" _) as [filename|e]; [|eauto].
  destruct (Json.get _ "size" _) as [size|e]; [|eauto].
  destruct (size_in_mb size) as [mb|e]; eauto.
Qed.

(** What one turn of the loop does, case by case. *)
Lemma process_link_cases count results i link t :
  match urlparse link with
  | Err e => process_link self count results i link t = (Err e, t)
  | Ok p =>
      let t1 := t ++ [Print (LLink i count (UrlLib.hostname p))] in
      match UrlLib.hostname p with
      | None =>
          process_link self count results i link t
          = (Ok (results ++ [failure (JStr "Invalid link format") link None]), t1)
      | Some h0 =>
          if any_host_in self (Str.lower h0) && has_key self then
            let t2 := t1 ++ [request self link] in
            exists o,
              unlock_with_alldebrid self link t1 = (Ok o, t2) /\
              ((exists l,
                   show_unlock o t2 = (Ok tt, t2 ++ [Print l]) /\
                   process_link self count results i link t
                   = (Ok (results ++ [o]), t2 ++ [Print l] ++ pause count i))
               \/
               (exists e,
                   show_unlock o t2 = (Err e, t2) /\
                   process_link self count results i link t = (Err e, t2)))
          else
            process_link self count results i link t
            = (Ok (results ++ [failure (JStr (note_for self)) link
                                 (Some (Str.lower h0))]),
               t1 ++ [Print (LNote (note_for self))] ++ pause count i)
      end
  end.
Proof.
  unfold process_link.
  destruct (urlparse link) as [p|e] eqn:Hp; [|reflexivity].
  destruct (UrlLib.hostname p) as [h0|] eqn:Hh; cbv zeta.
  - assert (hostname_lower link = Ok (Str.lower h0)) as Hl.
    { apply hostname_lower_Ok. eauto. }
    rewrite (validate_link_valid _ _ Hl).
    unfold bind, lift, print, emit. rewrite ?Hh.
    cbn [v_valid negb v_supported v_host].
    destruct (any_host_in self (Str.lower h0) && has_key self) eqn:Hc.
    + apply andb_true_iff in Hc as [_ Hk].
      destruct (unlock_with_key link
                  (t ++ [Print (LLink i count (Some h0))]) Hk)
        as (o & Hu & _).
      exists o. split; [exact Hu|].
      destruct (show_unlock_cases o
                  ((t ++ [Print (LLink i count (Some h0))]) ++ [request self link]))
        as [[l Hs]|[e Hs]]; [left; exists l|right; exists e];
        (split; [exact Hs|]);
        rewrite Hu, Hs; [|reflexivity].
      unfold pause, sleep, emit, ret.
      destruct (i <? count)%nat; simpl; by rewrite <- ?app_assoc.
    + unfold ret, pause, sleep, emit, note_for.
      destruct (i <? count)%nat; simpl; by rewrite <- ?app_assoc.
  - assert (exists e, hostname_lower link = Err e) as [e Hl].
    { unfold hostname_lower, rbind. rewrite Hp, Hh. eauto. }
    rewrite (validate_link_invalid _ _ Hl).
    unfold bind, lift, print, emit. by rewrite Hh.
Qed.

(** A turn that ends normally adds one outcome and some events. *)
Lemma process_link_Ok count results i link t rs t' :
  process_link self count results i link t = (Ok rs, t') ->
  exists o seg, rs = results ++ [o] /\ t' = t ++ seg /\
                turn self count i link o seg.
Proof.
  intros Hrun. pose proof (process_link_cases count results i link t) as Hc.
  destruct (urlparse link) as [p|e]; [|congruence]. cbv zeta in Hc.
  destruct (UrlLib.hostname p) as [h0|].
  - destruct (any_host_in self (Str.lower h0) && has_key self).
    + destruct Hc as (o & _ & [(l & _ & Hc)|(e & _ & Hc)]); [|congruence].
      rewrite Hc in Hrun. injection Hrun as <- <-.
      exists o. eexists. split; [reflexivity|]. split.
      * rewrite <- !(assoc_L (++)). reflexivity.
      * exists results, t. rewrite Hc. f_equal.
        by rewrite <- !(assoc_L (++)).
    + rewrite Hc in Hrun. injection Hrun as <- <-.
      eexists. eexists. split; [reflexivity|]. split.
      * rewrite <- !(assoc_L (++)). reflexivity.
      * exists results, t. rewrite Hc. f_equal.
        by rewrite <- !(assoc_L (++)).
  - rewrite Hc in Hrun. injection Hrun as <- <-.
    eexists. eexists. split; [reflexivity|]. split; [reflexivity|].
    exists results, t. exact Hc.
Qed.

(** What a turn can be. *)
Lemma turn_inv count i link o seg :
  turn self count i link o seg ->
  exists p, urlparse link = Ok p /\
    match UrlLib.hostname p with
    | None =>
        o = failure (JStr "Invalid link format") link None /\
        seg = [Print (LLink i count None)]
    | Some h0 =>
        if any_host_in self (Str.lower h0) && has_key self then
          exists t1 l,
            unlock_with_alldebrid self link t1
            = (Ok o, t1 ++ [request self link]) /\
            seg = [Print (LLink i count (Some h0)); request self link;
                   Print l] ++ pause count i /\
            show_unlock o (t1 ++ [request self link])
            = (Ok tt, (t1 ++ [request self link]) ++ [Print l])
        else
          o = failure (JStr (note_for self)) link (Some (Str.lower h0)) /\
          seg = [Print (LLink i count (Some h0));
                 Print (LNote (note_for self))] ++ pause count i
    end.
Proof.
  intros (results & t & Hrun).
  pose proof (process_link_cases count results i link t) as Hc.
  destruct (urlparse link) as [p|e]; [|congruence].
  exists p. split; [reflexivity|]. cbv zeta in Hc.
  destruct (UrlLib.hostname p) as [h0|].
  - destruct (any_host_in self (Str.lower h0) && has_key self).
    + destruct Hc as (o' & Hu & [(l & Hs & Hc)|(e & _ & Hc)]); [|congruence].
      rewrite Hc in Hrun. injection Hrun as Ho Ht.
      apply (inj (app results)) in Ho. injection Ho as ->.
      rewrite <- !(assoc_L (++)) in Ht. apply (inj (app t)) in Ht.
      eexists. exists l. split; [exact Hu|]. split; [by rewrite <- Ht|].
      exact Hs.
    + rewrite Hc in Hrun. injection Hrun as Ho Ht.
      apply (inj (app results)) in Ho. injection Ho as ->.
      rewrite <- !(assoc_L (++)) in Ht. apply (inj (app t)) in Ht.
      by rewrite <- Ht.
  - rewrite Hc in Hrun. injection Hrun as Ho Ht.
    apply (inj (app results)) in Ho. injection Ho as ->.
    apply (inj (app t)) in Ht. by rewrite <- Ht.
Qed.

Lemma pause_no_post count i : no_post (pause count i).
Proof.
  unfold pause, no_post. destruct (i <? count)%nat; repeat constructor.
Qed.

Lemma link_valid_hostname link p :
  urlparse link = Ok p ->
  link_valid link = match UrlLib.hostname p with Some _ => true | None => false end.
Proof.
  intros Hp. unfold link_valid, hostname_lower, rbind. rewrite Hp.
  by destruct (UrlLib.hostname p).
Qed.

Lemma turn_original_link count i link o seg :
  turn self count i link o seg -> original_link o = link.
Proof.
  intros (p & _ & Hc)%turn_inv. destruct (UrlLib.hostname p) as [h0|].
  - destruct (any_host_in self (Str.lower h0) && has_key self) eqn:Hk.
    + destruct Hc as (t1 & l & Hu & _).
      apply andb_true_iff in Hk as [_ Hk].
      destruct (unlock_with_key link t1 Hk) as (o' & Hu' & Hl & _).
      congruence.
    + by destruct Hc as [-> _].
  - by destruct Hc as [-> _].
Qed.


(** The events of a turn: some work without a pause, then the pause
    of the turn unless the link was rejected. *)
Lemma turn_events count i link o seg :
  turn self count i link o seg ->
  exists work, seg = work ++ (if link_valid link then pause count i else [])
               /\ no_sleep work.
Proof.
  intros (p & Hp & Hc)%turn_inv. rewrite (link_valid_hostname _ _ Hp).
  destruct (UrlLib.hostname p) as [h0|].
  - destruct (any_host_in self (Str.lower h0) && has_key self).
    + destruct Hc as (t1 & l & _ & -> & _). eexists. split; [reflexivity|].
      repeat constructor.
    + destruct Hc as [_ ->]. eexists. split; [reflexivity|].
      repeat constructor.
  - destruct Hc as [_ ->]. eexists. split; [by rewrite app_nil_r|].
    repeat constructor.
Qed.

(** A run of the loop that ends normally is a sequence of turns, one
    for each link, in order. *)
Lemma loop_Ok count : forall links i results t rs t',
  for_enumerate (process_link self count) i links results t = (Ok rs, t') ->
  exists outs segs,
    rs = results ++ outs /\ t' = t ++ concat segs /\
    length outs = length links /\ length segs = length links /\
    forall k link, links !! k = Some link ->
      exists o seg, outs !! k = Some o /\ segs !! k = Some seg /\
                    turn self count (i + k) link o seg.
Proof.
  induction links as [|link links IH]; intros i results t rs t'; simpl.
  - intros [= <- <-]. exists [], []. simpl. rewrite !app_nil_r.
    repeat split; done.
  - unfold bind at 1.
    destruct (process_link self count results i link t) as [[rs1|e] t1] eqn:H1;
      [|discriminate].
    apply process_link_Ok in H1 as (o & seg & -> & -> & Hturn).
    intros (outs & segs & -> & -> & Hlo & Hls & Hall)%IH.
    exists (o :: outs), (seg :: segs). simpl.
    rewrite <- !(assoc_L (++)). repeat split; try done; try congruence.
    intros [|k] link' Hk; simpl in Hk.
    + injection Hk as <-. exists o, seg. rewrite Nat.add_0_r. auto.
    + destruct (Hall k link' Hk) as (o' & seg' & Ho & Hs & Ht).
      exists o', seg'. replace (i + S k)%nat with (S i + k)%nat by lia. auto.
Qed.

(** The loop ends normally when the parse for the progress line
    raises on no link and every answer of the resolver can be shown. *)
Lemma loop_returns count links :
  (forall link, link ∈ links -> exists p, urlparse link = Ok p) ->
  (forall link t o t', link ∈ links ->
     unlock_with_alldebrid self link t = (Ok o, t') ->
     exists l, show_unlock o t' = (Ok tt, t' ++ [Print l])) ->
  forall i results t,
    returns (for_enumerate (process_link self count) i links results t).
Proof.
  induction links as [|link links IH]; intros Hparse Hshow i results t; simpl.
  - by exists results, t.
  - unfold bind at 1.
    pose proof (process_link_cases count results i link t) as Hc.
    destruct (Hparse link) as [p Hp]; [by left|]. rewrite Hp in Hc.
    cbv zeta in Hc.
    assert (exists rs1 t1,
               process_link self count results i link t = (Ok rs1, t1))
      as (rs1 & t1 & ->).
    { destruct (UrlLib.hostname p) as [h0|]; [|eauto].
      destruct (any_host_in self (Str.lower h0) && has_key self); [|eauto].
      destruct Hc as (o & Hu & [(l & _ & Hc)|(e & He & _)]); [eauto|].
      destruct (Hshow _ _ _ _ (list_elem_of_here _ _) Hu) as [l Hl].
      congruence. }
    apply IH.
    + intros l Hl. apply Hparse. by right.
    + intros l t0 o t0' Hl. apply Hshow. by right.
Qed.

(** A turn that raises leaves some events, none of them a pause. *)
Lemma process_link_Err count results i link t e t' :
  process_link self count results i link t = (Err e, t') ->
  exists work, t' = t ++ work /\ no_sleep work.
Proof.
  intros Hrun. pose proof (process_link_cases count results i link t) as Hc.
  destruct (urlparse link) as [p|e0].
  - cbv zeta in Hc. destruct (UrlLib.hostname p) as [h0|]; [|congruence].
    destruct (any_host_in self (Str.lower h0) && has_key self); [|congruence].
    destruct Hc as (o & _ & [(l & _ & Hc)|(e1 & _ & Hc)]); [congruence|].
    rewrite Hc in Hrun. injection Hrun as _ <-.
    eexists. rewrite <- (assoc_L (++)). split; [reflexivity|].
    repeat constructor.
  - rewrite Hc in Hrun. injection Hrun as _ <-.
    exists []. split; [by rewrite app_nil_r | constructor].
Qed.

(** Any run of the loop: complete turns for a prefix of the links,
    then, unless the run ended normally, the events of the turn that
    raised. *)
Lemma loop_any count : forall links i results t r t',
  for_enumerate (process_link self count) i links results t = (r, t') ->
  exists segs rest,
    t' = t ++ concat segs ++ rest /\ no_sleep rest /\
    length segs <= length links /\
    (forall rs, r = Ok rs -> length segs = length links /\ rest = []) /\
    forall k link seg, links !! k = Some link -> segs !! k = Some seg ->
      exists o, turn self count (i + k) link o seg.
Proof.
  induction links as [|link links IH]; intros i results t r t'; simpl.
  - intros [= <- <-]. exists [], []. simpl. rewrite app_nil_r.
    repeat split; try done. constructor.
  - unfold bind at 1.
    destruct (process_link self count results i link t) as [[rs1|e] t1] eqn:H1.
    + apply process_link_Ok in H1 as (o & seg & -> & -> & Hturn).
      intros (segs & rest & -> & Hrest & Hlen & Hok & Hall)%IH.
      exists (seg :: segs), rest. simpl.
      rewrite <- !(assoc_L (++)). repeat split; try done; try lia.
      * destruct (Hok rs) as [Hl _]; [done|]. congruence.
      * by destruct (Hok rs) as [_ Hr].
      * intros [|k] link' seg' Hk Hs; simpl in Hk, Hs.
        -- injection Hk as <-. injection Hs as <-. exists o.
           by rewrite Nat.add_0_r.
        -- replace (i + S k)%nat with (S i + k)%nat by lia. eauto.
    + intros [= <- <-].
      apply process_link_Err in H1 as (work & -> & Hwork).
      exists [], work. simpl. repeat split; try done; try lia.
Qed.

End PipelineFacts.

(** ** The batch pipeline *)

Section BatchFacts.

Context `{Platform}.
Variable self : StreamingScraper.

Lemma batch_unfold links t :
  process_links_batch self links t
  = for_enumerate (process_link self (length links)) 1 links []
      (t ++ [Print (LProcessing (length links))]).
Proof. reflexivity. Qed.

Lemma link_supported_hostname link p h0 :
  urlparse link = Ok p -> UrlLib.hostname p = Some h0 ->
  link_supported self link = any_host_in self (Str.lower h0).
Proof.
  intros Hp Hh. unfold link_supported, hostname_lower, rbind.
  by rewrite Hp, Hh.
Qed.

(** A batch that returns gives one outcome per link, in the order of
    the links, each carrying its link. *)
Lemma batch_aligned links t rs t' :
  process_links_batch self links t = (Ok rs, t') ->
  length rs = length links /\
  forall k link, links !! k = Some link ->
    exists o, rs !! k = Some o /\ original_link o = link.
Proof.
  rewrite batch_unfold.
  intros (outs & segs & -> & _ & Hlo & _ & Hall)%loop_Ok.
  split; [done|]. intros k link Hk.
  destruct (Hall k link Hk) as (o & seg & Ho & _ & Hturn).
  exists o. split; [done|]. by eapply turn_original_link.
Qed.

(** What the outcome of a turn is, by the kind of link. *)
Lemma turn_outcome count i link o seg :
  turn self count i link o seg ->
  (link_valid link = false ->
     o = failure (JStr "Invalid link format") link None) /\
  (link_valid link = true ->
   link_supported self link && has_key self = false ->
     exists h, hostname_lower link = Ok h /\
               o = failure (JStr (note_for self)) link (Some h)) /\
  (link_valid link = true ->
   link_supported self link && has_key self = true ->
     exists t0,
       unlock_with_alldebrid self link t0 = (Ok o, t0 ++ [request self link]) /\
       forall e, post_json t0 (alldebrid_base_url self +:+ "/link/unlock")
                   (key_text self) link = Err e ->
                 o = failure (JStr (exn_msg e)) link None).
Proof.
  intros (p & Hp & Hc)%turn_inv.
  rewrite (link_valid_hostname _ _ Hp).
  destruct (UrlLib.hostname p) as [h0|] eqn:Hh.
  - rewrite (link_supported_hostname _ _ _ Hp Hh).
    destruct (any_host_in self (Str.lower h0) && has_key self) eqn:Hk.
    + repeat split; try done. intros _ _.
      destruct Hc as (t1 & l & Hu & _). exists t1. split; [done|].
      apply andb_true_iff in Hk as [_ Hk].
      destruct (unlock_with_key self link t1 Hk) as (o' & Hu' & _ & _ & _ & He).
      replace o with o' by congruence. exact He.
    + repeat split; try done. intros _ _. destruct Hc as [-> _].
      exists (Str.lower h0). split; [|done].
      apply hostname_lower_Ok. eauto.
  - destruct Hc as [-> _]. repeat split; done.
Qed.

(** Every outcome of a batch that returns is the outcome of a turn. *)
Lemma batch_outcome_turn links t rs t' o :
  process_links_batch self links t = (Ok rs, t') -> o ∈ rs ->
  exists i link seg, turn self (length links) i link o seg.
Proof.
  rewrite batch_unfold.
  intros (outs & segs & -> & _ & Hlo & _ & Hall)%loop_Ok. simpl.
  intros [k Ho]%list_elem_of_lookup.
  destruct (lookup_lt_is_Some_2 links k) as [link Hk].
  { rewrite <- Hlo. by eapply lookup_lt_Some. }
  destruct (Hall k link Hk) as (o' & seg & Ho' & _ & Hturn).
  replace o' with o in Hturn by congruence. eauto.
Qed.


End BatchFacts.

(** ** The claims on the batch pipeline *)

(** C1 (as a defect of the code).  The claim asks for one outcome per
    link for every list of links.  The progress line of
    [process_links_batch] parses the link outside any [try]: on a link
    that [urlparse] refuses, the batch raises before [validate_link]
    could reject the link, and no outcome list is returned, with or
    without a key. *)
Theorem batch_raises_on_unparsable_link :
  forall (key : option string) (t : list event),
    @process_links_batch demo (init key) ["http://[abc"] t
    = (Err (Raise "ValueError" "Invalid IPv6 URL"),
       t ++ [Print (LProcessing 1)]).
Proof. intros key t. reflexivity. Qed.

(** The same end by another way: a service that declares success and
    sends no payload makes the line that shows the answer raise. *)
Example batch_raises_on_success_without_payload :
  @process_links_batch bare (init (Some "k")) ["http://rapidgator.net/x"] []
  = (Err (Raise "AttributeError" "'NoneType' object has no attribute 'get'"),
     [Print (LProcessing 1); Print (LLink 1 1 (Some "rapidgator.net"));
      Post "https://api.alldebrid.com/v4/link/unlock" "k"
        "http://rapidgator.net/x" 30]).
Proof. reflexivity. Qed.

(** C2 (as a defect of the code).  The claim asks that a fault raised
    while one link is processed be turned into a failure outcome of that
    link, the batch going on.  [process_links_batch] has no handler of
    its own, and two of its steps are outside the handlers of
    [validate_link] and [unlock_with_alldebrid]: the parse of the link
    for the progress line, and the line that shows the answer of the
    service.  A fault raised there by the second of three links ends
    the batch: the first link has been processed (its request was
    sent), the third is never started, and no outcome is returned for
    any of them. *)
Theorem batch_fault_ends_batch :
  forall t : list event,
    @process_links_batch demo (init (Some "k"))
      ["http://rapidgator.net/a"; "http://[abc"; "http://k2s.cc/c"] t
    = (Err (Raise "ValueError" "Invalid IPv6 URL"),
       t ++ [Print (LProcessing 3);
             Print (LLink 1 3 (Some "rapidgator.net"));
             Post "https://api.alldebrid.com/v4/link/unlock" "k"
               "http://rapidgator.net/a" 30;
             Print (LUnlocked (JStr "x.bin") (2097152 / 1048576)%Q);
             Sleep 1]) /\
    @process_links_batch bare (init (Some "k"))
      ["http://example.com/a"; "http://rapidgator.net/b";
       "http://example.com/c"] t
    = (Err (Raise "AttributeError" "'NoneType' object has no attribute 'get'"),
       t ++ [Print (LProcessing 3);
             Print (LLink 1 3 (Some "example.com"));
             Print (LNote "Unsupported host");
             Sleep 1;
             Print (LLink 2 3 (Some "rapidgator.net"));
             Post "https://api.alldebrid.com/v4/link/unlock" "k"
               "http://rapidgator.net/b" 30]).
Proof.
  intros t.
  assert (Hstep : forall (x : list event) a b l,
             x ++ a :: b :: l = (x ++ [a]) ++ b :: l).
  { intros. by rewrite <- (assoc_L (++)). }
  rewrite !Hstep. split; reflexivity.
Qed.

(** The faults that the batch does turn into outcomes are those that
    [validate_link] and [unlock_with_alldebrid] catch themselves: a link
    without a usable host becomes the outcome [Invalid link format], a
    fault raised by the request becomes a failure outcome carrying the
    text of the fault, and in both cases the batch goes on.  When the
    parse for the progress line raises on no link and every answer of
    the resolver can be shown, the batch returns one outcome per
    link. *)
Lemma batch_converts_faults `{Platform} (self : StreamingScraper)
    (links : list string) (t : list event) :
  (forall link, link ∈ links -> exists p, urlparse link = Ok p) ->
  (forall link t0 o t1, link ∈ links ->
     unlock_with_alldebrid self link t0 = (Ok o, t1) ->
     exists l, show_unlock o t1 = (Ok tt, t1 ++ [Print l])) ->
  exists rs t',
    process_links_batch self links t = (Ok rs, t') /\
    length rs = length links /\
    forall k link, links !! k = Some link ->
      exists o, rs !! k = Some o /\ original_link o = link /\
        (link_valid link = false ->
           o = failure (JStr "Invalid link format") link None) /\
        (link_valid link = true ->
         link_supported self link && has_key self = true ->
           exists t0,
             unlock_with_alldebrid self link t0
             = (Ok o, t0 ++ [request self link]) /\
             forall e,
               post_json t0 (alldebrid_base_url self +:+ "/link/unlock")
                 (key_text self) link = Err e ->
               o = failure (JStr (exn_msg e)) link None).
Proof.
  intros Hparse Hshow.
  destruct (loop_returns self (length links) links Hparse Hshow 1 []
              (t ++ [Print (LProcessing (length links))])) as (rs & t' & Hrun).
  exists rs, t'. rewrite batch_unfold. split; [exact Hrun|].
  apply loop_Ok in Hrun as (outs & segs & -> & _ & Hlo & _ & Hall).
  split; [done|]. intros k link Hk.
  destruct (Hall k link Hk) as (o & seg & Ho & _ & Hturn).
  exists o. split; [done|]. split; [by eapply turn_original_link|].
  destruct (turn_outcome _ _ _ _ _ _ Hturn) as (Hinv & _ & Hres). auto.
Qed.

Example batch_converts_faults_at_work :
  exists rs t',
    @process_links_batch demo (init (Some "k"))
      ["http://rapidgator.net/a"; "not a url"; "http://nitroflare.com/c"] []
    = (Ok rs, t') /\
    original_link <$> rs
    = ["http://rapidgator.net/a"; "not a url"; "http://nitroflare.com/c"] /\
    error <$> rs = [None; Some (JStr "Invalid link format");
                    Some (JStr "connection timed out")].
Proof.
  destruct (@batch_converts_faults demo (init (Some "k"))
              ["http://rapidgator.net/a"; "not a url"; "http://nitroflare.com/c"] [])
    as (rs & t' & Hrun & _).
  - intros link Hin. repeat (apply elem_of_cons in Hin as [->|Hin]);
      [eexists; vm_compute; reflexivity ..|by apply elem_of_nil in Hin].
  - intros link t0 o t1 Hin Hu.
    destruct (@show_unlock_cases o t1) as [Hl|[e He]]; [exact Hl|].
    repeat (apply elem_of_cons in Hin as [->|Hin]);
      [injection Hu as <- <-; vm_compute in He; discriminate ..
      |by apply elem_of_nil in Hin].
  - exists rs, t'. split; [exact Hrun|].
    vm_compute in Hrun. by injection Hrun as <- <-.
Qed.

Section OutcomeFacts.

Context `{Platform}.
Variable self : StreamingScraper.

Lemma populated_Some x : populated (Some x) <-> x <> JNull.
Proof.
  split; [by intros (y & [= <-] & Hy)|]. intros Hx. by exists x.
Qed.

Lemma populated_text s : populated (Some (JStr s)).
Proof. by apply populated_Some. Qed.





End OutcomeFacts.




(** C5.  Without a credential [unlock_with_alldebrid] answers at once
    with a failure naming the missing key and records no event, so no
    request; and [process_links_batch] on one valid link of a supported
    host returns exactly one failure outcome whose reason names the
    missing key, and sends no request (the batch does not even call the
    resolver; its reason reads [No AllDebrid API key]). *)
Theorem no_credential_no_request `{Platform} (self : StreamingScraper)
    (link : string) (t : list event) :
  has_key self = false ->
  unlock_with_alldebrid self link t
  = (Ok (failure (JStr "No AllDebrid API key provided") link None), t) /\
  forall p h0,
    urlparse link = Ok p -> UrlLib.hostname p = Some h0 ->
    any_host_in self (Str.lower h0) = true ->
    exists evs,
      process_links_batch self [link] t
      = (Ok [failure (JStr "No AllDebrid API key") link (Some (Str.lower h0))],
         t ++ evs) /\
      no_post evs.
Proof.
  intros Hk. split; [by apply unlock_without_key|].
  intros p h0 Hp Hh Hs. rewrite batch_unfold. simpl. unfold bind at 1.
  pose proof (process_link_cases self 1 [] 1 link
                (t ++ [Print (LProcessing 1)])) as Hc.
  rewrite Hp in Hc. cbv zeta in Hc. rewrite Hh, Hk, andb_false_r in Hc.
  rewrite Hc. unfold note_for, pause. rewrite Hk. simpl.
  eexists. rewrite <- !(assoc_L (++)). split; [reflexivity|].
  repeat constructor.
Qed.

Lemma no_credential_no_request_witness :
  @process_links_batch demo (init None) ["http://rapidgator.net/x"] []
  = (Ok [failure (JStr "No AllDebrid API key") "http://rapidgator.net/x"
           (Some "rapidgator.net")],
     [Print (LProcessing 1); Print (LLink 1 1 (Some "rapidgator.net"));
      Print (LNote "No AllDebrid API key")]).
Proof.
  destruct (@no_credential_no_request demo (init None)
              "http://rapidgator.net/x" [] eq_refl) as [_ Hbatch].
  destruct (Hbatch {| scheme := "http"; netloc := "rapidgator.net";
                      path := "/x"; params := ""; query := "";
                      fragment := "" |} "rapidgator.net"
              eq_refl eq_refl eq_refl) as (evs & Hrun & _).
  rewrite Hrun. vm_compute in Hrun. injection Hrun as <-. reflexivity.
Defined.

Section PacingFacts.

Context `{Platform}.
Variable self : StreamingScraper.

(** A turn that raises: the parse for the progress line raised and
    nothing was printed, or the line that shows the answer raised,
    after the progress line and the request. *)
Lemma process_link_Err_trace count results i link t e t' :
  process_link self count results i link t = (Err e, t') ->
  t' = t \/
  exists p, urlparse link = Ok p /\
    t' = t ++ [Print (LLink i count (UrlLib.hostname p)); request self link].
Proof.
  intros Hrun. pose proof (process_link_cases self count results i link t) as Hc.
  destruct (urlparse link) as [p|e0].
  - cbv zeta in Hc. right. exists p. split; [done|].
    destruct (UrlLib.hostname p) as [h0|]; [|congruence].
    destruct (any_host_in self (Str.lower h0) && has_key self); [|congruence].
    destruct Hc as (o & _ & [(l & _ & Hc)|(e1 & _ & Hc)]); [congruence|].
    rewrite Hc in Hrun. injection Hrun as _ <-.
    by rewrite <- (assoc_L (++)).
  - left. congruence.
Qed.

(** Any run of the loop: the turns of a prefix of the links, in order,
    then, if a turn raised, what that turn left. *)
Lemma loop_trace count : forall links i results t r t',
  for_enumerate (process_link self count) i links results t = (r, t') ->
  exists segs rest,
    t' = t ++ concat segs ++ rest /\
    length segs <= length links /\
    (forall rs, r = Ok rs -> length segs = length links /\ rest = []) /\
    (rest = [] \/
     exists link p,
       links !! length segs = Some link /\ urlparse link = Ok p /\
       rest = [Print (LLink (i + length segs) count (UrlLib.hostname p));
               request self link]) /\
    forall k link seg, links !! k = Some link -> segs !! k = Some seg ->
      exists o, turn self count (i + k) link o seg.
Proof.
  induction links as [|link links IH]; intros i results t r t'; simpl.
  - intros [= <- <-]. exists [], []. simpl. rewrite app_nil_r.
    repeat split; try done. by left.
  - unfold bind at 1.
    destruct (process_link self count results i link t) as [[rs1|e] t1] eqn:H1.
    + apply process_link_Ok in H1 as (o & seg & -> & -> & Hturn).
      intros (segs & rest & -> & Hlen & Hok & Hrest & Hall)%IH.
      exists (seg :: segs), rest. simpl.
      rewrite <- !(assoc_L (++)). repeat split; try done; try lia.
      * destruct (Hok rs) as [Hl _]; [done|]. congruence.
      * by destruct (Hok rs) as [_ Hr].
      * destruct Hrest as [->|(l & p & Hl & Hp & ->)]; [by left|].
        right. exists l, p. split; [done|]. split; [done|].
        by replace (i + S (length segs))%nat with (S i + length segs)%nat
          by lia.
      * intros [|k] link' seg' Hk Hs; simpl in Hk, Hs.
        -- injection Hk as <-. injection Hs as <-. exists o.
           by rewrite Nat.add_0_r.
        -- replace (i + S k)%nat with (S i + k)%nat by lia. eauto.
    + intros [= <- <-].
      apply process_link_Err_trace in H1 as [->|(p & Hp & ->)].
      * exists [], []. simpl. rewrite app_nil_r.
        repeat split; try done; try lia. by left.
      * eexists [], _. simpl. split; [reflexivity|].
        repeat split; try done; try lia.
        right. exists link, p. by rewrite Nat.add_0_r.
Qed.

End PacingFacts.

(** C6.  In every run of [process_links_batch] (also one that a fault
    cuts short) the events after the first line are those of the turns
    of the links, one after the other in the order of the links.  The
    turn of a link opens with the progress line of that link; a link
    rejected as invalid has nothing more, and no pause; for any other
    link follow the request for that link and the line that shows its
    answer, or the note that it is not sent, and then, as the last
    event of the turn and so before the progress line of the next
    link, exactly one pause of one second unless the link is the last
    of the batch, whether or not a request was sent for it.  A turn
    that raises leaves no pause, and there is no other event, so no
    other pause, anywhere in the run. *)
Theorem batch_pacing `{Platform} (self : StreamingScraper)
    (links : list string) (t : list event) :
  exists segs rest,
    (process_links_batch self links t).2
    = t ++ Print (LProcessing (length links)) :: concat segs ++ rest /\
    length segs <= length links /\
    (returns (process_links_batch self links t) ->
       length segs = length links /\ rest = []) /\
    (rest = [] \/
     exists link p,
       links !! length segs = Some link /\ urlparse link = Ok p /\
       rest = [Print (LLink (S (length segs)) (length links) (UrlLib.hostname p));
               request self link]) /\
    forall k link seg, links !! k = Some link -> segs !! k = Some seg ->
      exists p, urlparse link = Ok p /\
        match UrlLib.hostname p with
        | None => seg = [Print (LLink (S k) (length links) None)]
        | Some h0 =>
            exists work,
              seg = Print (LLink (S k) (length links) (Some h0))
                    :: work ++ (if (S k <? length links)%nat
                                then [Sleep 1] else []) /\
              if any_host_in self (Str.lower h0) && has_key self
              then exists l, work = [request self link; Print l]
              else work = [Print (LNote (note_for self))]
        end.
Proof.
  rewrite batch_unfold.
  destruct (for_enumerate (process_link self (length links)) 1 links []
              (t ++ [Print (LProcessing (length links))])) as [r t'] eqn:Hrun.
  destruct (loop_trace self _ _ _ _ _ _ _ Hrun)
    as (segs & rest & -> & Hlen & Hok & Hrest & Hall).
  exists segs, rest. simpl. rewrite <- (assoc_L (++)).
  split; [done|]. split; [done|]. split; [|split; [done|]].
  - intros (rs & t'' & [= -> _]). exact (Hok rs eq_refl).
  - intros k link seg Hk Hs. destruct (Hall k link seg Hk Hs) as [o Hturn].
    apply turn_inv in Hturn as (p & Hp & Hc). exists p. split; [done|].
    replace (1 + k)%nat with (S k) in Hc by lia. unfold pause in Hc.
    destruct (UrlLib.hostname p) as [h0|]; [|by destruct Hc].
    destruct (any_host_in self (Str.lower h0) && has_key self).
    + destruct Hc as (t1 & l & _ & -> & _). eexists. split; [reflexivity|].
      by exists l.
    + destruct Hc as [_ ->]. eexists. by split.
Qed.

Lemma batch_pacing_witness :
  exists s1 s3 s4 shown1 shown4,
    (@process_links_batch demo (init (Some "k"))
       ["http://rapidgator.net/a"; "not a url"; "http://example.com/b";
        "http://k2s.cc/d"] []).2
    = Print (LProcessing 4) :: s1 ++ [Print (LLink 2 4 None)] ++ s3 ++ s4 /\
    s1 = [Print (LLink 1 4 (Some "rapidgator.net"));
          Post "https://api.alldebrid.com/v4/link/unlock" "k"
            "http://rapidgator.net/a" 30;
          Print shown1; Sleep 1] /\
    s3 = [Print (LLink 3 4 (Some "example.com"));
          Print (LNote "Unsupported host"); Sleep 1] /\
    s4 = [Print (LLink 4 4 (Some "k2s.cc"));
          Post "https://api.alldebrid.com/v4/link/unlock" "k"
            "http://k2s.cc/d" 30;
          Print shown4].
Proof.
  destruct (@batch_pacing demo (init (Some "k"))
              ["http://rapidgator.net/a"; "not a url"; "http://example.com/b";
               "http://k2s.cc/d"] [])
    as (segs & rest & Hrun & _ & Hret & _ & Hsegs).
  destruct Hret as [Hlen ->]; [eexists; eexists; vm_compute; reflexivity|].
  rewrite Hrun, app_nil_r. clear Hrun.
  destruct segs as [|s1 [|s2 [|s3 [|s4 [|s5 segs]]]]]; try discriminate Hlen.
  clear Hlen. cbn [concat app].
  destruct (Hsegs 0%nat _ s1 eq_refl eq_refl) as (p1 & Hp1 & H1).
  destruct (Hsegs 1%nat _ s2 eq_refl eq_refl) as (p2 & Hp2 & H2).
  destruct (Hsegs 2%nat _ s3 eq_refl eq_refl) as (p3 & Hp3 & H3).
  destruct (Hsegs 3%nat _ s4 eq_refl eq_refl) as (p4 & Hp4 & H4).
  clear Hsegs.
  vm_compute in Hp1, Hp2, Hp3, Hp4.
  injection Hp1 as <-. injection Hp2 as <-. injection Hp3 as <-.
  injection Hp4 as <-.
  vm_compute in H1, H2, H3, H4.
  destruct H1 as (work1 & -> & shown1 & ->).
  destruct H3 as (work3 & -> & ->).
  destruct H4 as (work4 & -> & shown4 & ->). subst s2.
  exists [Print (LLink 1 4 (Some "rapidgator.net"));
          Post "https://api.alldebrid.com/v4/link/unlock" "k"
            "http://rapidgator.net/a" 30;
          Print shown1; Sleep 1],
         [Print (LLink 3 4 (Some "example.com"));
          Print (LNote "Unsupported host"); Sleep 1],
         [Print (LLink 4 4 (Some "k2s.cc"));
          Post "https://api.alldebrid.com/v4/link/unlock" "k"
            "http://k2s.cc/d" 30;
          Print shown4], shown1, shown4.
  repeat split; reflexivity.
Defined.


(** ** Validation and extraction *)

Section LinkFacts.

Context `{Platform}.
Variable self : StreamingScraper.

Lemma link_valid_false link :
  link_valid link = false <->
  (exists e, urlparse link = Err e) \/
  (exists p, urlparse link = Ok p /\ UrlLib.hostname p = None).
Proof.
  unfold link_valid, hostname_lower, rbind.
  destruct (urlparse link) as [p|e].
  - destruct (UrlLib.hostname p) as [h0|] eqn:Hh; split; try done.
    + intros [[e [=]]|(p' & [= <-] & Hh')]. congruence.
    + intros _. right. eauto.
  - split; [eauto | done].
Qed.

(** The loop of the extractor keeps, in order, the tokens that parse
    to a supported host, and raises on none. *)
Lemma for_each_keep urls : forall acc,
  for_each (keep_if_supported self) urls acc
  = Ok (acc ++ List.filter (link_supported self) urls).
Proof.
  induction urls as [|u urls IH]; intros acc; simpl.
  - by rewrite app_nil_r.
  - unfold keep_if_supported at 1, try_except, rbind at 2.
    unfold link_supported at 1.
    destruct (hostname_lower u) as [h|e]; simpl.
    + destruct (any_host_in self h); simpl; rewrite IH; [|done].
      by rewrite <- (assoc_L (++)).
    + by rewrite IH.
Qed.

Lemma extract_eq text :
  extract_links_from_text self text
  = Ok (list_set (List.filter (link_supported self)
                    (Re.findall url_pattern text))).
Proof. unfold extract_links_from_text. by rewrite for_each_keep. Qed.

Lemma link_supported_true u :
  link_supported self u = true <->
  exists p h0, urlparse u = Ok p /\ UrlLib.hostname p = Some h0 /\
               any_host_in self (Str.lower h0) = true.
Proof.
  unfold link_supported. split.
  - destruct (hostname_lower u) as [h|e] eqn:Hl; [|done].
    apply hostname_lower_Ok in Hl as (p & h0 & Hp & Hh & ->). eauto 6.
  - intros (p & h0 & Hp & Hh & Hs).
    assert (hostname_lower u = Ok (Str.lower h0)) as ->; [|done].
    apply hostname_lower_Ok. eauto.
Qed.

Lemma any_host_in_spec h :
  any_host_in self h = true <->
  exists entry, entry ∈ supported_hosts self /\
                exists pre post, h = pre +:+ entry +:+ post.
Proof.
  unfold any_host_in. rewrite existsb_exists. split.
  - intros (e & Hin%list_elem_of_In & Hc%StrFacts.contains_spec). eauto.
  - intros (e & Hin%list_elem_of_In & Hc%StrFacts.contains_spec). eauto.
Qed.

End LinkFacts.

(** C4.  [validate_link] returns a dict for every text and never
    raises; when [urlparse] raises or the parse has no host name the
    dict has [valid] and [supported] unset and the host [invalid];
    otherwise it is valid, with the lower-cased host. *)
Theorem validate_link_total `{Platform} (self : StreamingScraper)
    (link : string) :
  exists v,
    validate_link self link = Ok v /\ v_url v = link /\
    ((exists e, urlparse link = Err e) \/
     (exists p, urlparse link = Ok p /\ UrlLib.hostname p = None) ->
       v_valid v = false /\ v_supported v = false /\ v_host v = "invalid") /\
    (forall p h0, urlparse link = Ok p -> UrlLib.hostname p = Some h0 ->
       v_valid v = true /\ v_host v = Str.lower h0).
Proof.
  destruct (hostname_lower link) as [h|e] eqn:Hl.
  - rewrite (validate_link_valid self _ _ Hl). eexists.
    split; [reflexivity|]. split; [reflexivity|]. simpl. split.
    + intros Hbad%link_valid_false. unfold link_valid in Hbad.
      by rewrite Hl in Hbad.
    + intros p h0 Hp Hh. split; [done|].
      assert (hostname_lower link = Ok (Str.lower h0)) as Hl'.
      { apply hostname_lower_Ok. eauto. }
      congruence.
  - rewrite (validate_link_invalid self _ _ Hl). eexists.
    split; [reflexivity|]. split; [reflexivity|]. simpl. split; [done|].
    intros p h0 Hp Hh.
    assert (hostname_lower link = Ok (Str.lower h0)) as Hl'.
    { apply hostname_lower_Ok. eauto. }
    congruence.
Qed.

(** The three examples of the specification: the empty text, a text
    that is no URL, and bytes that are no text at all. *)
Lemma validate_link_total_witness :
  (exists v, @validate_link demo (init None) EmptyString = Ok v /\
             v_valid v = false /\ v_supported v = false /\
             v_host v = "invalid") /\
  (exists v, @validate_link demo (init None) "not a url" = Ok v /\
             v_valid v = false /\ v_supported v = false /\
             v_host v = "invalid") /\
  (exists v, @validate_link demo (init None) garbage = Ok v /\
             v_valid v = false /\ v_supported v = false /\
             v_host v = "invalid").
Proof.
  repeat split;
    match goal with
    | |- exists v, validate_link _ ?link = _ /\ _ =>
        destruct (@validate_link_total demo (init None) link)
          as (v & Hv & _ & Hbad & _);
        exists v; split; [exact Hv|];
        apply Hbad; right; eexists; split; vm_compute; reflexivity
    end.
Defined.

(** C7.  [extract_links_from_text] raises on no text, and returns
    without repetition exactly the matches of the URL pattern whose
    parse has a host name containing a registry entry.  So the empty
    text gives nothing, a text whose matches are all of other hosts
    gives nothing, a match that does not parse to a host name is left
    out without an error, and a link written several times is returned
    once. *)
Theorem extract_links_spec `{Platform} (self : StreamingScraper)
    (text : string) :
  exists links,
    extract_links_from_text self text = Ok links /\
    NoDup links /\
    (forall u, u ∈ links <->
       u ∈ Re.findall url_pattern text /\
       exists p h0, urlparse u = Ok p /\ UrlLib.hostname p = Some h0 /\
                    any_host_in self (Str.lower h0) = true) /\
    (text = EmptyString -> links = []) /\
    ((forall u, u ∈ Re.findall url_pattern text ->
                link_supported self u = false) -> links = []).
Proof.
  rewrite extract_eq. eexists. split; [reflexivity|].
  assert (Hmem : forall u,
      u ∈ list_set (List.filter (link_supported self)
                      (Re.findall url_pattern text)) <->
      u ∈ Re.findall url_pattern text /\ link_supported self u = true).
  { intros u. unfold list_set.
    rewrite elem_of_elements, elem_of_list_to_set, !list_elem_of_In.
    apply filter_In. }
  split; [unfold list_set; apply NoDup_elements|]. split; [|split].
  - intros u. rewrite Hmem, link_supported_true. reflexivity.
  - intros ->. reflexivity.
  - intros Hnone. apply elem_of_nil_inv. intros u [Hin Hs]%Hmem.
    rewrite (Hnone u Hin) in Hs. discriminate.
Qed.

Lemma extract_links_spec_witness :
  @extract_links_from_text demo (init None) EmptyString = Ok [] /\
  @extract_links_from_text demo (init None)
    "see http://example.com/file or https://mirror.example.org/f" = Ok [] /\
  @extract_links_from_text demo (init None)
    "visit http://example.com/file and http://rapidgator.net/x"
  = Ok ["http://rapidgator.net/x"] /\
  @extract_links_from_text demo (init None)
    "http://rapidgator.net/x http://rapidgator.net/x http://rapidgator.net/x"
  = Ok ["http://rapidgator.net/x"] /\
  @extract_links_from_text demo (init None) "http:///rapidgator.net/x" = Ok [].
Proof.
  destruct (@extract_links_spec demo (init None) EmptyString)
    as (links & Hrun & _ & _ & Hempty & _).
  rewrite Hrun, (Hempty eq_refl).
  destruct (@extract_links_spec demo (init None)
              "see http://example.com/file or https://mirror.example.org/f")
    as (links2 & Hrun2 & _ & _ & _ & Hnone).
  rewrite Hrun2, Hnone.
  - repeat split; vm_compute; reflexivity.
  - intros u Hin. vm_compute in Hin.
    repeat (apply elem_of_cons in Hin as [->|Hin]);
      [vm_compute; reflexivity ..|by apply elem_of_nil in Hin].
Defined.

(** C8.  The test of host support is the same expression in the
    extractor and in the validator, applied to the lower-cased host
    name: it holds exactly when some registry entry occurs somewhere
    in the lower-cased host name, so it does not depend on the case of
    the letters; a host name that merely contains an entry, such as
    [evil-rapidgator.net.attacker.com], is supported. *)
Theorem host_support_is_containment `{Platform} (self : StreamingScraper) :
  (forall h, any_host_in self (Str.lower h) = true <->
             exists entry, entry ∈ supported_hosts self /\
                           exists pre post, Str.lower h = pre +:+ entry +:+ post) /\
  (forall h, any_host_in self (Str.lower (Str.ascii_upper h))
             = any_host_in self (Str.lower h)) /\
  (forall h1 h2, Str.lower h1 = Str.lower h2 ->
                 any_host_in self (Str.lower h1) = any_host_in self (Str.lower h2)) /\
  (forall link p h, urlparse link = Ok p -> UrlLib.hostname p = Some h ->
     (exists v, validate_link self link = Ok v /\
                v_supported v = any_host_in self (Str.lower h)) /\
     (forall acc, keep_if_supported self acc link
                  = Ok (if any_host_in self (Str.lower h)
                        then acc ++ [link] else acc))) /\
  any_host_in (init None) (Str.lower "evil-rapidgator.net.attacker.com") = true /\
  any_host_in (init None) (Str.lower "Evil-RapidGator.NET.attacker.com") = true /\
  any_host_in (init None) (Str.lower "rapidgator.example.net") = false.
Proof.
  split; [intros h; apply any_host_in_spec|].
  split; [intros h; by rewrite StrFacts.lower_ascii_upper|].
  split; [by intros h1 h2 ->|].
  split; [|repeat split; vm_compute; reflexivity].
  intros link p h Hp Hh.
  assert (hostname_lower link = Ok (Str.lower h)) as Hl.
  { apply hostname_lower_Ok. eauto. }
  split.
  - rewrite (validate_link_valid self _ _ Hl). eauto.
  - intros acc. unfold keep_if_supported. rewrite Hl. simpl.
    by destruct (any_host_in self (Str.lower h)).
Qed.

Lemma host_support_is_containment_witness :
  exists v,
    @validate_link demo (init None) "http://Evil-RapidGator.net.attacker.com/f"
    = Ok v /\ v_supported v = true /\
    v_host v = "evil-rapidgator.net.attacker.com".
Proof.
  destruct (@host_support_is_containment demo (init None))
    as (_ & _ & _ & Hsame & _).
  destruct (Hsame "http://Evil-RapidGator.net.attacker.com/f"
              {| scheme := "http"; netloc := "Evil-RapidGator.net.attacker.com";
                 path := "/f"; params := ""; query := ""; fragment := "" |}
              "evil-rapidgator.net.attacker.com" eq_refl eq_refl)
    as [(v & Hv & Hs) _].
  exists v. split; [exact Hv|]. split; [exact Hs|].
  vm_compute in Hv. by injection Hv as <-.
Defined.

(** C10.  The URL pattern is matched with the case of the letters as
    written: every match starts with [http://] or [https://] in lower
    case (and is a piece of the text).  So when no piece of the text
    that starts with a lower-case scheme is a link of a supported host,
    the links of supported hosts being all written with some capital in
    the scheme, the extractor returns nothing; and a text in which no
    scheme is written in lower case gives no match at all. *)
Theorem extract_needs_lowercase_scheme `{Platform} (self : StreamingScraper)
    (text : string) :
  (forall u, u ∈ Re.findall url_pattern text ->
     (Str.startswith "http://" u = true \/ Str.startswith "https://" u = true) /\
     Str.contains u text = true) /\
  ((forall u, Str.contains u text = true ->
              Str.startswith "http://" u = true \/
              Str.startswith "https://" u = true ->
              link_supported self u = false) ->
   extract_links_from_text self text = Ok []) /\
  (Str.contains "http://" text = false ->
   Str.contains "https://" text = false ->
   Re.findall url_pattern text = [] /\
   extract_links_from_text self text = Ok []).
Proof.
  assert (Hstart : forall u, u ∈ Re.findall url_pattern text ->
            (Str.startswith "http://" u = true \/
             Str.startswith "https://" u = true) /\
            Str.contains u text = true).
  { intros u [Hm Hc]%ReFacts.findall_sound.
    split; [by apply ReFacts.url_pattern_scheme | exact Hc]. }
  split; [exact Hstart|]. split.
  { intros Hupper. rewrite extract_eq.
    assert (List.filter (link_supported self) (Re.findall url_pattern text) = [])
      as ->; [|reflexivity].
    apply elem_of_nil_inv. intros u [Hin Hs]%list_elem_of_In%filter_In.
    apply list_elem_of_In in Hin. destruct (Hstart u Hin) as [Hlow Hc].
    rewrite (Hupper u Hc Hlow) in Hs. discriminate. }
  intros Hno1 Hno2.
  assert (Re.findall url_pattern text = []) as Hnil.
  { apply elem_of_nil_inv. intros u Hin.
    destruct (Hstart u Hin) as [Hs Hc].
    apply StrFacts.contains_spec in Hc as (pre & post & ->).
    destruct Hs as [Hs|Hs];
      apply StrFacts.startswith_spec in Hs as [rest ->];
      [assert (Str.contains "http://"
                 (pre +:+ ("http://" +:+ rest) +:+ post) = true) as Hyes
      |assert (Str.contains "https://"
                 (pre +:+ ("https://" +:+ rest) +:+ post) = true) as Hyes];
      try (apply StrFacts.contains_spec; exists pre, (rest +:+ post);
           by rewrite StrFacts.app_assoc);
      congruence. }
  split; [exact Hnil|]. rewrite extract_eq, Hnil. reflexivity.
Qed.

Lemma extract_needs_lowercase_scheme_witness :
  @extract_links_from_text demo (init None)
    "get HTTP://rapidgator.net/x or Https://k2s.cc/y or hTTps://uploaded.net/z"
  = Ok [].
Proof.
  apply (proj2 (proj2 (@extract_needs_lowercase_scheme demo (init None)
           "get HTTP://rapidgator.net/x or Https://k2s.cc/y or hTTps://uploaded.net/z")));
    vm_compute; reflexivity.
Defined.

(** ** The display of the results *)

Section DisplayFacts.

Context `{Platform}.

(** Showing an outcome that can be shown counts it and raises
    nothing. *)
Lemma show_result_Ok s f o t :
  renderable o = true ->
  exists evs,
    show_result (s, f) o t
    = (Ok (if success o then (s + 1, f)%Z else (s, f + 1)%Z), t ++ evs).
Proof.
  unfold renderable, show_result, bind, lift, print, emit, ret.
  destruct (success o).
  - cbv zeta.
    destruct (Json.get _ "filename" _) as [filename|e]; [|done].
    destruct (Json.get _ "size" _) as [size|e]; [|done].
    destruct (Json.get _ "link" _) as [link|e]; [|done].
    destruct (size_in_mb size) as [mb|e]; [|done].
    destruct (Json.slice_to 60 link) as [shown|e]; [|done].
    intros _. eexists. rewrite <- !(assoc_L (++)). reflexivity.
  - destruct (shown_host (original_link o)) as [shown|e]; [|done].
    intros _. eexists. rewrite <- !(assoc_L (++)). reflexivity.
Qed.

(** Showing any other outcome raises. *)
Lemma show_result_Err s f o t :
  renderable o = false -> ~ returns (show_result (s, f) o t).
Proof.
  unfold renderable, show_result, bind, lift, print, emit, ret, returns.
  intros Hr (a & t' & Hrun). revert Hr Hrun.
  destruct (success o).
  - cbv zeta.
    destruct (Json.get _ "filename" _) as [filename|e]; [|done].
    destruct (Json.get _ "size" _) as [size|e]; [|done].
    destruct (Json.get _ "link" _) as [link|e];
      destruct (size_in_mb size) as [mb|e']; try done.
    destruct (Json.slice_to 60 link) as [shown|e]; done.
  - destruct (shown_host (original_link o)) as [shown|e]; done.
Qed.

Lemma successes_cons o results :
  successes (o :: results)
  = ((if success o then 1 else 0) + successes results)%Z.
Proof. unfold successes. simpl. destruct (success o); simpl; lia. Qed.

Lemma failures_cons o results :
  failures (o :: results)
  = ((if success o then 0 else 1) + failures results)%Z.
Proof. unfold failures. simpl. destruct (success o); simpl; lia. Qed.


(** The loop of [display_results] adds to the counters the number of
    successes and the number of failures. *)
Lemma for_results_Ok results : forall s f t,
  Forall (fun o => renderable o = true) results ->
  exists evs,
    for_results results (s, f) t
    = (Ok ((s + successes results)%Z, (f + failures results)%Z), t ++ evs).
Proof.
  induction results as [|o results IH]; intros s f t Hall;
    cbn [for_results].
  - exists []. unfold ret, successes, failures. simpl.
    by rewrite !Z.add_0_r, app_nil_r.
  - apply Forall_cons in Hall as [Ho Hall].
    destruct (show_result_Ok s f o t Ho) as [evs1 H1].
    unfold bind at 1. rewrite H1.
    rewrite successes_cons, failures_cons.
    destruct (success o).
    + destruct (IH (s + 1)%Z f (t ++ evs1) Hall) as [evs2 ->].
      exists (evs1 ++ evs2). rewrite <- (assoc_L (++)).
      do 3 f_equal; lia.
    + destruct (IH s (f + 1)%Z (t ++ evs1) Hall) as [evs2 ->].
      exists (evs1 ++ evs2). rewrite <- (assoc_L (++)).
      do 3 f_equal; lia.
Qed.

(** The loop returns only when every outcome can be shown. *)
Lemma for_results_returns results : forall s f t,
  returns (for_results results (s, f) t) ->
  Forall (fun o => renderable o = true) results.
Proof.
  induction results as [|o results IH]; intros s f t; [by constructor|].
  cbn [for_results]. unfold bind at 1. intros (a & t' & Hrun).
  destruct (show_result (s, f) o t) as [[[s1 f1]|e] t1] eqn:H1;
    [|discriminate].
  constructor.
  - destruct (renderable o) eqn:Ho; [done|].
    destruct (show_result_Err s f o t Ho). by exists (s1, f1), t1.
  - apply (IH s1 f1 t1). by exists a, t'.
Qed.

(** [display_results] returns exactly on the lists whose outcomes can
    all be shown. *)
Lemma display_results_returns results t :
  returns (display_results results t) <->
  Forall (fun o => renderable o = true) results.
Proof.
  unfold display_results, bind, print, emit. split.
  - intros (a & t' & Hrun).
    destruct (for_results results (0, 0)%Z _) as [[counts|e] t1] eqn:Hloop;
      [|discriminate].
    eapply for_results_returns. by exists counts, t1.
  - intros Hall.
    destruct (for_results_Ok results 0 0
                (((t ++ [Print (LText "============================================================")])
                  ++ [Print (LText "PROCESSING RESULTS")])
                  ++ [Print (LText "============================================================")])
                Hall) as [evs ->].
    eexists. eexists. reflexivity.
Qed.

End DisplayFacts.




(** * Further properties of the code *)

(** ** The resolver, answer by answer *)

(** X1.  With a key, [unlock_with_alldebrid] sends exactly one request, to
    [/link/unlock] with a timeout of 30, and never raises: an exception
    of the request carries over as the reason of a failure, an answer
    that is not a JSON object gives a failure as well, an object whose
    [status] is the text [success] gives a success with the member
    [data] (or [None]), and any other object a failure with its member
    [error] (or [Unknown error]). *)
Theorem unlock_maps_answer `{Platform} (self : StreamingScraper)
    (link : string) (t : list event) :
  has_key self = true ->
  exists o,
    unlock_with_alldebrid self link t
    = (Ok o, t ++ [Post (alldebrid_base_url self +:+ "/link/unlock")
                     (key_text self) link 30]) /\
    match post_json t (alldebrid_base_url self +:+ "/link/unlock")
            (key_text self) link with
    | Err e => o = failure (JStr (exn_msg e)) link None
    | Ok (JDict kvs) =>
        if Json.eq_str (default JNull (Json.assoc "status" kvs)) "success"
        then o = {| success := true;
                    data := Some (default JNull (Json.assoc "data" kvs));
                    error := None; original_link := link; host := None |}
        else o = failure (default (JStr "Unknown error")
                            (Json.assoc "error" kvs)) link None
    | Ok other =>
        o = failure (JStr ("'" +:+ Json.type_name other
                           +:+ "' object has no attribute 'get'")) link None
    end.
Proof.
  intros Hk. unfold unlock_with_alldebrid. rewrite Hk. simpl.
  unfold try_except_M, bind, post, lift, ret.
  destruct (post_json t _ (key_text self) link) as [resp|e].
  - destruct resp as [| | | | | |kvs]; try (eexists; split; reflexivity).
    simpl. destruct (Json.eq_str _ "success"); eexists; split; reflexivity.
  - eexists. split; reflexivity.
Qed.

Lemma unlock_maps_answer_witness :
  @unlock_with_alldebrid demo (init (Some "k")) "http://nitroflare.com/z" []
  = (Ok (failure (JStr "connection timed out") "http://nitroflare.com/z" None),
     [Post "https://api.alldebrid.com/v4/link/unlock" "k"
        "http://nitroflare.com/z" 30]).
Proof.
  destruct (@unlock_maps_answer demo (init (Some "k"))
              "http://nitroflare.com/z" [] eq_refl) as (o & Hrun & Ho).
  rewrite Hrun. vm_compute in Ho. rewrite Ho. reflexivity.
Defined.

(** ** The batch: requests and outcomes *)

Section BatchMore.

Context `{Platform}.
Variable self : StreamingScraper.

Lemma link_supported_invalid link :
  link_valid link = false -> link_supported self link = false.
Proof.
  unfold link_valid, link_supported. by destruct (hostname_lower link).
Qed.

Lemma pause_posts count i : List.filter is_post (pause count i) = [].
Proof. unfold pause. by destruct (i <? count)%nat. Qed.

(** The requests of a turn. *)
Lemma turn_posts count i link o seg :
  turn self count i link o seg ->
  List.filter is_post seg = posts_for self link.
Proof.
  intros (p & Hp & Hc)%turn_inv. unfold posts_for.
  destruct (UrlLib.hostname p) as [h0|] eqn:Hh.
  - rewrite (link_supported_hostname self _ _ _ Hp Hh).
    destruct (any_host_in self (Str.lower h0) && has_key self).
    + destruct Hc as (t1 & l & _ & -> & _). simpl.
      by rewrite pause_posts.
    + destruct Hc as [_ ->]. simpl. by rewrite pause_posts.
  - destruct Hc as [_ ->].
    rewrite link_supported_invalid; [done|].
    by rewrite (link_valid_hostname _ _ Hp), Hh.
Qed.

Lemma loop_posts count : forall links i results t rs t',
  for_enumerate (process_link self count) i links results t = (Ok rs, t') ->
  exists delta, t' = t ++ delta /\
    List.filter is_post delta = concat (map (posts_for self) links).
Proof.
  induction links as [|link links IH]; intros i results t rs t'; simpl.
  - intros [= <- <-]. exists []. by rewrite app_nil_r.
  - unfold bind at 1.
    destruct (process_link self count results i link t) as [[rs1|e] t1] eqn:H1;
      [|discriminate].
    apply process_link_Ok in H1 as (o & seg & -> & -> & Hturn).
    intros (delta & -> & Hposts)%IH.
    exists (seg ++ delta). rewrite <- (assoc_L (++)). split; [done|].
    by rewrite List.filter_app, (turn_posts _ _ _ _ _ Hturn), Hposts.
Qed.

(** The loop on links none of which is sent to the service. *)
Lemma loop_unsent count : forall links i results t,
  Forall (fun l => exists p, urlparse l = Ok p) links ->
  Forall (fun l => link_supported self l && has_key self = false) links ->
  exists delta,
    for_enumerate (process_link self count) i links results t
    = (Ok (results ++ (unsent_outcome self <$> links)), t ++ delta) /\
    no_post delta.
Proof.
  induction links as [|link links IH]; intros i results t Hparse Hunsent; simpl.
  - exists []. rewrite !app_nil_r. split; [done|constructor].
  - apply Forall_cons in Hparse as [[p Hp] Hparse].
    apply Forall_cons in Hunsent as [Hlink Hunsent].
    pose proof (process_link_cases self count results i link t) as Hc.
    rewrite Hp in Hc. cbv zeta in Hc. unfold bind at 1.
    assert (exists seg,
               process_link self count results i link t
               = (Ok (results ++ [unsent_outcome self link]), t ++ seg) /\
               no_post seg) as (seg & -> & Hseg).
    { unfold unsent_outcome, hostname_lower, rbind. rewrite Hp.
      destruct (UrlLib.hostname p) as [h0|] eqn:Hh.
      - rewrite (link_supported_hostname self _ _ _ Hp Hh) in Hlink.
        rewrite Hlink in Hc. rewrite Hc. eexists.
        rewrite <- !(assoc_L (++)). split; [reflexivity|].
        unfold pause. destruct (i <? count)%nat; repeat constructor.
      - rewrite Hc. eexists. split; [reflexivity|]. repeat constructor. }
    destruct (IH (S i) (results ++ [unsent_outcome self link]) (t ++ seg)
                Hparse Hunsent) as (delta & -> & Hdelta).
    exists (seg ++ delta). rewrite <- !(assoc_L (++)). split; [done|].
    by apply Forall_app.
Qed.

(** A success that was shown has a payload whose size divides. *)
Lemma show_unlock_size o t t' kvs :
  show_unlock o t = (Ok tt, t') -> success o = true ->
  data o = Some (JDict kvs) ->
  is_ok (size_in_mb (default (JInt 0) (Json.assoc "size" kvs))) = true.
Proof.
  unfold show_unlock, bind, lift. intros Hshow Hs Hd.
  rewrite Hs, Hd in Hshow. simpl in Hshow.
  by destruct (size_in_mb _).
Qed.

(** The outcomes of a batch that returned can be shown, but for the
    link of a payload. *)
Lemma turn_renderable count i link o seg :
  turn self count i link o seg ->
  (forall kvs, success o = true -> data o = Some (JDict kvs) ->
     is_ok (Json.slice_to 60 (default (JStr "No direct link")
                                (Json.assoc "link" kvs))) = true) ->
  renderable o = true.
Proof.
  intros Hturn Hlink.
  pose proof (turn_original_link self _ _ _ _ _ Hturn) as Horig.
  destruct (turn_inv self _ _ _ _ _ Hturn) as (p & Hp & Hc).
  assert (is_ok (shown_host link) = true) as Hhost.
  { unfold shown_host. destruct (negb (String.eqb link "Unknown")); [|done].
    unfold rbind. by rewrite Hp. }
  unfold renderable. destruct (success o) eqn:Hs; [|by rewrite Horig].
  destruct (UrlLib.hostname p) as [h0|].
  - destruct (any_host_in self (Str.lower h0) && has_key self).
    + destruct Hc as (t1 & l & Hu & _ & Hshow).
      destruct (unlock_success self _ _ _ _ Hu Hs)
        as (resp & payload & _ & _ & Hd).
      destruct (show_unlock_payload _ _ _ _ Hshow Hs Hd) as [kvs ->].
      rewrite Hd. simpl.
      rewrite (show_unlock_size _ _ _ _ Hshow Hs Hd). simpl.
      by apply Hlink.
    + destruct Hc as [-> _]. discriminate Hs.
  - destruct Hc as [-> _]. discriminate Hs.
Qed.

(** The outcomes of a batch that returns carry the links, in order. *)
Lemma batch_links links t rs t' :
  process_links_batch self links t = (Ok rs, t') ->
  original_link <$> rs = links.
Proof.
  rewrite batch_unfold.
  intros (outs & segs & -> & _ & Hlo & _ & Hall)%loop_Ok. simpl.
  apply list_eq. intros k. rewrite list_lookup_fmap.
  destruct (links !! k) as [link|] eqn:Hk.
  - destruct (Hall k link Hk) as (o & seg & -> & _ & Hturn). simpl.
    f_equal. by eapply turn_original_link.
  - apply lookup_ge_None in Hk. rewrite <- Hlo in Hk.
    apply lookup_ge_None in Hk. by rewrite Hk.
Qed.

End BatchMore.

(** X2.  A batch that returns has sent one request for each link of a
    supported host when there is a key, in the order of the links, and
    no other request: none for a link that is invalid or of another
    host, none at all without a key. *)
Theorem batch_requests `{Platform} (self : StreamingScraper)
    (links : list string) (t : list event) (rs : list Outcome)
    (t' : list event) :
  process_links_batch self links t = (Ok rs, t') ->
  exists delta,
    t' = t ++ delta /\
    List.filter is_post delta
    = request self <$> List.filter
                         (fun l => link_supported self l && has_key self) links.
Proof.
  rewrite batch_unfold. intros (delta & -> & Hposts)%loop_posts.
  exists (Print (LProcessing (length links)) :: delta).
  rewrite <- (assoc_L (++)). split; [done|]. simpl. rewrite Hposts.
  clear. induction links as [|l links IH]; [done|]. simpl.
  unfold posts_for at 1.
  destruct (link_supported self l && has_key self); simpl; by rewrite IH.
Qed.

Lemma batch_requests_witness :
  List.filter is_post
    (@process_links_batch demo (init (Some "k"))
       ["http://example.com/a"; "http://rapidgator.net/b"; "not a url";
        "http://k2s.cc/c"] []).2
  = [Post "https://api.alldebrid.com/v4/link/unlock" "k"
       "http://rapidgator.net/b" 30;
     Post "https://api.alldebrid.com/v4/link/unlock" "k" "http://k2s.cc/c" 30].
Proof.
  destruct (@process_links_batch demo (init (Some "k"))
              ["http://example.com/a"; "http://rapidgator.net/b"; "not a url";
               "http://k2s.cc/c"] []) as [r t'] eqn:Hrun.
  assert (exists rs, r = Ok rs) as [rs ->].
  { vm_compute in Hrun. injection Hrun as <- _. eauto. }
  destruct (@batch_requests demo (init (Some "k")) _ _ _ _ Hrun)
    as (delta & -> & Hposts).
  simpl. rewrite Hposts. vm_compute. reflexivity.
Defined.

(** X3.  Whenever [process_links_batch] returns, it returns as many outcomes
    as there are links, and the outcome at each position carries the
    link at that position. *)
Theorem batch_returned_in_order `{Platform} (self : StreamingScraper)
    (links : list string) (t : list event) (rs : list Outcome)
    (t' : list event) :
  process_links_batch self links t = (Ok rs, t') ->
  original_link <$> rs = links.
Proof. apply batch_links. Qed.

Lemma batch_returned_in_order_witness :
  original_link <$>
    [failure (JStr "Unsupported host") "http://example.com/a" (Some "example.com");
     failure (JStr "Invalid link format") "not a url" None;
     demo_success "http://rapidgator.net/b"]
  = ["http://example.com/a"; "not a url"; "http://rapidgator.net/b"].
Proof.
  apply (@batch_returned_in_order demo (init (Some "k"))
           ["http://example.com/a"; "not a url"; "http://rapidgator.net/b"] []
           _ [Print (LProcessing 3); Print (LLink 1 3 (Some "example.com"));
              Print (LNote "Unsupported host"); Sleep 1;
              Print (LLink 2 3 None);
              Print (LLink 3 3 (Some "rapidgator.net"));
              Post "https://api.alldebrid.com/v4/link/unlock" "k"
                "http://rapidgator.net/b" 30;
              Print (LUnlocked (JStr "x.bin") (2097152 / 1048576)%Q)]).
  vm_compute. reflexivity.
Defined.

(** X4.  A batch of links none of which is sent to the service (there is no
    key, or no link is of a supported host) returns, provided the parse
    for the progress line raises on none: every link that validates
    gets the failure [No AllDebrid API key], or [Unsupported host] when
    there is a key, with its host, every other link the failure
    [Invalid link format], and no request is sent. *)
Theorem batch_without_requests `{Platform} (self : StreamingScraper)
    (links : list string) (t : list event) :
  Forall (fun l => exists p, urlparse l = Ok p) links ->
  Forall (fun l => link_supported self l && has_key self = false) links ->
  exists delta,
    process_links_batch self links t
    = (Ok (unsent_outcome self <$> links), t ++ delta) /\
    no_post delta.
Proof.
  intros Hparse Hunsent. rewrite batch_unfold.
  destruct (loop_unsent self (length links) links 1 []
              (t ++ [Print (LProcessing (length links))]) Hparse Hunsent)
    as (delta & -> & Hdelta).
  exists (Print (LProcessing (length links)) :: delta).
  rewrite <- (assoc_L (++)). split; [done|]. by constructor.
Qed.

Lemma batch_without_requests_witness :
  (@process_links_batch demo (init None)
     ["http://rapidgator.net/a"; "nope"; "http://example.com/b"] []).1
  = Ok [failure (JStr "No AllDebrid API key") "http://rapidgator.net/a"
          (Some "rapidgator.net");
        failure (JStr "Invalid link format") "nope" None;
        failure (JStr "No AllDebrid API key") "http://example.com/b"
          (Some "example.com")].
Proof.
  destruct (@batch_without_requests demo (init None)
              ["http://rapidgator.net/a"; "nope"; "http://example.com/b"] [])
    as (delta & Hrun & _).
  - repeat constructor; eexists; vm_compute; reflexivity.
  - repeat constructor.
  - rewrite Hrun. vm_compute. reflexivity.
Defined.

(** X5.  The outcomes of a batch that returned can always be displayed but
    for one thing: [display_results] returns on them as soon as the
    member [link] of every success payload, if it has one, is a text or
    a list; in particular it returns when the batch had no success. *)
Theorem display_after_batch `{Platform} (self : StreamingScraper)
    (links : list string) (t : list event) (rs : list Outcome)
    (t' t2 : list event) :
  process_links_batch self links t = (Ok rs, t') ->
  (forall o kvs, o ∈ rs -> success o = true -> data o = Some (JDict kvs) ->
     is_ok (Json.slice_to 60 (default (JStr "No direct link")
                                (Json.assoc "link" kvs))) = true) ->
  exists evs,
    display_results rs t2
    = (Ok tt, t2 ++ evs ++ summary_lines (successes rs) (failures rs)).
Proof.
  intros Hrun Hlink.
  assert (Forall (fun o => renderable o = true) rs) as Hall.
  { apply Forall_forall. intros o Ho.
    destruct (batch_outcome_turn self _ _ _ _ _ Hrun Ho)
      as (i & link & seg & Hturn).
    eapply turn_renderable; [exact Hturn|]. intros kvs. by apply Hlink. }
  unfold display_results, bind, print, emit.
  destruct (for_results_Ok rs 0 0
              (((t2 ++ [Print (LText "============================================================")])
                ++ [Print (LText "PROCESSING RESULTS")])
                ++ [Print (LText "============================================================")])
              Hall) as [evs ->].
  exists ([Print (LText "============================================================");
           Print (LText "PROCESSING RESULTS");
           Print (LText "============================================================")]
          ++ evs).
  cbn [fst snd]. rewrite !Z.add_0_l. unfold summary_lines.
  rewrite <- !(assoc_L (++)). reflexivity.
Qed.

Lemma display_after_batch_witness :
  exists evs,
    @display_results demo
      [failure (JStr "Unsupported host") "http://example.com/a" (Some "example.com");
       demo_success "http://rapidgator.net/b"] []
    = (Ok tt, evs ++ summary_lines 1 1).
Proof.
  destruct (@display_after_batch demo (init (Some "k"))
              ["http://example.com/a"; "http://rapidgator.net/b"] []
              [failure (JStr "Unsupported host") "http://example.com/a"
                 (Some "example.com");
               demo_success "http://rapidgator.net/b"]
              [Print (LProcessing 2); Print (LLink 1 2 (Some "example.com"));
               Print (LNote "Unsupported host"); Sleep 1;
               Print (LLink 2 2 (Some "rapidgator.net"));
               Post "https://api.alldebrid.com/v4/link/unlock" "k"
                 "http://rapidgator.net/b" 30;
               Print (LUnlocked (JStr "x.bin") (2097152 / 1048576)%Q)] [])
    as [evs Hshow].
  - vm_compute. reflexivity.
  - intros o kvs Ho Hs Hd.
    repeat (apply elem_of_cons in Ho as [->|Ho]);
      [discriminate Hs|injection Hd as <-; reflexivity
      |by apply elem_of_nil in Ho].
  - exists evs. exact Hshow.
Defined.

(** ** Extraction: what a match is made of, and where it ends *)

Section ExtractMore.

Import StrFacts ReFacts.

Lemma all_in_app cls (a b : string) :
  Str.all_in cls (a +:+ b) = Str.all_in cls a && Str.all_in cls b.
Proof.
  induction a as [|c a IH]; simpl; [done|].
  by rewrite IH, andb_assoc.
Qed.

(** A match of [url_pattern] is made of characters of its class only. *)
Lemma url_pattern_chars m :
  Re.matches url_pattern m -> Str.all_in url_char m = true.
Proof.
  simpl.
  intros (m1 & r1 & -> & -> & m2 & r2 & -> & Hs & m3 & r3 & -> & ->
          & m4 & r4 & -> & [_ Hrun] & Htail).
  rewrite !all_in_app, Hrun.
  assert (Str.all_in url_char m2 = true) as ->
    by (by destruct Hs as [->| ->]).
  assert (Str.all_in url_char r4 = true) as ->; [|done].
  destruct Htail as [->|(a & b & -> & -> & Hb)]; [done|].
  by rewrite all_in_app, Hb.
Qed.

(** Passing over the rest of a match. *)
Lemma findall_from_skip r (a b : string) :
  Re.findall_from r (String.length a) (a +:+ b) = Re.findall_from r 0 b.
Proof. induction a as [|c a IH]; simpl; [by destruct b|exact IH]. Qed.

Lemma findall_leading (secure : bool) (run rest : string) :
  run <> EmptyString ->
  Str.all_in url_char run = true ->
  Str.all_in url_char (Str.take 1 rest) = false \/ rest = EmptyString ->
  Re.findall url_pattern
    ((if secure then "https://" else "http://") +:+ run +:+ rest)
  = ((if secure then "https://" else "http://") +:+ run)
    :: Re.findall url_pattern rest.
Proof.
  intros Hne Hrun Hrest. unfold Re.findall.
  rewrite ReFacts.findall_from_0.
  rewrite (ReFacts.url_pattern_complete secure run rest Hne Hrun Hrest).
  set (link := (if secure then "https://" else "http://") +:+ run).
  replace ((if secure then "https://" else "http://") +:+ run +:+ rest)
    with (link +:+ rest) by (unfold link; by destruct secure).
  rewrite StrFacts.app_length.
  replace (String.length link + String.length rest - String.length rest)%nat
    with (String.length link) by lia.
  rewrite StrFacts.take_app. f_equal.
  assert (exists c link', link = String c link') as (c & link' & Hl).
  { unfold link. destruct secure; simpl; eauto. }
  rewrite Hl. simpl. rewrite Nat.sub_0_r. apply findall_from_skip.
Qed.

End ExtractMore.

(** X6.  No link that [extract_links_from_text] returns holds white space, a
    quote, an angle bracket, a parenthesis, a brace or a square bracket:
    it is made of characters of the class of the pattern only. *)
Theorem extracted_links_are_clean `{Platform} (self : StreamingScraper)
    (text : string) (links : list string) :
  extract_links_from_text self text = Ok links ->
  forall link, link ∈ links -> Str.all_in url_char link = true.
Proof.
  rewrite extract_eq. intros [= <-] link. unfold list_set.
  rewrite elem_of_elements, elem_of_list_to_set, list_elem_of_In.
  intros [Hin _]%filter_In. apply list_elem_of_In in Hin.
  apply ReFacts.findall_sound in Hin as [Hm _].
  by apply url_pattern_chars.
Qed.

Lemma extracted_links_are_clean_witness :
  Str.all_in url_char "https://k2s.cc/a" = true.
Proof.
  apply (@extracted_links_are_clean demo (init None)
           "see (https://k2s.cc/a) or <http://example.com/b>"
           ["https://k2s.cc/a"]).
  - vm_compute. reflexivity.
  - by left.
Defined.

(** X7.  Every link that [extract_links_from_text] returns is accepted by
    [validate_link] as valid and supported, with the lower-cased host:
    the two functions apply the same test. *)
Theorem extracted_links_validate `{Platform} (self : StreamingScraper)
    (text : string) (links : list string) :
  extract_links_from_text self text = Ok links ->
  forall link, link ∈ links ->
    exists h, hostname_lower link = Ok h /\
      validate_link self link
      = Ok {| v_url := link; v_host := h; v_valid := true;
              v_supported := true; v_host_type := Some h;
              v_error := None |}.
Proof.
  rewrite extract_eq. intros [= <-] link. unfold list_set.
  rewrite elem_of_elements, elem_of_list_to_set, list_elem_of_In.
  intros [_ Hs]%filter_In. unfold link_supported in Hs.
  destruct (hostname_lower link) as [h|e] eqn:Hl; [|discriminate].
  exists h. split; [done|]. rewrite (validate_link_valid self _ _ Hl).
  by rewrite Hs.
Qed.

Lemma extracted_links_validate_witness :
  @validate_link demo (init None) "http://RapidGator.net/x"
  = Ok {| v_url := "http://RapidGator.net/x"; v_host := "rapidgator.net";
          v_valid := true; v_supported := true;
          v_host_type := Some "rapidgator.net"; v_error := None |}.
Proof.
  destruct (@extracted_links_validate demo (init None)
              "take http://RapidGator.net/x today"
              ["http://RapidGator.net/x"] eq_refl
              "http://RapidGator.net/x") as (h & Hh & Hv); [by left|].
  rewrite Hv. vm_compute in Hh. by injection Hh as <-.
Defined.

(** X8.  The pattern takes the longest run: in a text that begins with
    [http://] or [https://] in lower case, followed by characters of
    the class up to the end of the text or to a character outside the
    class, the first match is that scheme and run, and matching resumes
    right after it. *)
Theorem findall_leading_link (secure : bool) (run rest : string) :
  run <> EmptyString ->
  Str.all_in url_char run = true ->
  Str.all_in url_char (Str.take 1 rest) = false \/ rest = EmptyString ->
  Re.findall url_pattern
    ((if secure then "https://" else "http://") +:+ run +:+ rest)
  = ((if secure then "https://" else "http://") +:+ run)
    :: Re.findall url_pattern rest.
Proof. apply findall_leading. Qed.

Lemma findall_leading_link_witness :
  Re.findall url_pattern "https://k2s.cc/a/b, then http://example.com/c"
  = ["https://k2s.cc/a/b,"; "http://example.com/c"].
Proof.
  exact (findall_leading_link true "k2s.cc/a/b," " then http://example.com/c"
           ltac:(discriminate) eq_refl (or_introl eq_refl)).
Defined.

(** X9.  A text that is nothing but one lower-case [http] or [https] URL
    made of characters of the class is extracted whole when its host
    is supported, and gives nothing otherwise. *)
Theorem extract_single_link `{Platform} (self : StreamingScraper)
    (secure : bool) (run : string) :
  run <> EmptyString ->
  Str.all_in url_char run = true ->
  extract_links_from_text self
    ((if secure then "https://" else "http://") +:+ run)
  = Ok (if link_supported self
             ((if secure then "https://" else "http://") +:+ run)
        then [(if secure then "https://" else "http://") +:+ run]
        else []).
Proof.
  intros Hne Hrun. rewrite extract_eq.
  pose proof (findall_leading secure run EmptyString Hne Hrun
                (or_intror eq_refl)) as Hfind.
  replace (run +:+ EmptyString) with run in Hfind
    by (clear; induction run as [|c run IH]; simpl; congruence).
  rewrite Hfind. simpl.
  destruct (link_supported self _); [|reflexivity].
  unfold list_set. f_equal.
  rewrite list_to_set_singleton_L. apply elements_singleton.
Qed.

Lemma extract_single_link_witness :
  @extract_links_from_text demo (init None) "https://UPLOADED.net/file/9"
  = Ok ["https://UPLOADED.net/file/9"].
Proof.
  apply (@extract_single_link demo (init None) true "UPLOADED.net/file/9");
    [done|reflexivity].
Defined.

(** ** The connection test *)

Section ConnectionFacts.

Lemma lower_char_not_A c : Ascii.eqb (Str.lower_char c) "A" = false.
Proof. destruct c as [[] [] [] [] [] [] [] []]; reflexivity. Qed.

Lemma lower_has_no_A s : Str.mem "A" (Str.lower s) = false.
Proof.
  induction s as [|c s IH]; simpl; [done|].
  by rewrite lower_char_not_A, IH.
Qed.

Lemma startswith_mem c p s :
  Str.startswith (String c p) s = true -> Str.mem c s = true.
Proof.
  destruct s as [|a s]; simpl; [done|].
  destruct (Ascii.eqb_spec c a) as [->|]; [|done].
  intros _. by rewrite Ascii.eqb_refl.
Qed.

Lemma contains_mem c p s :
  Str.contains (String c p) s = true -> Str.mem c s = true.
Proof.
  induction s as [|a s IH]; [done|].
  cbn [Str.contains]. intros [Hs|Hc]%orb_true_iff.
  - by apply startswith_mem in Hs.
  - simpl. rewrite (IH Hc). apply orb_true_r.
Qed.

(** No lower-cased text holds [API key], which has capitals. *)
Lemma lower_has_no_API_key s :
  Str.contains "API key" (Str.lower s) = false.
Proof.
  destruct (Str.contains "API key" (Str.lower s)) eqn:Hc; [|done].
  apply contains_mem in Hc. by rewrite lower_has_no_A in Hc.
Qed.

End ConnectionFacts.

(** X10.  [test_alldebrid_connection] sends no request without a key and
    answers [False]; with a key it sends exactly one request, for the
    test link, and answers [True] when the service unlocks it or
    refuses it with a reason that holds [link] in any case of the
    letters, [False] for any other reason given as a text.  The line
    [API key issue] is never printed: the reason is searched for
    [API key] after being lower-cased, so a refused key is reported as
    a connection issue.  A reason that is not a text makes the test
    raise. *)
Theorem test_connection_verdict `{Platform} (self : StreamingScraper)
    (t : list event) :
  (has_key self = false ->
   test_alldebrid_connection self t
   = (Ok false, t ++ [Print (LText "Testing AllDebrid connection...");
                      Print (LText "No AllDebrid API key configured")])) /\
  (has_key self = true ->
   exists o,
     let t1 := (t ++ [Print (LText "Testing AllDebrid connection...")])
               ++ [request self test_link] in
     unlock_with_alldebrid self test_link
       (t ++ [Print (LText "Testing AllDebrid connection...")]) = (Ok o, t1) /\
     test_alldebrid_connection self t
     = if success o then
         (Ok true, t1 ++ [Print (LText "AllDebrid connection successful!")])
       else
         match default (JStr "Unknown error") (error o) with
         | JStr reason =>
             if Str.contains "link" (Str.lower reason) then
               (Ok true,
                t1 ++ [Print (LText "AllDebrid connection successful! (Test link failed as expected)")])
             else
               (Ok false, t1 ++ [Print (LText ("Connection issue: " +:+ reason))])
         | other =>
             (Err (Raise "AttributeError"
                     ("'" +:+ Json.type_name other
                      +:+ "' object has no attribute 'lower'")), t1)
         end).
Proof.
  split; intros Hk; unfold test_alldebrid_connection, bind, print, emit;
    rewrite Hk; cbn [negb].
  - unfold ret. by rewrite <- (assoc_L (++)).
  - destruct (unlock_with_key self test_link
                (t ++ [Print (LText "Testing AllDebrid connection...")]) Hk)
      as (o & Hu & _).
    exists o. cbv zeta. split; [exact Hu|]. rewrite Hu.
    destruct (success o); [reflexivity|].
    destruct (default (JStr "Unknown error") (error o)) as [| | | |reason| |];
      try reflexivity.
    rewrite lower_has_no_API_key.
    by destruct (Str.contains "link" (Str.lower reason)).
Qed.

Lemma test_connection_verdict_witness :
  @test_alldebrid_connection denying (init (Some "wrong")) []
  = (Ok false,
     [Print (LText "Testing AllDebrid connection...");
      Post "https://api.alldebrid.com/v4/link/unlock" "wrong"
        "https://uploaded.net/file/test123" 30;
      Print (LText "Connection issue: The auth API key is invalid")]) /\
  (@test_alldebrid_connection demo (init (Some "k")) []).1 = Ok true /\
  (@test_alldebrid_connection objecting (init (Some "wrong")) []).1
  = Err (Raise "AttributeError" "'dict' object has no attribute 'lower'").
Proof.
  destruct (proj2 (@test_connection_verdict denying (init (Some "wrong")) [])
              eq_refl) as (o1 & Hu1 & ->).
  destruct (proj2 (@test_connection_verdict demo (init (Some "k")) [])
              eq_refl) as (o2 & Hu2 & ->).
  destruct (proj2 (@test_connection_verdict objecting (init (Some "wrong")) [])
              eq_refl) as (o3 & Hu3 & ->).
  vm_compute in Hu1, Hu2, Hu3.
  injection Hu1 as <-. injection Hu2 as <-. injection Hu3 as <-.
  repeat split; reflexivity.
Defined.

(** ** Saving the results *)

Lemma save_results_run `{FileSystem} (results : list Outcome)
    (base : string) (w : World) :
  exists attempt text,
    save_results results base w
    = (Ok tt, {| trace := trace w ++ [Print (LText text)];
                 stdin := stdin w;
                 disk := disk w ++ [attempt] |}) /\
    match dump_fault (disk w) (base +:+ "_results.json") results with
    | None =>
        attempt = Saved (base +:+ "_results.json") results /\
        text = "Results saved to: " +:+ base +:+ "_results.json"
    | Some e =>
        attempt = SaveFailed (base +:+ "_results.json") e /\
        text = "Error saving results: " +:+ exn_msg e
    end.
Proof.
  unfold save_results, sh_except_all, sh_bind, dump, say, core, print, emit.
  destruct (dump_fault (disk w) (base +:+ "_results.json") results) as [e|];
    simpl; eauto.
Qed.

(** X11.  [save_results] never raises, whatever the disk does: it makes one
    attempt to write, to the base name followed by [_results.json], and
    prints one line, that the results were saved or why they were not;
    it reads no input.  The attempt is added to the log of the attempts;
    the log does not tell what the files hold: opening the file for
    writing empties a file of that name written before. *)
Theorem save_results_never_raises `{FileSystem} (results : list Outcome)
    (base : string) (w : World) :
  exists attempt text,
    save_results results base w
    = (Ok tt, {| trace := trace w ++ [Print (LText text)];
                 stdin := stdin w;
                 disk := disk w ++ [attempt] |}) /\
    match dump_fault (disk w) (base +:+ "_results.json") results with
    | None =>
        attempt = Saved (base +:+ "_results.json") results /\
        text = "Results saved to: " +:+ base +:+ "_results.json"
    | Some e =>
        attempt = SaveFailed (base +:+ "_results.json") e /\
        text = "Error saving results: " +:+ exn_msg e
    end.
Proof. apply save_results_run. Qed.

Example save_results_on_full_disk :
  @save_results full_fs [] "manual_processing" (start [])
  = (Ok tt,
     {| trace := [Print (LText "Error saving results: [Errno 28] No space left on device")];
        stdin := [];
        disk := [SaveFailed "manual_processing_results.json"
                   (Raise "OSError" "[Errno 28] No space left on device")] |}).
Proof.
  destruct (@save_results_run full_fs [] "manual_processing" (start []))
    as (attempt & text & Hrun & Hwhat).
  rewrite Hrun. simpl in Hwhat. destruct Hwhat as [-> ->]. reflexivity.
Qed.

(** ** The display prints and does nothing else *)

Section PrintFacts.

Context `{Platform}.

Lemma only_prints_app evs1 evs2 :
  only_prints evs1 -> only_prints evs2 -> only_prints (evs1 ++ evs2).
Proof. intros. by apply Forall_app. Qed.

Lemma only_prints_no_post evs : only_prints evs -> no_post evs.
Proof. intros Hp. eapply Forall_impl; [exact Hp|]. by intros e [l ->]. Qed.

Lemma only_prints_no_sleep evs : only_prints evs -> no_sleep evs.
Proof. intros Hp. eapply Forall_impl; [exact Hp|]. by intros e [l ->]. Qed.

Lemma show_result_prints counts o t r t' :
  show_result counts o t = (r, t') ->
  exists evs, t' = t ++ evs /\ only_prints evs.
Proof.
  assert (Hnone : exists evs : list event, t = t ++ evs /\ only_prints evs).
  { exists []. split; [by rewrite app_nil_r|constructor]. }
  destruct counts as [s f].
  unfold show_result, bind, lift, print, emit, ret.
  destruct (success o).
  - cbv zeta.
    destruct (Json.get _ "filename" _) as [filename|e];
      [|by intros [= <- <-]].
    destruct (Json.get _ "size" _) as [size|e]; [|by intros [= <- <-]].
    destruct (size_in_mb size) as [mb|e]; [|by intros [= <- <-]].
    destruct (Json.get _ "link" _) as [link|e];
      [|intros [= <- <-]; eexists; rewrite <- !(assoc_L (++));
        split; [reflexivity|repeat constructor; eauto]].
    destruct (Json.slice_to 60 link) as [shown|e];
      intros [= <- <-]; eexists; rewrite <- !(assoc_L (++));
      (split; [reflexivity|repeat constructor; eauto]).
  - destruct (shown_host (original_link o)) as [shown|e];
      intros [= <- <-]; [|done].
    eexists. rewrite <- !(assoc_L (++)).
    split; [reflexivity|repeat constructor; eauto].
Qed.

Lemma for_results_prints results : forall counts t r t',
  for_results results counts t = (r, t') ->
  exists evs, t' = t ++ evs /\ only_prints evs.
Proof.
  induction results as [|o results IH]; intros counts t r t';
    cbn [for_results].
  - intros [= <- <-]. exists []. split; [by rewrite app_nil_r|constructor].
  - unfold bind at 1.
    destruct (show_result counts o t) as [[c1|e] t1] eqn:H1.
    + apply show_result_prints in H1 as (evs1 & -> & Hevs1).
      intros (evs2 & -> & Hevs2)%IH. exists (evs1 ++ evs2).
      rewrite <- (assoc_L (++)). split; [done|by apply only_prints_app].
    + intros [= <- <-]. by apply show_result_prints in H1.
Qed.

Lemma display_prints results t r t' :
  display_results results t = (r, t') ->
  exists evs, t' = t ++ evs /\ only_prints evs.
Proof.
  unfold display_results, bind, print, emit.
  destruct (for_results results (0, 0)%Z _) as [[counts|e] t1] eqn:Hloop;
    apply for_results_prints in Hloop as (evs & -> & Hevs);
    intros [= <- <-]; eexists; rewrite <- !(assoc_L (++));
    (split; [reflexivity|]);
    repeat (apply Forall_cons; split; [eauto|]);
    try apply Forall_app; repeat split; try done;
    repeat constructor; eauto.
Qed.

End PrintFacts.

(** X12.  [display_results] only prints: whatever the outcomes, and whether
    it returns or raises, it sends no request and makes no pause. *)
Theorem display_only_prints `{Platform} (results : list Outcome)
    (t : list event) :
  exists evs,
    (display_results results t).2 = t ++ evs /\
    only_prints evs /\ no_post evs /\ no_sleep evs.
Proof.
  destruct (display_results results t) as [r t'] eqn:Hrun.
  apply display_prints in Hrun as (evs & -> & Hevs).
  exists evs. split; [done|]. split; [done|].
  split; [by apply only_prints_no_post|by apply only_prints_no_sleep].
Qed.


(** ** Links from a file *)

Section FileFacts.

Context `{Platform} `{FileSystem}.
Variable self : StreamingScraper.

(** [process_links_from_file], step by step. *)
Lemma file_mode_steps filename w :
  process_links_from_file self filename w =
  match read_text filename with
  | Err e =>
      (Ok tt, with_trace w
                (trace w ++ [Print (LText (file_report filename e))]))
  | Ok content =>
      let t1 := trace w ++ [Print (LText ("Reading links from: " +:+ filename))] in
      match extract_links_from_text self content with
      | Err e =>
          (Ok tt, with_trace w (t1 ++ [Print (LText (file_report filename e))]))
      | Ok [] =>
          (Ok tt, with_trace w
                    (t1 ++ [Print (LText "No valid download links found in file.")]))
      | Ok links =>
          let t2 := t1 ++ [Print (LText ("Found " +:+ Text.of_nat (length links)
                                         +:+ " valid links"))] in
          match process_links_batch self links t2 with
          | (Err e, t3) =>
              (Ok tt, with_trace w
                        (t3 ++ [Print (LText (file_report filename e))]))
          | (Ok rs, t3) =>
              match display_results rs t3 with
              | (Err e, t4) =>
                  (Ok tt, with_trace w
                            (t4 ++ [Print (LText (file_report filename e))]))
              | (Ok _, t4) =>
                  save_results rs (Text.before_last "." filename +:+ "_processed")
                    (with_trace w t4)
              end
          end
      end
  end.
Proof.
  assert (Hrep : forall e w0,
    (let (r, w') :=
       if String.eqb (exn_class e) "FileNotFoundError"
       then say ("File '" +:+ filename +:+ "' not found.") w0
       else (Err e, w0) in
     match r with
     | Ok a => (Ok a, w')
     | Err e => say ("Error processing file: " +:+ exn_msg e) w'
     end)
    = (Ok tt, {| trace := trace w0 ++ [Print (LText (file_report filename e))];
                 stdin := stdin w0; disk := disk w0 |})).
  { intros e w0. unfold file_report.
    by destruct (String.eqb (exn_class e) "FileNotFoundError"). }
  unfold process_links_from_file, sh_except_all, sh_except, sh_bind, read,
    with_trace.
  destruct (read_text filename) as [content|e]; [|by rewrite Hrep].
  unfold say at 1, core at 1, print at 1, emit at 1. cbn [trace stdin disk].
  unfold core at 1, lift at 1. cbn [trace stdin disk].
  destruct (extract_links_from_text self content) as [[|link links]|e];
    [reflexivity| |by rewrite Hrep].
  unfold say at 1, core at 1, print at 1, emit at 1. cbn [trace stdin disk].
  unfold core at 1. cbn [trace stdin disk].
  cbv zeta.
  destruct (process_links_batch self (link :: links) _) as [[rs|e] t3];
    [|by rewrite Hrep].
  unfold core at 1. cbn [trace stdin disk].
  destruct (display_results rs t3) as [[[]|e] t4]; [|by rewrite Hrep].
  destruct (save_results_run rs (Text.before_last "." filename +:+ "_processed")
              {| trace := t4; stdin := stdin w; disk := disk w |})
    as (a & txt & -> & _).
  reflexivity.
Qed.


Lemma batch_extends links t r t' :
  process_links_batch self links t = (r, t') -> exists evs, t' = t ++ evs.
Proof.
  rewrite batch_unfold.
  intros (segs & rest & -> & _)%loop_any.
  eexists. rewrite <- (assoc_L (++)). reflexivity.
Qed.

(** Every link extracted is of a supported host, so it parses. *)
Lemma extracted_supported text links :
  extract_links_from_text self text = Ok links ->
  Forall (fun l => link_supported self l = true) links.
Proof.
  rewrite extract_eq. intros [= <-]. apply Forall_forall. intros l.
  unfold list_set.
  rewrite elem_of_elements, elem_of_list_to_set, list_elem_of_In.
  by intros [_ Hs]%filter_In.
Qed.

Lemma valid_parses l : link_valid l = true -> exists p, urlparse l = Ok p.
Proof.
  unfold link_valid, hostname_lower, rbind.
  destruct (urlparse l) as [p|e]; [eauto|done].
Qed.

Lemma supported_valid l : link_supported self l = true -> link_valid l = true.
Proof.
  unfold link_supported, link_valid. by destruct (hostname_lower l).
Qed.

Lemma unsent_renderable l p :
  urlparse l = Ok p -> renderable (unsent_outcome self l) = true.
Proof.
  intros Hp. unfold unsent_outcome.
  destruct (hostname_lower l); unfold renderable, failure; cbn [success original_link];
    unfold shown_host, rbind; rewrite Hp; by destruct (negb _).
Qed.

(** The batch and the display on links none of which is sent to the
    service. *)
Lemma unsent_run links t :
  Forall (fun l => link_valid l = true) links ->
  Forall (fun l => link_supported self l && has_key self = false) links ->
  exists delta evs,
    process_links_batch self links t
    = (Ok (unsent_outcome self <$> links), t ++ delta) /\
    display_results (unsent_outcome self <$> links) (t ++ delta)
    = (Ok tt, t ++ delta ++ evs) /\
    no_post (delta ++ evs).
Proof.
  intros Hvalid Hunsent.
  assert (Forall (fun l => exists p, urlparse l = Ok p) links) as Hparse.
  { eapply Forall_impl; [exact Hvalid|]. intros l. apply valid_parses. }
  destruct (loop_unsent self (length links) links 1 []
              (t ++ [Print (LProcessing (length links))]) Hparse Hunsent)
    as (delta & Hbatch & Hdelta).
  rewrite <- batch_unfold in Hbatch. simpl in Hbatch.
  assert (Forall (fun o => renderable o = true) (unsent_outcome self <$> links))
    as Hshow.
  { apply Forall_fmap. eapply Forall_impl; [exact Hparse|].
    intros l [p Hp]. by eapply unsent_renderable. }
  apply display_results_returns
    with (t := (t ++ [Print (LProcessing (length links))]) ++ delta)
    in Hshow as ([] & t4 & Hdisp).
  pose proof Hdisp as (evs & -> & Hevs)%display_prints.
  exists ([Print (LProcessing (length links))] ++ delta), evs.
  rewrite !(assoc_L (++)). split; [done|]. split; [done|].
  rewrite <- !(assoc_L (++)).
  apply Forall_app. split; [by repeat constructor|].
  apply Forall_app. split; [done|]. by apply only_prints_no_post.
Qed.

End FileFacts.

(** X13.  [process_links_from_file] never raises, whatever the file system,
    the service and the text of the file do: it returns after printing,
    reads no input, and writes at most one file, named after the file
    read: its name up to the last dot, then [_processed_results.json]. *)
Theorem file_mode_never_raises `{Platform} `{FileSystem}
    (self : StreamingScraper) (filename : string) (w : World) :
  exists evs attempts,
    process_links_from_file self filename w
    = (Ok tt, {| trace := trace w ++ evs; stdin := stdin w;
                 disk := disk w ++ attempts |}) /\
    (attempts = [] \/
     exists a, attempts = [a] /\ attempt_name a = processed_name filename).
Proof.
  assert (Hnone : forall evs,
    exists evs' attempts,
      (Ok tt, with_trace w (trace w ++ evs))
      = (Ok tt, {| trace := trace w ++ evs'; stdin := stdin w;
                   disk := disk w ++ attempts |}) /\
      (attempts = [] \/
       exists a, attempts = [a] /\ attempt_name a = processed_name filename)).
  { intros evs. exists evs, []. rewrite app_nil_r. split; [done|by left]. }
  rewrite file_mode_steps.
  destruct (read_text filename) as [content|e]; [|apply Hnone].
  cbv zeta. rewrite extract_eq.
  destruct (list_set _) as [|link links].
  { rewrite <- (assoc_L (++)). apply Hnone. }
  destruct (process_links_batch self (link :: links) _) as [[rs|e] t3] eqn:Hb;
    apply batch_extends in Hb as [evs1 ->].
  2: { rewrite <- !(assoc_L (++)). apply Hnone. }
  destruct (display_results rs _) as [[[]|e] t4] eqn:Hd;
    apply display_prints in Hd as (evs2 & -> & _).
  2: { rewrite <- !(assoc_L (++)). apply Hnone. }
  destruct (save_results_run rs (Text.before_last "." filename +:+ "_processed")
              (with_trace w
                 ((((trace w ++ [Print (LText ("Reading links from: " +:+ filename))])
                    ++ [Print (LText ("Found " +:+ Text.of_nat (length (link :: links))
                                      +:+ " valid links"))]) ++ evs1) ++ evs2)))
    as (a & text & -> & Hwhat).
  cbn [with_trace trace stdin disk] in *.
  eexists. exists [a]. rewrite <- !(assoc_L (++)). split; [reflexivity|].
  right. exists a. split; [done|].
  unfold processed_name.
  by destruct (dump_fault _ _ _); destruct Hwhat as [-> _].
Qed.

(** X14.  A file that cannot be read gives one line and nothing else: no
    request, no file written.  The line says that the file was not
    found when the exception is [FileNotFoundError], and gives the
    message of the exception otherwise. *)
Theorem file_mode_unreadable `{Platform} `{FileSystem}
    (self : StreamingScraper) (filename : string) (w : World) (e : exn) :
  read_text filename = Err e ->
  process_links_from_file self filename w
  = (Ok tt,
     with_trace w
       (trace w ++
        [Print (LText (if String.eqb (exn_class e) "FileNotFoundError"
                       then "File '" +:+ filename +:+ "' not found."
                       else "Error processing file: " +:+ exn_msg e))])).
Proof. intros Hread. rewrite file_mode_steps. by rewrite Hread. Qed.

Lemma file_mode_unreadable_witness :
  @process_links_from_file demo demo_fs (init None) "odd.bin" (start [])
  = (Ok tt,
     {| trace := [Print (LText "Error processing file: 'utf-8' codec can't decode byte 0xff")];
        stdin := []; disk := [] |}).
Proof.
  exact (@file_mode_unreadable demo demo_fs (init None) "odd.bin" (start [])
           (Raise "UnicodeDecodeError" "'utf-8' codec can't decode byte 0xff")
           eq_refl).
Defined.

(** X15.  A file in which no token of the pattern is of a supported host
    gives two lines, that it is read and that it holds no valid link:
    no batch is run, no request sent, no file written. *)
Theorem file_mode_no_links `{Platform} `{FileSystem}
    (self : StreamingScraper) (filename : string) (w : World)
    (content : string) :
  read_text filename = Ok content ->
  Forall (fun u => link_supported self u = false)
    (Re.findall url_pattern content) ->
  process_links_from_file self filename w
  = (Ok tt,
     with_trace w
       (trace w ++
        [Print (LText ("Reading links from: " +:+ filename));
         Print (LText "No valid download links found in file.")])).
Proof.
  intros Hread Hnone. rewrite file_mode_steps, Hread. cbv zeta.
  rewrite extract_eq.
  assert (List.filter (link_supported self) (Re.findall url_pattern content) = [])
    as ->.
  { induction Hnone as [|u us Hu _ IH]; [done|]. simpl. by rewrite Hu. }
  unfold list_set. rewrite list_to_set_nil, elements_empty.
  by rewrite <- (assoc_L (++)).
Qed.

Lemma file_mode_no_links_witness :
  @process_links_from_file demo demo_fs (init (Some "k")) "notes.txt" (start [])
  = (Ok tt,
     {| trace := [Print (LText "Reading links from: notes.txt");
                  Print (LText "No valid download links found in file.")];
        stdin := []; disk := [] |}).
Proof.
  exact (@file_mode_no_links demo demo_fs (init (Some "k")) "notes.txt"
           (start []) "nothing to fetch here" eq_refl
           ltac:(vm_compute; constructor)).
Defined.

(** X16.  A fault of the batch or of the display is not lost in file mode,
    but the results are: when the batch or the display that follows it
    raises on the links of the file, [process_links_from_file] prints
    the message of the exception after what was printed until then,
    returns, and writes no file. *)
Theorem file_mode_fault_saves_nothing `{Platform} `{FileSystem}
    (self : StreamingScraper) (filename : string) (w : World)
    (content : string) (links : list string) (e : exn) (t' : list event) :
  read_text filename = Ok content ->
  extract_links_from_text self content = Ok links ->
  links <> [] ->
  (results <- process_links_batch self links ;; display_results results)%eff
    (trace w ++
     [Print (LText ("Reading links from: " +:+ filename));
      Print (LText ("Found " +:+ Text.of_nat (length links) +:+ " valid links"))])
  = (Err e, t') ->
  process_links_from_file self filename w
  = (Ok tt, with_trace w (t' ++ [Print (LText (file_report filename e))])).
Proof.
  intros Hread Hlinks Hne. rewrite file_mode_steps, Hread, Hlinks. cbv zeta.
  destruct links as [|link links]; [done|].
  rewrite <- (assoc_L (++)). unfold bind. cbn [app].
  destruct (process_links_batch self (link :: links) _) as [[rs|e1] t3].
  - destruct (display_results rs t3) as [[[]|e2] t4]; [done|].
    by intros [= -> ->].
  - by intros [= -> ->].
Qed.

(** X17.  Without a key, a file with at least one link of a supported host
    is processed to the end without a request: every link gets the
    failure [No AllDebrid API key] with its host, and one attempt is
    made to write these outcomes, in the order of the links, under the
    name of the file read up to its last dot, followed by
    [_processed_results.json]. *)
Theorem file_mode_without_key `{Platform} `{FileSystem}
    (self : StreamingScraper) (filename : string) (w : World)
    (content : string) (links : list string) :
  has_key self = false ->
  read_text filename = Ok content ->
  extract_links_from_text self content = Ok links ->
  links <> [] ->
  exists evs text,
    process_links_from_file self filename w
    = (Ok tt,
       {| trace := trace w ++ evs ++ [Print (LText text)];
          stdin := stdin w;
          disk := disk w ++
            [match dump_fault (disk w) (processed_name filename)
                     (unsent_outcome self <$> links) with
             | None => Saved (processed_name filename)
                         (unsent_outcome self <$> links)
             | Some e => SaveFailed (processed_name filename) e
             end] |}) /\
    no_post evs.
Proof.
  intros Hkey Hread Hlinks Hne.
  rewrite file_mode_steps, Hread, Hlinks. cbv zeta.
  destruct links as [|link links]; [done|].
  set (ls := link :: links) in *.
  pose proof (extracted_supported self _ _ Hlinks) as Hsup.
  destruct (unsent_run self ls
              ((trace w ++ [Print (LText ("Reading links from: " +:+ filename))])
               ++ [Print (LText ("Found " +:+ Text.of_nat (length ls)
                                 +:+ " valid links"))]))
    as (delta & evs & -> & -> & Hquiet).
  { eapply Forall_impl; [exact Hsup|]. intros l. apply supported_valid. }
  { eapply Forall_impl; [exact Hsup|]. intros l _. rewrite Hkey.
    apply andb_false_r. }
  destruct (save_results_run (unsent_outcome self <$> ls)
              (Text.before_last "." filename +:+ "_processed")
              (with_trace w
                 (((trace w ++ [Print (LText ("Reading links from: " +:+ filename))])
                   ++ [Print (LText ("Found " +:+ Text.of_nat (length ls)
                                     +:+ " valid links"))]) ++ delta ++ evs)))
    as (a & text & -> & Hwhat).
  cbn [with_trace trace stdin disk] in *.
  exists ([Print (LText ("Reading links from: " +:+ filename));
           Print (LText ("Found " +:+ Text.of_nat (length ls) +:+ " valid links"))]
          ++ delta ++ evs), text.
  split.
  - rewrite <- !(assoc_L (++)). do 3 f_equal. unfold processed_name.
    by destruct (dump_fault _ _ _); destruct Hwhat as [-> _].
  - apply Forall_app. split; [by repeat constructor|done].
Qed.

(** ** File mode at work *)

Lemma file_mode_fault_saves_nothing_witness :
  @process_links_from_file bare demo_fs (init (Some "k")) "links.txt" (start [])
  = (Ok tt,
     {| trace :=
          [Print (LText "Reading links from: links.txt");
           Print (LText "Found 2 valid links");
           Print (LProcessing 2); Print (LLink 1 2 (Some "k2s.cc"));
           Post "https://api.alldebrid.com/v4/link/unlock" "k"
             "http://k2s.cc/y" 30;
           Print (LText "Error processing file: 'NoneType' object has no attribute 'get'")];
        stdin := []; disk := [] |}).
Proof.
  rewrite (@file_mode_fault_saves_nothing bare demo_fs (init (Some "k"))
             "links.txt" (start [])
             "first http://example.com/file then http://rapidgator.net/x and http://k2s.cc/y"
             ["http://k2s.cc/y"; "http://rapidgator.net/x"]
             (Raise "AttributeError" "'NoneType' object has no attribute 'get'")
             [Print (LText "Reading links from: links.txt");
              Print (LText "Found 2 valid links");
              Print (LProcessing 2); Print (LLink 1 2 (Some "k2s.cc"));
              Post "https://api.alldebrid.com/v4/link/unlock" "k"
                "http://k2s.cc/y" 30]);
    try (vm_compute; reflexivity).
  discriminate.
Defined.

Lemma file_mode_without_key_witness :
  disk (@process_links_from_file demo demo_fs (init None) "links.txt" (start [])).2
  = [Saved "links_processed_results.json"
       [failure (JStr "No AllDebrid API key") "http://k2s.cc/y" (Some "k2s.cc");
        failure (JStr "No AllDebrid API key") "http://rapidgator.net/x"
          (Some "rapidgator.net")]].
Proof.
  destruct (@file_mode_without_key demo demo_fs (init None) "links.txt" (start [])
              "first http://example.com/file then http://rapidgator.net/x and http://k2s.cc/y"
              ["http://k2s.cc/y"; "http://rapidgator.net/x"])
    as (evs & text & -> & _); try (vm_compute; reflexivity).
  discriminate.
Defined.

(** ** Links typed at the keyboard *)

Section ManualFacts.

Context `{Platform} `{FileSystem}.
Variable self : StreamingScraper.

(** The input loop, as a function of the input: it returns at the first
    line that stops it, with the links typed before, and raises at the
    end of an input without such a line. *)
Lemma read_links_run input : forall links t,
  exists evs,
    read_links self input links t
    = (if existsb stops input
       then Ok (links ++ typed_links input, after_stop input)
       else Err end_of_input, t ++ evs) /\
    only_prints evs.
Proof.
  induction input as [|k input IH]; intros links t.
  - exists [Print (LText (link_prompt links))]. split; [done|].
    repeat constructor; eauto.
  - destruct k as [typed|].
    + cbn [read_links existsb typed_links after_stop stops orb].
      unfold bind at 1, print at 1, emit at 1.
      destruct (is_stop (Text.strip typed)) eqn:Hstop.
      { exists [Print (LText (link_prompt links))]. rewrite app_nil_r.
        split; [done|]. repeat constructor; eauto. }
      cbn [orb].
      destruct (String.eqb (Text.strip typed) "") eqn:Hempty; cbn [negb andb].
      { unfold bind at 1, print at 1, emit at 1.
        destruct (IH links ((t ++ [Print (LText (link_prompt links))])
                            ++ [Print (LText "Please enter a valid link or 'done'")]))
          as (evs & -> & Hevs).
        eexists. rewrite <- !(assoc_L (++)). split; [reflexivity|].
        repeat (apply Forall_cons; split; [eauto|]). done. }
      unfold bind at 1, lift at 1. unfold link_valid.
      destruct (hostname_lower (Text.strip typed)) as [h|e] eqn:Hh.
      * rewrite (validate_link_valid self _ _ Hh). cbn [v_valid v_supported v_host].
        unfold bind at 1.
        destruct (any_host_in self h); unfold print at 1, emit at 1;
          match goal with
          | |- context [read_links self input ?ls ?t0] =>
              destruct (IH ls t0) as (evs & -> & Hevs)
          end;
          eexists; rewrite <- !(assoc_L (++));
          (split; [reflexivity|]);
          repeat (apply Forall_cons; split; [eauto|]); done.
      * rewrite (validate_link_invalid self _ _ Hh). cbn [v_valid].
        unfold bind at 1, print at 1, emit at 1.
        destruct (IH links ((t ++ [Print (LText (link_prompt links))])
                            ++ [Print (LText "Invalid link format")]))
          as (evs & -> & Hevs).
        eexists. rewrite <- !(assoc_L (++)). split; [reflexivity|].
        repeat (apply Forall_cons; split; [eauto|]). done.
    + exists [Print (LText (link_prompt links));
              Print (LText "Input cancelled by user")].
      cbn [read_links existsb typed_links after_stop stops orb].
      rewrite app_nil_r. unfold bind, print, emit, ret.
      rewrite <- !(assoc_L (++)). split; [done|]. repeat constructor; eauto.
Qed.

Lemma typed_links_valid input :
  Forall (fun l => link_valid l = true) (typed_links input).
Proof.
  induction input as [|k input IH]; [constructor|].
  cbn [typed_links]. destruct (stops k); [constructor|].
  destruct k as [typed|]; [|constructor].
  destruct (negb _ && link_valid (Text.strip typed)) eqn:Hv; [|done].
  apply andb_true_iff in Hv as [_ Hv]. by constructor.
Qed.

(** [manual_link_input_mode], step by step. *)
Lemma manual_mode_steps w :
  manual_link_input_mode self w =
  match read_links self (stdin w) [] (trace w ++ manual_banner self) with
  | (Err e, t1) => (Err e, {| trace := t1; stdin := []; disk := disk w |})
  | (Ok ([], rest), t1) =>
      (Ok tt, {| trace := t1 ++ [Print (LText "No links provided.")];
                 stdin := rest; disk := disk w |})
  | (Ok (links, rest), t1) =>
      match process_links_batch self links
              (t1 ++ [Print (LText ("Processing " +:+ Text.of_nat (length links)
                                    +:+ " links..."))]) with
      | (Err e, t3) => (Err e, {| trace := t3; stdin := rest; disk := disk w |})
      | (Ok rs, t3) =>
          match display_results rs t3 with
          | (Err e, t4) =>
              (Err e, {| trace := t4; stdin := rest; disk := disk w |})
          | (Ok _, t4) =>
              save_results rs "manual_processing"
                {| trace := t4; stdin := rest; disk := disk w |}
          end
      end
  end.
Proof.
  unfold manual_link_input_mode, manual_banner.
  do 7 (unfold sh_bind at 1, say at 1, core at 1, print at 1, emit at 1;
        cbn [trace stdin disk]).
  unfold sh_bind at 1, gather_links at 1. cbn [trace stdin disk].
  rewrite <- !(assoc_L (++)). cbn [app].
  destruct (read_links self (stdin w) [] _) as [[[[|link links] rest]|e] t1];
    [reflexivity| |reflexivity].
  unfold sh_bind at 1, say at 1, core at 1, print at 1, emit at 1.
  cbn [trace stdin disk].
  unfold sh_bind at 1, core at 1. cbn [trace stdin disk].
  destruct (process_links_batch self (link :: links) _) as [[rs|e] t3];
    [|reflexivity].
  unfold sh_bind at 1, core at 1. cbn [trace stdin disk].
  by destruct (display_results rs t3) as [[[]|e] t4].
Qed.

End ManualFacts.

(** X18.  The input loop of [manual_link_input_mode] gathers the lines typed
    before the first that stops it ([done], [exit] or [quit] in any
    case, or the interrupt key), stripped, leaving out the empty ones
    and those that do not validate; it sends no request.  When the
    input ends without a line that stops the loop, the loop raises
    [EOFError]. *)
Theorem input_loop_gathers `{Platform} (self : StreamingScraper)
    (input : list keyboard) (t : list event) :
  exists evs,
    read_links self input [] t
    = (if existsb stops input
       then Ok (typed_links input, after_stop input)
       else Err end_of_input, t ++ evs) /\
    only_prints evs.
Proof. apply (read_links_run self input [] t). Qed.

(** X19.  When the input ends before a line stops the loop, the links typed
    are lost: [manual_link_input_mode] raises [EOFError] after its
    prompts, having sent no request and written no file. *)
Theorem manual_mode_end_of_input `{Platform} `{FileSystem}
    (self : StreamingScraper) (w : World) :
  existsb stops (stdin w) = false ->
  exists evs,
    manual_link_input_mode self w
    = (Err end_of_input,
       {| trace := trace w ++ evs; stdin := []; disk := disk w |}) /\
    only_prints evs.
Proof.
  intros Hstop. rewrite manual_mode_steps.
  destruct (read_links_run self (stdin w) [] (trace w ++ manual_banner self))
    as (evs & -> & Hevs).
  rewrite Hstop. exists (manual_banner self ++ evs).
  rewrite <- (assoc_L (++)). split; [done|].
  apply only_prints_app; [|done]. repeat constructor; eauto.
Qed.

Lemma manual_mode_end_of_input_witness :
  (@manual_link_input_mode demo demo_fs (init None)
     (start [Line "http://rapidgator.net/x"; Line "  "])).1
  = Err end_of_input.
Proof.
  destruct (@manual_mode_end_of_input demo demo_fs (init None)
              (start [Line "http://rapidgator.net/x"; Line "  "]) eq_refl)
    as (evs & -> & _).
  reflexivity.
Defined.

(** X20.  When nothing typed before the stop is kept, [manual_link_input_mode]
    says that no links were provided and returns: no batch is run and no
    file written; the input after the stop is left unread. *)
Theorem manual_mode_no_links `{Platform} `{FileSystem}
    (self : StreamingScraper) (w : World) :
  existsb stops (stdin w) = true ->
  typed_links (stdin w) = [] ->
  exists evs,
    manual_link_input_mode self w
    = (Ok tt,
       {| trace := trace w ++ evs ++ [Print (LText "No links provided.")];
          stdin := after_stop (stdin w); disk := disk w |}) /\
    only_prints evs.
Proof.
  intros Hstop Hnone. rewrite manual_mode_steps.
  destruct (read_links_run self (stdin w) [] (trace w ++ manual_banner self))
    as (evs & -> & Hevs).
  rewrite Hstop, Hnone. exists (manual_banner self ++ evs).
  rewrite <- !(assoc_L (++)). split; [done|].
  apply only_prints_app; [|done]. repeat constructor; eauto.
Qed.

Lemma manual_mode_no_links_witness :
  exists evs,
    @manual_link_input_mode demo demo_fs (init (Some "k"))
      (start [Line ""; Line "not a url"; Line " QUIT "; Line "http://k2s.cc/y"])
    = (Ok tt,
       {| trace := evs ++ [Print (LText "No links provided.")];
          stdin := [Line "http://k2s.cc/y"]; disk := [] |}).
Proof.
  destruct (@manual_mode_no_links demo demo_fs (init (Some "k"))
              (start [Line ""; Line "not a url"; Line " QUIT ";
                      Line "http://k2s.cc/y"]) eq_refl eq_refl)
    as (evs & Hrun & _).
  exists evs. exact Hrun.
Defined.

(** X21.  Links typed none of which is sent to the service (there is no key,
    or none is of a supported host) are processed to the end without a
    request: each gets the failure [No AllDebrid API key], or
    [Unsupported host] when there is a key, with its host, and one
    attempt is made to write these outcomes, in the order typed, to
    [manual_processing_results.json]. *)
Theorem manual_mode_unsent `{Platform} `{FileSystem}
    (self : StreamingScraper) (w : World) :
  existsb stops (stdin w) = true ->
  typed_links (stdin w) <> [] ->
  Forall (fun l => link_supported self l && has_key self = false)
    (typed_links (stdin w)) ->
  exists evs text,
    manual_link_input_mode self w
    = (Ok tt,
       {| trace := trace w ++ evs ++ [Print (LText text)];
          stdin := after_stop (stdin w);
          disk := disk w ++
            [match dump_fault (disk w) "manual_processing_results.json"
                     (unsent_outcome self <$> typed_links (stdin w)) with
             | None => Saved "manual_processing_results.json"
                         (unsent_outcome self <$> typed_links (stdin w))
             | Some e => SaveFailed "manual_processing_results.json" e
             end] |}) /\
    no_post evs.
Proof.
  intros Hstop Hsome Hunsent. rewrite manual_mode_steps.
  destruct (read_links_run self (stdin w) [] (trace w ++ manual_banner self))
    as (evs0 & -> & Hevs0).
  rewrite Hstop. cbn [app].
  destruct (typed_links (stdin w)) as [|link links] eqn:Hlinks; [done|].
  set (ls := link :: links) in *.
  set (t1 := (trace w ++ manual_banner self) ++ evs0).
  destruct (unsent_run self ls
              (t1 ++ [Print (LText ("Processing " +:+ Text.of_nat (length ls)
                                    +:+ " links..."))]))
    as (delta & evs & -> & -> & Hquiet).
  { rewrite <- Hlinks. apply typed_links_valid. }
  { done. }
  destruct (save_results_run (unsent_outcome self <$> ls) "manual_processing"
              {| trace := (t1 ++ [Print (LText ("Processing "
                                                +:+ Text.of_nat (length ls)
                                                +:+ " links..."))])
                          ++ delta ++ evs;
                 stdin := after_stop (stdin w); disk := disk w |})
    as (a & text & -> & Hwhat).
  cbn [trace stdin disk] in *.
  exists (manual_banner self ++ evs0
          ++ [Print (LText ("Processing " +:+ Text.of_nat (length ls)
                            +:+ " links..."))] ++ delta ++ evs), text.
  split.
  - unfold t1. rewrite <- !(assoc_L (++)). do 3 f_equal.
    change ("manual_processing" +:+ "_results.json")
      with "manual_processing_results.json" in Hwhat.
    by destruct (dump_fault _ _ _); destruct Hwhat as [-> _].
  - apply Forall_app. split; [by repeat constructor|].
    apply Forall_app. split; [by apply only_prints_no_post|].
    apply Forall_app. split; [by repeat constructor|done].
Qed.

Lemma manual_mode_unsent_witness :
  disk (@manual_link_input_mode demo demo_fs (init (Some "k"))
          (start [Line " http://example.com/a "; Line "nonsense";
                  Line "ftp://files.example.org/b"; Interrupt])).2
  = [Saved "manual_processing_results.json"
       [failure (JStr "Unsupported host") "http://example.com/a"
          (Some "example.com");
        failure (JStr "Unsupported host") "ftp://files.example.org/b"
          (Some "files.example.org")]].
Proof.
  destruct (@manual_mode_unsent demo demo_fs (init (Some "k"))
              (start [Line " http://example.com/a "; Line "nonsense";
                      Line "ftp://files.example.org/b"; Interrupt]))
    as (evs & text & -> & _); try (vm_compute; reflexivity).
  - discriminate.
  - repeat constructor.
Defined.

(** X22.  Whatever [manual_link_input_mode] does, it makes at most one attempt
    to write a file, to [manual_processing_results.json], and the
    results it saves are one outcome for each link typed, in the order
    typed, each carrying its link. *)
Theorem manual_mode_saves_typed_links `{Platform} `{FileSystem}
    (self : StreamingScraper) (w : World) :
  exists attempts,
    disk (manual_link_input_mode self w).2 = disk w ++ attempts /\
    length attempts <= 1 /\
    forall a, a ∈ attempts ->
      attempt_name a = "manual_processing_results.json" /\
      forall name rs, a = Saved name rs ->
        original_link <$> rs = typed_links (stdin w).
Proof.
  assert (Hnone : forall d : list write_attempt,
    exists attempts,
      d = d ++ attempts /\ length attempts <= 1 /\
      forall a, a ∈ attempts ->
        attempt_name a = "manual_processing_results.json" /\
        forall name rs, a = Saved name rs ->
          original_link <$> rs = typed_links (stdin w)).
  { intros d. exists []. rewrite app_nil_r. split; [done|].
    split; [simpl; lia|]. by intros a Ha%elem_of_nil. }
  rewrite manual_mode_steps.
  destruct (read_links_run self (stdin w) [] (trace w ++ manual_banner self))
    as (evs0 & -> & _).
  destruct (existsb stops (stdin w)); [|apply Hnone]. cbn [app].
  destruct (typed_links (stdin w)) as [|link links]; [apply Hnone|].
  destruct (process_links_batch self (link :: links) _) as [[rs|e] t3] eqn:Hb;
    [|apply Hnone].
  apply batch_links in Hb.
  destruct (display_results rs t3) as [[[]|e] t4]; [|apply Hnone].
  destruct (save_results_run rs "manual_processing"
              {| trace := t4; stdin := after_stop (stdin w); disk := disk w |})
    as (a & text & -> & Hwhat).
  cbn [snd trace stdin disk] in *. exists [a]. split; [done|].
  split; [simpl; lia|]. intros a' ->%list_elem_of_singleton.
  destruct (dump_fault _ _ _); destruct Hwhat as [-> _];
    (split; [reflexivity|]); [discriminate|].
  by intros name rs' [= _ <-].
Qed.

(** ** The session: what every part of the shell keeps *)

Section SessionFacts.

Context `{Platform} `{FileSystem}.

Lemma tame_ret q {A} (a : A) : tame q (sh_ret a).
Proof.
  intros w r w' [= <- <-]. exists []. rewrite app_nil_r.
  split; [done|]. split; [done|]. intros _. constructor.
Qed.

Lemma tame_bind q {A B} (m : Sh A) (f : A -> Sh B) :
  tame q m -> (forall a, tame q (f a)) -> tame q (sh_bind m f).
Proof.
  intros Hm Hf w r w'. unfold sh_bind.
  destruct (m w) as [[a|e] w1] eqn:Hrun;
    apply Hm in Hrun as (evs1 & Ht1 & Hin1 & Hq1).
  - intros (evs2 & Ht2 & Hin2 & Hq2)%Hf. exists (evs1 ++ evs2).
    rewrite Ht2, Ht1, <- (assoc_L (++)). split; [done|]. split; [lia|].
    intros Hq. apply Forall_app. split; [by apply Hq1|by apply Hq2].
  - intros [= <- <-]. by exists evs1.
Qed.

Lemma tame_core q {A} (m : M A) : calm q m -> tame q (core m).
Proof.
  intros Hm w r w'. unfold core.
  destruct (m (trace w)) as [r1 t1] eqn:Hrun.
  apply Hm in Hrun as (evs & -> & Hq). intros [= <- <-].
  by exists evs.
Qed.

Lemma calm_print q l : calm q (print l).
Proof.
  intros t r t' [= <- <-]. exists [Print l]. split; [done|].
  intros _. by repeat constructor.
Qed.

Lemma tame_say q text : tame q (say text).
Proof. apply tame_core, calm_print. Qed.

Lemma tame_ask q prompt : tame q (ask prompt).
Proof.
  intros w r w'. unfold ask.
  destruct (stdin w) as [|[text|] rest]; intros [= <- <-];
    exists [Print (LText prompt)]; cbn [trace stdin length];
    (split; [done|]); (split; [lia|]); intros _; by repeat constructor.
Qed.

Lemma tame_except_all q {A} (body : Sh A) handler :
  tame q body -> (forall e, tame q (handler e)) ->
  tame q (sh_except_all body handler).
Proof.
  intros Hm Hf w r w'. unfold sh_except_all.
  destruct (body w) as [[a|e] w1] eqn:Hrun;
    apply Hm in Hrun as (evs1 & Ht1 & Hin1 & Hq1).
  - intros [= <- <-]. by exists evs1.
  - intros (evs2 & Ht2 & Hin2 & Hq2)%Hf. exists (evs1 ++ evs2).
    rewrite Ht2, Ht1, <- (assoc_L (++)). split; [done|]. split; [lia|].
    intros Hq. apply Forall_app. split; [by apply Hq1|by apply Hq2].
Qed.

Lemma tame_except q {A} cls (body : Sh A) handler :
  tame q body -> (forall e, tame q (handler e)) ->
  tame q (sh_except cls body handler).
Proof.
  intros Hm Hf w r w'. unfold sh_except.
  destruct (body w) as [[a|e] w1] eqn:Hrun;
    apply Hm in Hrun as (evs1 & Ht1 & Hin1 & Hq1).
  - intros [= <- <-]. by exists evs1.
  - destruct (String.eqb (exn_class e) cls).
    + intros (evs2 & Ht2 & Hin2 & Hq2)%Hf. exists (evs1 ++ evs2).
      rewrite Ht2, Ht1, <- (assoc_L (++)). split; [done|]. split; [lia|].
      intros Hq. apply Forall_app. split; [by apply Hq1|by apply Hq2].
    + intros [= <- <-]. by exists evs1.
Qed.

Lemma tame_save_results q rs base : tame q (save_results rs base).
Proof.
  intros w r w' Hrun.
  destruct (save_results_run rs base w) as (a & text & Hsave & _).
  rewrite Hsave in Hrun. injection Hrun as <- <-.
  exists [Print (LText text)]. cbn [trace stdin].
  split; [done|]. split; [done|]. intros _. by repeat constructor.
Qed.

Variable self : StreamingScraper.

(** Without a key a turn of the batch sends nothing, even if it raises. *)
Lemma process_link_keyless count results i link t r t' :
  has_key self = false ->
  process_link self count results i link t = (r, t') ->
  exists seg, t' = t ++ seg /\ no_post seg.
Proof.
  intros Hk Hrun.
  pose proof (process_link_cases self count results i link t) as Hc.
  destruct (urlparse link) as [p|e].
  - cbv zeta in Hc. destruct (UrlLib.hostname p) as [h0|].
    + rewrite Hk, andb_false_r in Hc. rewrite Hc in Hrun.
      injection Hrun as Hr Ht. subst t'. eexists. rewrite <- (assoc_L (++)).
      split; [reflexivity|].
      unfold pause. destruct (i <? count)%nat; by repeat constructor.
    + rewrite Hc in Hrun. injection Hrun as Hr Ht. subst t'. eexists.
      split; [reflexivity|]. by repeat constructor.
  - rewrite Hc in Hrun. injection Hrun as Hr Ht. subst t'. exists [].
    split; [by rewrite app_nil_r|constructor].
Qed.

Lemma loop_keyless count : forall links i results t r t',
  has_key self = false ->
  for_enumerate (process_link self count) i links results t = (r, t') ->
  exists delta, t' = t ++ delta /\ no_post delta.
Proof.
  induction links as [|link links IH]; intros i results t r t' Hk; simpl.
  - intros [= <- <-]. exists []. split; [by rewrite app_nil_r|constructor].
  - unfold bind at 1.
    destruct (process_link self count results i link t) as [[rs1|e] t1] eqn:H1;
      apply (process_link_keyless _ _ _ _ _ _ _ Hk) in H1 as (seg & -> & Hseg).
    + intros (delta & -> & Hdelta)%IH; [|done]. exists (seg ++ delta).
      rewrite <- (assoc_L (++)). split; [done|]. by apply Forall_app.
    + intros [= <- <-]. by exists seg.
Qed.

Lemma calm_batch links :
  calm (negb (has_key self)) (process_links_batch self links).
Proof.
  intros t r t' Hrun. destruct (has_key self) eqn:Hk.
  - apply batch_extends in Hrun as [evs ->]. by exists evs.
  - rewrite batch_unfold in Hrun.
    apply loop_keyless in Hrun as (delta & -> & Hdelta); [|done].
    exists (Print (LProcessing (length links)) :: delta).
    rewrite <- (assoc_L (++)). split; [done|]. intros _. by constructor.
Qed.

Lemma calm_display q rs : calm q (display_results rs).
Proof.
  intros t r t' (evs & -> & Hevs)%display_prints. exists evs.
  split; [done|]. intros _. by apply only_prints_no_post.
Qed.

Lemma calm_lift q {A} (r : result A) : calm q (lift r).
Proof.
  intros t r' t' [= <- <-]. exists []. split; [by rewrite app_nil_r|].
  intros _. constructor.
Qed.

Lemma calm_test : calm (negb (has_key self)) (test_alldebrid_connection self).
Proof.
  intros t r t'. unfold test_alldebrid_connection, bind, print, emit.
  destruct (has_key self) eqn:Hk; cbn [negb].
  - destruct (unlock_with_key self test_link
                (t ++ [Print (LText "Testing AllDebrid connection...")]) Hk)
      as (o & -> & _).
    destruct (success o).
    + intros [= <- <-]. eexists. rewrite <- !(assoc_L (++)). by split.
    + destruct (default (JStr "Unknown error") (error o));
        try (intros [= <- <-]; eexists; rewrite <- !(assoc_L (++)); by split).
      destruct (Str.contains "API key" _);
        [intros [= <- <-]; eexists; rewrite <- !(assoc_L (++)); by split|].
      destruct (Str.contains "link" _);
        intros [= <- <-]; eexists; rewrite <- !(assoc_L (++)); by split.
  - intros [= <- <-]. eexists. rewrite <- !(assoc_L (++)).
    split; [done|]. intros _. by repeat constructor.
Qed.

Lemma after_stop_length input : length (after_stop input) <= length input.
Proof.
  induction input as [|k input IH]; [done|].
  cbn [after_stop length]. destruct (stops k); lia.
Qed.

Lemma tame_gather q : tame q (gather_links self).
Proof.
  intros w r w'. unfold gather_links.
  destruct (read_links_run self (stdin w) [] (trace w)) as (evs & -> & Hevs).
  destruct (existsb stops (stdin w)); intros [= <- <-]; exists evs;
    cbn [trace stdin length]; (split; [done|]);
    (split; [|intros _; by apply only_prints_no_post]).
  - apply after_stop_length.
  - lia.
Qed.

Ltac tame_steps :=
  repeat first
    [ apply tame_bind; [|intros ?]
    | apply tame_say
    | apply tame_ret
    | apply tame_ask
    | apply tame_save_results
    | apply tame_gather
    | apply tame_except; [|intros ?]
    | apply tame_except_all; [|intros ?]
    | apply tame_core ].

Lemma tame_manual :
  tame (negb (has_key self)) (manual_link_input_mode self).
Proof.
  unfold manual_link_input_mode.
  do 7 (apply tame_bind; [tame_steps|intros _]).
  apply tame_bind; [tame_steps|intros links].
  destruct links; tame_steps; first [apply calm_batch|apply calm_display].
Qed.

Lemma tame_file filename :
  tame (negb (has_key self)) (process_links_from_file self filename).
Proof.
  unfold process_links_from_file. tame_steps.
  - intros w r w' [= <- <-]. exists []. rewrite app_nil_r.
    split; [done|]. split; [done|]. intros _. constructor.
  - apply calm_lift.
  - match goal with
    | |- tame _ (match ?links with _ => _ end) => destruct links
    end; tame_steps; first [apply calm_batch|apply calm_display].
Qed.

Lemma tame_status q : tame q (show_status self).
Proof. unfold show_status. tame_steps. destruct (has_key self); tame_steps. Qed.

(** What the choice runs never ends the loop, but for the fifth. *)
Lemma only_exit_ends {A} (m : Sh A) w b w' :
  (m ;; sh_ret false)%sh w = (Ok b, w') -> b = false.
Proof.
  unfold sh_bind, sh_ret. destruct (m w) as [[a|e] w1]; [|done].
  by intros [= <- _].
Qed.

(** A turn of the menu: it only adds events, none of them a request
    without a key; it goes on only after reading a line, and ends the
    loop only by the farewell. *)
Lemma menu_turn_run w r w' :
  menu_turn self w = (r, w') ->
  exists evs,
    trace w' = trace w ++ evs /\
    (has_key self = false -> no_post evs) /\
    (forall b, r = Ok b -> length (stdin w') < length (stdin w)) /\
    (r = Ok true -> exists evs0, evs = evs0 ++ [goodbye]).
Proof.
  unfold menu_turn.
  do 8 (unfold sh_bind at 1, say at 1, core at 1, print at 1, emit at 1;
        cbn [trace stdin disk]).
  rewrite <- !(assoc_L (++)). cbn [app].
  unfold sh_bind at 1, ask at 1. cbn [trace stdin disk].
  rewrite <- !(assoc_L (++)). cbn [app].
  set (menu := [Print (LText "========================================");
                Print (LText "MAIN MENU"); _; _; _; _; _; _; _]).
  assert (Hmenu : no_post menu) by (by repeat constructor).
  destruct (stdin w) as [|[typed|] rest] eqn:Hin.
  1, 3: intros [= <- <-]; exists menu; cbn [trace];
    split; [done|]; split; [done|]; split; done.
  cbv zeta.
  set (w1 := {| trace := trace w ++ menu; stdin := rest; disk := disk w |}).
  assert (Hrest : forall (m : Sh bool),
    tame (negb (has_key self)) m ->
    (forall w2 b w3, m w2 = (Ok b, w3) -> b = false) ->
    m w1 = (r, w') ->
    exists evs,
      trace w' = trace w ++ evs /\
      (has_key self = false -> no_post evs) /\
      (forall b, r = Ok b -> length (Line typed :: rest) > length (stdin w')) /\
      (r = Ok true -> exists evs0, evs = evs0 ++ [goodbye])).
  { intros m Hm Hfalse Hrun.
    destruct (Hm _ _ _ Hrun) as (evs & Ht & Hl & Hq).
    exists (menu ++ evs). rewrite Ht. cbn [w1 trace stdin] in *.
    rewrite <- (assoc_L (++)). split; [done|]. split.
    - intros Hk. apply Forall_app. split; [done|]. apply Hq. by rewrite Hk.
    - split; [intros b _; simpl; lia|].
      intros ->. by apply Hfalse in Hrun. }
  destruct (String.eqb (Text.strip typed) "1").
  { apply Hrest; [|apply only_exit_ends].
    apply tame_bind; [apply tame_status|intros _; apply tame_ret]. }
  destruct (String.eqb (Text.strip typed) "2").
  { apply Hrest; [|apply only_exit_ends].
    apply tame_bind; [apply tame_manual|intros _; apply tame_ret]. }
  destruct (String.eqb (Text.strip typed) "3").
  { apply Hrest.
    - apply tame_bind; [apply tame_ask|intros answer].
      apply tame_bind; [|intros _; apply tame_ret].
      destruct (negb (String.eqb (Text.strip answer) ""));
        [apply tame_file|apply tame_ret].
    - intros w2 b w3. unfold sh_bind at 1.
      destruct (ask _ w2) as [[a|e] w4]; [|done]. apply only_exit_ends. }
  destruct (String.eqb (Text.strip typed) "4").
  { apply Hrest; [|apply only_exit_ends].
    apply tame_bind; [apply tame_core, calm_test|intros _; apply tame_ret]. }
  destruct (String.eqb (Text.strip typed) "5").
  - unfold sh_bind, say, core, print, emit, sh_ret. cbn [w1 trace stdin disk].
    intros [= <- <-]. exists (menu ++ [goodbye]). cbn [trace stdin].
    rewrite <- (assoc_L (++)). split; [done|]. split.
    + intros _. apply Forall_app. split; [done|by repeat constructor].
    + split; [intros b _; simpl; lia|]. intros _. by exists menu.
  - apply Hrest; [tame_steps|apply only_exit_ends].
Qed.

(** The loop, with turns enough for the input left. *)
Lemma menu_loop_run : forall fuel w,
  length (stdin w) < fuel ->
  exists r w' evs,
    menu_loop self fuel w = Some (r, w') /\
    trace w' = trace w ++ evs /\
    (has_key self = false -> no_post evs) /\
    (r = Ok tt -> exists evs0, evs = evs0 ++ [goodbye]).
Proof.
  induction fuel as [|fuel IH]; intros w Hfuel; [lia|].
  cbn [menu_loop].
  destruct (menu_turn self w) as [[[|]|e] w1] eqn:Hturn;
    apply menu_turn_run in Hturn as (evs1 & Ht1 & Hq1 & Hl1 & Hbye1).
  - exists (Ok tt), w1, evs1. repeat split; try done. intros _. by apply Hbye1.
  - destruct (IH w1) as (r & w' & evs & -> & Ht & Hq & Hbye).
    { specialize (Hl1 false eq_refl). lia. }
    exists r, w', (evs1 ++ evs). rewrite Ht, Ht1, <- (assoc_L (++)).
    repeat split; try done.
    + intros Hk. apply Forall_app. split; [by apply Hq1|by apply Hq].
    + intros (evs0 & ->)%Hbye. exists (evs1 ++ evs0).
      by rewrite <- (assoc_L (++)).
  - exists (Err e), w1, evs1. repeat split; try done.
Qed.

End SessionFacts.

(** X23.  A session without a key never contacts the service: when the line
    typed for the key is empty or blank, [main] sends no request,
    whatever is typed afterwards, whatever the files hold, and whether
    the session ends by the menu, by the end of the input or by an
    exception. *)
Theorem session_without_key_sends_nothing `{Platform} `{FileSystem}
    (w : World) (typed : string) (rest : list keyboard) :
  stdin w = Line typed :: rest ->
  Text.strip typed = EmptyString ->
  exists r w' evs,
    main w = Some (r, w') /\ trace w' = trace w ++ evs /\ no_post evs.
Proof.
  intros Hin Hblank. unfold main, configure, new_scraper.
  do 3 (unfold sh_bind at 1, say at 1, core at 1, print at 1, emit at 1;
        cbn [trace stdin disk]).
  unfold sh_bind at 1, ask at 1. cbn [trace stdin disk]. rewrite Hin.
  cbv zeta. rewrite Hblank. cbn [String.eqb negb].
  unfold sh_bind, say, core, print, emit, sh_ret. cbn [trace stdin disk].
  rewrite <- !(assoc_L (++)). cbn [app].
  match goal with
  | |- context [menu_loop ?s ?n ?w0] =>
      destruct (menu_loop_run s n w0) as (r & w' & evs & -> & Ht & Hq & _);
      [cbn [stdin]; lia|]
  end.
  cbn [trace] in Ht. eexists r, w', _.
  split; [done|]. rewrite Ht, <- (assoc_L (++)). split; [reflexivity|].
  apply Forall_app. split; [by repeat constructor|by apply Hq].
Qed.

Lemma session_without_key_sends_nothing_witness :
  exists r w' evs,
    @main demo demo_fs
      (start [Line "  "; Line "3"; Line "links.txt"; Line "4"; Line "2";
              Line "http://rapidgator.net/x"; Line "done"; Line "5"])
    = Some (r, w') /\
    trace w' = evs /\ no_post evs.
Proof.
  exact (@session_without_key_sends_nothing demo demo_fs
           (start [Line "  "; Line "3"; Line "links.txt"; Line "4"; Line "2";
                   Line "http://rapidgator.net/x"; Line "done"; Line "5"])
           "  " _ eq_refl eq_refl).
Defined.

(** X24.  On every input [main] ends: it never needs more turns than there
    are lines.  It returns only by the fifth choice, after printing its
    farewell; otherwise it ends by an exception. *)
Theorem session_ends `{Platform} `{FileSystem} (w : World) :
  exists r w' evs,
    main w = Some (r, w') /\ trace w' = trace w ++ evs /\
    (r = Ok tt -> exists evs0, evs = evs0 ++ [goodbye]).
Proof.
  unfold main.
  assert (Hconf : tame false configure).
  { unfold configure, new_scraper.
    repeat first [apply tame_bind; [|intros ?] | apply tame_say
                 | apply tame_ret | apply tame_ask].
    destruct (negb _);
      repeat first [apply tame_bind; [|intros ?] | apply tame_say
                   | apply tame_ret]. }
  destruct (configure w) as [[scraper|e] w1] eqn:Hrun;
    apply Hconf in Hrun as (evs1 & Ht1 & _ & _).
  - destruct (menu_loop_run scraper (S (length (stdin w1))) w1)
      as (r & w' & evs & -> & Ht & _ & Hbye); [lia|].
    exists r, w', (evs1 ++ evs). rewrite Ht, Ht1, <- (assoc_L (++)).
    split; [done|]. split; [done|].
    intros (evs0 & ->)%Hbye. exists (evs1 ++ evs0).
    by rewrite <- (assoc_L (++)).
  - exists (Err e), w1, evs1. by repeat split.
Qed.
